(** * lockbox.records: fixed-width BAI lockbox records

    A shallow embedding of [src/lockbox/records.py] and the properties of
    its record constructor.

    Conventions of the embedding.
    - Text is a [string] of 8-bit characters read as the code points
      0..255; the tables of Python's [str] methods below are the
      restrictions of the Unicode tables to that range.
    - An instance is its attribute dictionary, a [gmap string value].
    - The class attribute [fields] is a dictionary shared by all the
      instances of a class and [__init__] writes to it, so [__init__]
      takes the class and returns it with the result.  Dictionaries keep
      insertion order, as Python's do since 3.7.
    - Exceptions are values of [exn]; a computation that may raise has
      type [result A]. *)

From Stdlib Require Import ZArith String Ascii List Bool Lia QArith DecimalString.
From stdpp Require Import base strings gmap.

Local Open Scope string_scope.
Local Open Scope Z_scope.

(** ** Exceptions and the error monad *)

Inductive exn : Type :=
| LockboxParseError (msg : string)
| LockboxDefinitionError (msg : string)
| AttributeError (msg : string)
| ValueError
| TypeError.

Inductive result (A : Type) : Type :=
| OK (a : A)
| Raise (e : exn).
Arguments OK {A} a.
Arguments Raise {A} e.

Definition bind {A B : Type} (r : result A) (k : A -> result B) : result B :=
  match r with
  | OK a => k a
  | Raise e => Raise e
  end.

Notation "x <- r ;; k" := (bind r (fun x => k))
  (at level 100, r at next level, k at level 200, right associativity).

(** [for x in xs: self = body(self, x)], leaving at the first exception. *)
Fixpoint for_each {A S : Type} (body : S -> A -> result S) (xs : list A) (s : S)
  : result S :=
  match xs with
  | [] => OK s
  | x :: xs' => s' <- body s x ;; for_each body xs' s'
  end.

(** ** Python's [str] on code points below 256 *)

Definition ord (c : ascii) : Z := Z.of_N (N_of_ascii c).

Definition between (lo hi : Z) (c : ascii) : bool :=
  (lo <=? ord c) && (ord c <=? hi).

Definition one_of (chars : string) (c : ascii) : bool :=
  existsb (Ascii.eqb c) (list_ascii_of_string chars).

(** [str.isspace] of one character, which is also what [str.strip()]
    removes and what [\s] matches in a [str] pattern. *)
Definition isspace (c : ascii) : bool :=
  between 9 13 c || between 28 32 c || (ord c =? 133) || (ord c =? 160).

(** The C-locale white space that [int()] skips around a literal. *)
Definition is_c_space (c : ascii) : bool :=
  between 9 13 c || (ord c =? 32).

Definition is_digit (c : ascii) : bool := between 48 57 c.
Definition is_upper (c : ascii) : bool := between 65 90 c.

(** [str.isnumeric] of one character: the decimal digits, the superscripts
    one to three and the fractions. *)
Definition isnumeric_char (c : ascii) : bool :=
  is_digit c || (ord c =? 178) || (ord c =? 179) || (ord c =? 185)
  || between 188 190 c.

Fixpoint string_forall (p : ascii -> bool) (s : string) : bool :=
  match s with
  | EmptyString => true
  | String c s' => p c && string_forall p s'
  end.

Definition is_empty (s : string) : bool :=
  match s with
  | EmptyString => true
  | String _ _ => false
  end.

Definition isnumeric (s : string) : bool :=
  negb (is_empty s) && string_forall isnumeric_char s.

Definition len (s : string) : Z := Z.of_nat (String.length s).

(** [s\[start:stop\]] for integer bounds of either sign. *)
Definition clamp_index (i n : Z) : Z :=
  if i <? 0 then Z.max (i + n) 0 else Z.min i n.

Definition slice (s : string) (start stop : Z) : string :=
  let a := clamp_index start (len s) in
  let b := clamp_index stop (len s) in
  String.substring (Z.to_nat a) (Z.to_nat (b - a)) s.

Fixpoint lstrip (s : string) : string :=
  match s with
  | EmptyString => EmptyString
  | String c s' => if isspace c then lstrip s' else s
  end.

Fixpoint rstrip (s : string) : string :=
  match s with
  | EmptyString => EmptyString
  | String c s' =>
      match rstrip s' with
      | EmptyString => if isspace c then EmptyString else String c EmptyString
      | t => String c t
      end
  end.

Definition strip (s : string) : string := rstrip (lstrip s).

(** *** [int(s)] in base 10

    Characters from 127 on are first mapped to a space when they are white
    space and to a question mark otherwise (no code point below 256 other
    than the ASCII digits is a decimal digit).  Then: C white space, an
    optional sign, digits with single underscores between them, C white
    space.  The limit on the number of digits is far above the 160
    characters of a record and is left out. *)

Definition to_ascii_literal (c : ascii) : ascii :=
  if ord c <? 127 then c else if isspace c then " "%char else "?"%char.

Fixpoint map_string (f : ascii -> ascii) (s : string) : string :=
  match s with
  | EmptyString => EmptyString
  | String c s' => String (f c) (map_string f s')
  end.

Fixpoint skip_c_space (s : string) : string :=
  match s with
  | EmptyString => EmptyString
  | String c s' => if is_c_space c then skip_c_space s' else s
  end.

Definition digit_value (c : ascii) : Z := ord c - 48.

(** The scan of the digits: [prev_underscore] tells that the last character
    read was an underscore; the result is the value and the unread rest. *)
Fixpoint scan_digits (prev_underscore : bool) (acc : Z) (s : string)
  : option (Z * string) :=
  match s with
  | EmptyString => if prev_underscore then None else Some (acc, s)
  | String c s' =>
      if Ascii.eqb c "_" then
        if prev_underscore then None else scan_digits true acc s'
      else if is_digit c then scan_digits false (10 * acc + digit_value c) s'
      else if prev_underscore then None else Some (acc, s)
  end.

Definition split_sign (s : string) : Z * string :=
  match s with
  | String c s' =>
      if Ascii.eqb c "+" then (1, s')
      else if Ascii.eqb c "-" then (-1, s')
      else (1, s)
  | EmptyString => (1, s)
  end.

Definition starts_with_digit (s : string) : bool :=
  match s with
  | String c _ => is_digit c
  | EmptyString => false
  end.

Definition py_int (s : string) : result Z :=
  let '(sign, body) := split_sign (skip_c_space (map_string to_ascii_literal s)) in
  if starts_with_digit body then
    match scan_digits false 0 body with
    | Some (n, rest) =>
        if is_empty (skip_c_space rest) then OK (sign * n) else Raise ValueError
    | None => Raise ValueError
    end
  else Raise ValueError.

(** ['{}'.format(n)] for an integer. *)
Definition format_int (n : Z) : string := NilZero.string_of_int (Z.to_int n).

(** ** [datetime.date] and [datetime.time] *)

Definition is_leap (year : Z) : bool :=
  (year mod 4 =? 0) && (negb (year mod 100 =? 0) || (year mod 400 =? 0)).

Definition days_in_month (year month : Z) : Z :=
  if month =? 2 then (if is_leap year then 29 else 28)
  else if (month =? 4) || (month =? 6) || (month =? 9) || (month =? 11) then 30
  else 31.

Definition date_ok (year month day : Z) : bool :=
  (1 <=? year) && (year <=? 9999) && (1 <=? month) && (month <=? 12)
  && (1 <=? day) && (day <=? days_in_month year month).

Definition time_ok (hour minute : Z) : bool :=
  (0 <=? hour) && (hour <=? 23) && (0 <=? minute) && (minute <=? 59).

(** ** Values and instances *)

(** A float is written as the quotient it rounds: the module only makes
    floats as [int(s) / 100.0]. *)
Inductive value : Type :=
| VNone
| VStr (s : string)
| VInt (n : Z)
| VFloat (q : Q)
| VDate (year month day : Z)
| VTime (hour minute : Z).

Abbreviation obj := (gmap string value).

Definition setattr (self : obj) (name : string) (v : value) : obj :=
  <[name := v]> self.

Definition date (year month day : Z) : result value :=
  if date_ok year month day then OK (VDate year month day) else Raise ValueError.

Definition time (hour minute : Z) : result value :=
  if time_ok hour minute then OK (VTime hour minute) else Raise ValueError.

(** ** Field types and schemas *)

Module LockboxFieldType.
Definition Numeric : string := "numeric".
Definition Alphanumeric : string := "alphanumeric".
Definition Blank : string := "blank".
Definition AlphanumericOrBlank : string := "alphanumericorblank".
End LockboxFieldType.

Record field_def : Type := {
  location : Z * Z;
  type : string
}.

(** A dictionary in insertion order: the keys are pairwise different. *)
Abbreviation dict := (list (string * field_def)).

Fixpoint dict_set (d : dict) (key : string) (v : field_def) : dict :=
  match d with
  | [] => [(key, v)]
  | (k, w) :: d' =>
      if String.eqb k key then (k, v) :: d' else (k, w) :: dict_set d' key v
  end.

(** A dictionary display [{k1: v1, k2: v2, ...}]: a key written twice keeps
    its first place and its last value. *)
Definition dict_display (items : list (string * field_def)) : dict :=
  fold_left (fun d kv => dict_set d (fst kv) (snd kv)) items [].

(** ** Regular expressions of [_parse]

    [patt.match] tries the pattern at the start of the subject.  [$] holds
    at the end of the subject and also just before a newline that ends it. *)

Definition LF : ascii := "010"%char.
Definition dq : string := String "034"%char EmptyString.

Definition at_dollar (rest : string) : bool :=
  match rest with
  | EmptyString => true
  | String c EmptyString => Ascii.eqb c LF
  | _ => false
  end.

(** [^\[cls\]*$] *)
Fixpoint match_star (cls : ascii -> bool) (s : string) : bool :=
  at_dollar s
  || match s with
     | EmptyString => false
     | String c s' => cls c && match_star cls s'
     end.

(** [^\[cls\]+$] *)
Definition match_plus (cls : ascii -> bool) (s : string) : bool :=
  match s with
  | EmptyString => false
  | String c s' => cls c && match_star cls s'
  end.

(** [\[ A-Z0-9;:,'./()-\]] *)
Definition alphanumeric_class (c : ascii) : bool :=
  Ascii.eqb c " " || is_upper c || is_digit c || one_of ";:,'./()-" c.

(** [\[0-9\]] *)
Definition numeric_class (c : ascii) : bool := is_digit c.

(** [\[ A-Z0-9;%#:',./_&()-\]] *)
Definition alphanumericorblank_class (c : ascii) : bool :=
  Ascii.eqb c " " || is_upper c || is_digit c || one_of ";%#:',./_&()-" c.

Definition compile_pattern (field_type : string) : result (string -> bool) :=
  if String.eqb field_type LockboxFieldType.Alphanumeric then
    OK (match_plus alphanumeric_class)
  else if String.eqb field_type LockboxFieldType.Numeric then
    OK (match_plus numeric_class)
  else if String.eqb field_type LockboxFieldType.Blank then
    OK (match_star isspace)
  else if String.eqb field_type LockboxFieldType.AlphanumericOrBlank then
    OK (fun s => at_dollar s || match_plus alphanumericorblank_class s)
  else
    Raise (LockboxDefinitionError
             ("invalid field type found: " +:+ dq +:+ field_type +:+ dq)).

(** ** Classes

    What the module's code reads from the class of an instance.  The
    namespace holds the data: the class's name, [MAX_RECORD_LENGTH],
    [RECORD_TYPE_NUM], the dictionary [fields] when the class body has one,
    and the names of whatever else the class body defines (["validate"]
    among them when it defines the method).  A method receives the
    instance, from which it reaches the namespace of the class. *)

Record namespace : Type := {
  class_name : string;
  MAX_RECORD_LENGTH : Z;
  RECORD_TYPE_NUM : option Z;
  fields : option dict;
  defines : list string
}.

Record record_class : Type := {
  class_of :> namespace;
  validate : option (namespace -> obj -> result obj)
}.

Definition with_fields (c : record_class) (d : dict) : record_class :=
  {| class_of :=
       {| class_name := class_name c;
          MAX_RECORD_LENGTH := MAX_RECORD_LENGTH c;
          RECORD_TYPE_NUM := RECORD_TYPE_NUM c;
          fields := Some d;
          defines := defines c |};
     validate := validate c |}.

(** The attributes every instance finds on [object] and on
    [LockboxBaseRecord]. *)
Definition inherited_attributes : list string :=
  [ "__class__"; "__delattr__"; "__dict__"; "__dir__"; "__doc__"; "__eq__";
    "__format__"; "__ge__"; "__getattribute__"; "__getstate__"; "__gt__";
    "__hash__"; "__init__"; "__init_subclass__"; "__le__"; "__lt__";
    "__module__"; "__ne__"; "__new__"; "__reduce__"; "__reduce_ex__";
    "__repr__"; "__setattr__"; "__sizeof__"; "__str__"; "__subclasshook__";
    "__weakref__";
    "MAX_RECORD_LENGTH"; "RECORD_TYPE_NUM"; "raw_record_text"; "children";
    "_parse"; "_parse_as_date"; "_parse_as_time" ].

Definition is_some {A : Type} (o : option A) : bool :=
  match o with
  | Some _ => true
  | None => false
  end.

Definition mem (name : string) (names : list string) : bool :=
  existsb (String.eqb name) names.

Definition class_hasattr (c : namespace) (name : string) : bool :=
  mem name inherited_attributes
  || mem name (defines c)
  || (String.eqb name "fields" && is_some (fields c)).

Definition hasattr (c : namespace) (self : obj) (name : string) : bool :=
  is_some (self !! name) || class_hasattr c name.

(** [self.raw_record_text]: the instance attribute, else the class's [''] . *)
Definition raw_record_text (self : obj) : string :=
  match self !! "raw_record_text" with
  | Some (VStr s) => s
  | _ => EmptyString
  end.

(** [self._x_raw] where the code goes on to use it as a [str]. *)
Definition getattr_str (c : namespace) (self : obj) (name : string)
  : result string :=
  match self !! name with
  | Some (VStr s) => OK s
  | Some _ => Raise TypeError
  | None =>
      Raise (AttributeError
               ("'" +:+ class_name c +:+ "' object has no attribute '"
                    +:+ name +:+ "'"))
  end.

Definition raw_name (field_name : string) : string :=
  "_" +:+ field_name +:+ "_raw".

(** ** [LockboxBaseRecord._parse] *)

Definition items (c : namespace) : dict :=
  match fields c with
  | Some d => d
  | None => []
  end.

(** One turn of the loop of [_parse]. *)
Definition parse_field (c : namespace) (self : obj)
    (item : string * field_def) : result obj :=
  let '(field_name, field_def) := item in
  let raw_field_name := raw_name field_name in
  if hasattr c self field_name then
    Raise (AttributeError
             ("LockboxRecord already has field " +:+ dq +:+ field_name +:+ dq))
  else
    let '(start_col, end_col) := location field_def in
    let raw_field := slice (raw_record_text self) start_col end_col in
    patt <- compile_pattern (type field_def) ;;
    if negb (patt (strip raw_field)) then
      Raise (LockboxParseError
               ("field " +:+ field_name +:+ " does not match expected type "
                  +:+ type field_def +:+ ", value = " +:+ dq +:+ raw_field
                  +:+ dq))
    else OK (setattr self raw_field_name (VStr raw_field)).

Definition _parse (c : namespace) (self : obj) : result obj :=
  for_each (parse_field c) (items c) self.

(** ** [_parse_as_date] and [_parse_as_time] *)

(** [try: body except ValueError: raise LockboxDefinitionError(msg)] *)
Definition except_ValueError {A : Type} (body : result A) (msg : string)
  : result A :=
  match body with
  | Raise ValueError => Raise (LockboxDefinitionError msg)
  | r => r
  end.

Definition has_no_field (c : namespace) (field_name : string) : exn :=
  AttributeError
    ("'" +:+ class_name c +:+ "' has no field '" +:+ field_name +:+ "'").

Definition _parse_as_date (c : namespace) (self : obj)
    (field_name : string) (mmddyy : bool) : result value :=
  let raw_field_name := raw_name field_name in
  if negb (hasattr c self raw_field_name) then Raise (has_no_field c field_name)
  else
    field_val <- getattr_str c self raw_field_name ;;
    except_ValueError
      (if negb (len field_val =? 6) then Raise ValueError
       else if negb mmddyy then
         year <- py_int (slice field_val 0 2) ;;
         month <- py_int (slice field_val 2 4) ;;
         day <- py_int (slice field_val 4 6) ;;
         date (year + 2000) month day
       else
         year <- py_int (slice field_val 4 6) ;;
         month <- py_int (slice field_val 0 2) ;;
         day <- py_int (slice field_val 2 4) ;;
         date (year + 2000) month day)
      (field_val +:+ " is not a valid YYMMDD-formatted date").

Definition _parse_as_time (c : namespace) (self : obj)
    (field_name : string) : result value :=
  let raw_field_name := raw_name field_name in
  if negb (hasattr c self raw_field_name) then Raise (has_no_field c field_name)
  else
    field_val <- getattr_str c self raw_field_name ;;
    except_ValueError
      (if negb (len field_val =? 4) then Raise ValueError
       else
         hour <- py_int (slice field_val 0 2) ;;
         minute <- py_int (slice field_val 2 4) ;;
         time hour minute)
      (field_val +:+ " is not a valid HHMM formatted date").

(** ** [LockboxBaseRecord.__init__] *)

(** One turn of the loop that creates the fields [validate] left out. *)
Definition expose_field (c : namespace) (self : obj)
    (item : string * field_def) : obj :=
  let '(field_name, field_def) := item in
  if hasattr c self field_name then self
  else
    let raw_field_val :=
      if String.eqb (type field_def) LockboxFieldType.Blank then VNone
      else default VNone (self !! raw_name field_name) in
    setattr self field_name raw_field_val.

Definition record_type_field : field_def :=
  {| location := (0, 1); type := LockboxFieldType.Numeric |}.

Definition __init__ (c : record_class) (text : string)
  : record_class * result obj :=
  if MAX_RECORD_LENGTH c <? len text then
    (c, Raise (LockboxParseError
                 ("record longer than " +:+ format_int (MAX_RECORD_LENGTH c))))
  else
    let self := setattr ∅ "raw_record_text" (VStr text) in
    match fields c with
    | None => (c, OK self)
    | Some d =>
        let c := with_fields c (dict_set d "record_type" record_type_field) in
        (c,
         self <- _parse c self ;;
         self <- match validate c with
                 | Some v => v (class_of c) self
                 | None => OK self
                 end ;;
         OK (fold_left (expose_field c) (items c) self))
    end.

(** ** The record classes of the module *)

Import LockboxFieldType.

Definition field (name : string) (start_col end_col : Z) (ty : string)
  : string * field_def :=
  (name, {| location := (start_col, end_col); type := ty |}).

Definition LockboxBaseRecord : record_class :=
  {| class_of := {| class_name := "LockboxBaseRecord";
                    MAX_RECORD_LENGTH := 160;
                    RECORD_TYPE_NUM := None;
                    fields := None;
                    defines := [] |};
     validate := None |}.

(** [class name(LockboxBaseRecord)] with a [fields] display and, when
    given, a [validate] method. *)
Definition subclass (name : string) (num : Z)
    (display : list (string * field_def))
    (v : option (namespace -> obj -> result obj)) : record_class :=
  {| class_of := {| class_name := name;
                    MAX_RECORD_LENGTH := MAX_RECORD_LENGTH LockboxBaseRecord;
                    RECORD_TYPE_NUM := Some num;
                    fields := Some (dict_display display);
                    defines := if is_some v then ["validate"] else [] |};
     validate := v |}.

(** [self.name = int(self._name_raw)] *)
Definition set_int (c : namespace) (self : obj) (name : string) : result obj :=
  raw <- getattr_str c self (raw_name name) ;;
  n <- py_int raw ;;
  OK (setattr self name (VInt n)).

(** [self.name = int(self._name_raw) / 100.0] *)
Definition set_hundredths (c : namespace) (self : obj) (name : string)
  : result obj :=
  raw <- getattr_str c self (raw_name name) ;;
  n <- py_int raw ;;
  OK (setattr self name (VFloat (Qmake n 100))).

(** [self.name = self._parse_as_date('name')] *)
Definition set_date (c : namespace) (self : obj) (name : string) : result obj :=
  d <- _parse_as_date c self name false ;;
  OK (setattr self name d).

(** [self.name = self._parse_as_time('name')] *)
Definition set_time (c : namespace) (self : obj) (name : string) : result obj :=
  t <- _parse_as_time c self name ;;
  OK (setattr self name t).

(** [if not self._name_raw.isnumeric(): self._name_raw = '0'] *)
Definition zero_unless_numeric (c : namespace) (self : obj) (name : string)
  : result obj :=
  raw <- getattr_str c self (raw_name name) ;;
  OK (if negb (isnumeric raw) then setattr self (raw_name name) (VStr "0")
      else self).

(** [if len(self._name_raw) == 0: self._name_raw = '0'] *)
Definition zero_if_empty (c : namespace) (self : obj) (name : string)
  : result obj :=
  raw <- getattr_str c self (raw_name name) ;;
  OK (if len raw =? 0 then setattr self (raw_name name) (VStr "0") else self).

Module LockboxImmediateAddressHeader.
Definition fields_display : list (string * field_def) :=
  [ field "priority_code" 1 3 Numeric;
    field "destination_id" 3 13 Alphanumeric;
    field "originating_trn" 13 23 Numeric;
    field "processing_date" 23 29 Numeric;
    field "processing_time" 29 33 Numeric;
    field "filler" 33 104 AlphanumericOrBlank ].

Definition validate (c : namespace) (self : obj) : result obj :=
  self <- set_date c self "processing_date" ;;
  set_time c self "processing_time".
End LockboxImmediateAddressHeader.

Module LockboxServiceRecord.
Definition fields_display : list (string * field_def) :=
  [ field "destination" 1 11 AlphanumericOrBlank;
    field "bank_origin" 11 21 AlphanumericOrBlank;
    field "reference_code" 21 31 AlphanumericOrBlank;
    field "service_code" 31 34 AlphanumericOrBlank;
    field "record_length" 34 37 AlphanumericOrBlank;
    field "characters_per_block" 37 41 AlphanumericOrBlank;
    field "partial_compression" 41 42 AlphanumericOrBlank;
    field "filler" 42 81 Blank ].
End LockboxServiceRecord.

Module LockboxDetailHeader.
Definition fields_display : list (string * field_def) :=
  [ field "batch_number" 1 4 AlphanumericOrBlank;
    field "item_number" 4 7 AlphanumericOrBlank;
    field "lockbox_number" 7 14 AlphanumericOrBlank;
    field "deposit_date" 14 20 AlphanumericOrBlank;
    field "destination" 20 30 AlphanumericOrBlank;
    field "destination" 30 40 AlphanumericOrBlank;
    field "filler" 40 104 AlphanumericOrBlank ].

Definition validate (c : namespace) (self : obj) : result obj :=
  set_int c self "batch_number".
End LockboxDetailHeader.

Module LockboxDetailRecord.
Definition fields_display : list (string * field_def) :=
  [ field "batch_number" 1 4 AlphanumericOrBlank;
    field "item_number" 4 7 AlphanumericOrBlank;
    field "check_amount" 7 17 AlphanumericOrBlank;
    field "transit_routing_number" 17 26 AlphanumericOrBlank;
    field "dd_account_number" 26 40 AlphanumericOrBlank;
    field "check_number" 40 50 AlphanumericOrBlank;
    field "filler" 50 77 AlphanumericOrBlank ].

Definition validate (c : namespace) (self : obj) : result obj :=
  self <- zero_unless_numeric c self "batch_number" ;;
  self <- set_int c self "batch_number" ;;
  self <- zero_unless_numeric c self "item_number" ;;
  self <- zero_unless_numeric c self "check_amount" ;;
  self <- set_hundredths c self "check_amount" ;;
  self <- zero_if_empty c self "check_number" ;;
  self <- zero_unless_numeric c self "check_number" ;;
  set_int c self "check_number".
End LockboxDetailRecord.

Module LockboxDetailOverflowRecord.
Definition fields_display : list (string * field_def) :=
  [ field "batch_number" 1 4 AlphanumericOrBlank;
    field "item_number" 4 7 AlphanumericOrBlank;
    field "overflow_record_type" 7 8 AlphanumericOrBlank;
    field "overflow_sequence_number" 8 10 AlphanumericOrBlank;
    field "overflow_code" 10 11 AlphanumericOrBlank;
    field "memo_line" 11 80 AlphanumericOrBlank ].

Definition validate (c : namespace) (self : obj) : result obj :=
  self <- set_int c self "batch_number" ;;
  self <- set_int c self "item_number" ;;
  self <- set_int c self "overflow_record_type" ;;
  set_int c self "overflow_sequence_number".
End LockboxDetailOverflowRecord.

Module LockboxBatchTotalRecord.
Definition fields_display : list (string * field_def) :=
  [ field "batch_number" 1 4 AlphanumericOrBlank;
    field "item_number" 4 7 AlphanumericOrBlank;
    field "lockbox_number" 7 14 AlphanumericOrBlank;
    field "deposit_date" 14 20 AlphanumericOrBlank;
    field "total_number_remittances" 20 23 AlphanumericOrBlank;
    field "check_dollar_total" 23 33 Numeric;
    field "filler" 33 81 AlphanumericOrBlank ].

Definition validate (c : namespace) (self : obj) : result obj :=
  self <- set_int c self "batch_number" ;;
  self <- set_int c self "item_number" ;;
  self <- set_date c self "deposit_date" ;;
  self <- set_int c self "total_number_remittances" ;;
  set_hundredths c self "check_dollar_total".
End LockboxBatchTotalRecord.

Module LockboxServiceTotalRecord.
Definition fields_display : list (string * field_def) :=
  [ field "batch_number" 1 4 Numeric;
    field "item_number" 4 7 Numeric;
    field "lockbox_number" 7 14 AlphanumericOrBlank;
    field "deposit_date" 14 20 Numeric;
    field "total_num_checks" 20 24 Numeric;
    field "check_dollar_total" 24 34 Numeric;
    field "last_record_indicator" 34 35 AlphanumericOrBlank;
    field "filler" 35 104 AlphanumericOrBlank ].

Definition validate (c : namespace) (self : obj) : result obj :=
  self <- set_int c self "batch_number" ;;
  self <- set_int c self "item_number" ;;
  self <- set_date c self "deposit_date" ;;
  self <- set_int c self "total_num_checks" ;;
  set_hundredths c self "check_dollar_total".
End LockboxServiceTotalRecord.

Module LockboxDestinationTrailerRecord.
Definition fields_display : list (string * field_def) :=
  [ field "total_num_records" 1 7 Numeric;
    field "filler" 7 80 Blank ].

Definition validate (c : namespace) (self : obj) : result obj :=
  set_int c self "total_num_records".
End LockboxDestinationTrailerRecord.

(** The nine record kinds. *)
Inductive kind : Type :=
| BaseRecord
| ImmediateAddressHeader
| ServiceRecord
| DetailHeader
| DetailRecord
| DetailOverflowRecord
| BatchTotalRecord
| ServiceTotalRecord
| DestinationTrailerRecord.

(** The class of a kind as the module defines it, before any instance is
    made. *)
Definition lockbox_class (k : kind) : record_class :=
  match k with
  | BaseRecord => LockboxBaseRecord
  | ImmediateAddressHeader =>
      subclass "LockboxImmediateAddressHeader" 1
        LockboxImmediateAddressHeader.fields_display
        (Some LockboxImmediateAddressHeader.validate)
  | ServiceRecord =>
      subclass "LockboxServiceRecord" 2 LockboxServiceRecord.fields_display None
  | DetailHeader =>
      subclass "LockboxDetailHeader" 5 LockboxDetailHeader.fields_display
        (Some LockboxDetailHeader.validate)
  | DetailRecord =>
      subclass "LockboxDetailRecord" 6 LockboxDetailRecord.fields_display
        (Some LockboxDetailRecord.validate)
  | DetailOverflowRecord =>
      subclass "LockboxDetailOverflowRecord" 4
        LockboxDetailOverflowRecord.fields_display
        (Some LockboxDetailOverflowRecord.validate)
  | BatchTotalRecord =>
      subclass "LockboxBatchTotalRecord" 7
        LockboxBatchTotalRecord.fields_display
        (Some LockboxBatchTotalRecord.validate)
  | ServiceTotalRecord =>
      subclass "LockboxServiceTotalRecord" 8
        LockboxServiceTotalRecord.fields_display
        (Some LockboxServiceTotalRecord.validate)
  | DestinationTrailerRecord =>
      subclass "LockboxDestinationTrailerRecord" 9
        LockboxDestinationTrailerRecord.fields_display
        (Some LockboxDestinationTrailerRecord.validate)
  end.

(** The result of making the first instance of a kind from a line. *)
Definition construct (k : kind) (text : string) : result obj :=
  snd (__init__ (lockbox_class k) text).

(** ** Vocabulary of the statements *)

(** The instance as [__init__] hands it to [_parse]. *)
Definition fresh (text : string) : obj :=
  setattr ∅ "raw_record_text" (VStr text).

(** The class as [__init__] leaves it: [fields] has the key [record_type]. *)
Definition prepared (c : record_class) : record_class :=
  match fields c with
  | Some d => with_fields c (dict_set d "record_type" record_type_field)
  | None => c
  end.

(** The dictionary that [_parse] and the last loop of [__init__] go through. *)
Definition schema (c : record_class) : dict := items (prepared c).

(** The class after instances were made from the lines [texts], in turn. *)
Definition after (c : record_class) (texts : list string) : record_class :=
  fold_left (fun c text => fst (__init__ c text)) texts c.

Definition column (text : string) (fd : field_def) : string :=
  slice text (fst (location fd)) (snd (location fd)).

(** The test of one field in [_parse]: its pattern matches the trimmed
    column. *)
Definition accepts (text : string) (fd : field_def) : bool :=
  match compile_pattern (type fd) with
  | OK patt => patt (strip (column text fd))
  | Raise _ => false
  end.

(** The assignment that ends a turn of the loop of [_parse]. *)
Definition store_raw (text : string) (self : obj) (item : string * field_def)
  : obj :=
  setattr self (raw_name (fst item)) (VStr (column text (snd item))).

Definition already_has_field (field_name : string) : exn :=
  AttributeError
    ("LockboxRecord already has field " +:+ dq +:+ field_name +:+ dq).

Definition too_long : exn := LockboxParseError "record longer than 160".

Definition is_parse_error (e : exn) : bool :=
  match e with
  | LockboxParseError _ => true
  | _ => false
  end.

Definition is_number (v : value) : bool :=
  match v with
  | VInt _ | VFloat _ => true
  | _ => false
  end.

(** The raw value after the fallback of [LockboxDetailRecord.validate]. *)
Definition lenient (raw : string) : string :=
  if isnumeric raw then raw else "0".

(** The fields that [validate] hands to [int()] with no fallback. *)
Definition integer_fields (k : kind) : list string :=
  match k with
  | DetailHeader => ["batch_number"]
  | DetailOverflowRecord =>
      ["batch_number"; "item_number"; "overflow_record_type";
       "overflow_sequence_number"]
  | BatchTotalRecord =>
      ["batch_number"; "item_number"; "total_number_remittances";
       "check_dollar_total"]
  | ServiceTotalRecord =>
      ["batch_number"; "item_number"; "total_num_checks";
       "check_dollar_total"]
  | DestinationTrailerRecord => ["total_num_records"]
  | _ => []
  end.

Definition not_a_date (field_val : string) : exn :=
  LockboxDefinitionError (field_val +:+ " is not a valid YYMMDD-formatted date").

(** The character set that the specification gives for [Alphanumeric]:
    space, A-Z, 0-9 and [;:,./()-]. *)
Definition spec_alphanumeric_set (c : ascii) : bool :=
  Ascii.eqb c " " || is_upper c || is_digit c || one_of ";:,./()-" c.

Definition two_digits (a b : ascii) : Z := 10 * digit_value a + digit_value b.

Definition string6 (a b c d e f : ascii) : string :=
  String a (String b (String c (String d (String e (String f EmptyString))))).

(** Lines used as examples. *)
Definition header_line : string := "101ONEIL     12345678902506151345".
Definition header_line_apostrophe : string :=
  "101O'NEIL    12345678902506151345".
Definition detail_header_line : string :=
  "50010021234567250615DEST      DEST2     ".
Definition detail_header_line_letters : string :=
  "5ABC0021234567250615DEST      DEST2     ".
Definition detail_line : string := "60010020000012345".
Definition detail_line_malformed : string := "6 01ABC00000ABCDE".

(** The instance made from a line that gives one. *)
Definition instance (k : kind) (text : string) : obj :=
  match construct k text with
  | OK o => o
  | Raise _ => ∅
  end.

(** A class whose schema names a field like an attribute that every
    instance already has. *)
Definition clashing_class : record_class :=
  subclass "Clashing" 0 [field "children" 1 3 Numeric] None.

(** ** The statements of the [validate] methods

    Every [validate] is a sequence of statements of six shapes.  [exec]
    runs one of them and [body] lists the statements of each method, so
    that what holds of all of them is proved once ([validate_body] below
    relates the list to the method). *)

Inductive statement : Type :=
| SetInt (name : string)
| SetHundredths (name : string)
| SetDate (name : string)
| SetTime (name : string)
| ZeroUnlessNumeric (name : string)
| ZeroIfEmpty (name : string).

Definition exec (c : namespace) (self : obj) (st : statement) : result obj :=
  match st with
  | SetInt name => set_int c self name
  | SetHundredths name => set_hundredths c self name
  | SetDate name => set_date c self name
  | SetTime name => set_time c self name
  | ZeroUnlessNumeric name => zero_unless_numeric c self name
  | ZeroIfEmpty name => zero_if_empty c self name
  end.

Definition subject (st : statement) : string :=
  match st with
  | SetInt name | SetHundredths name | SetDate name | SetTime name
  | ZeroUnlessNumeric name | ZeroIfEmpty name => name
  end.

(** The attribute that a statement assigns. *)
Definition written (st : statement) : string :=
  match st with
  | SetInt name | SetHundredths name | SetDate name | SetTime name => name
  | ZeroUnlessNumeric name | ZeroIfEmpty name => raw_name name
  end.

Definition body (k : kind) : list statement :=
  match k with
  | BaseRecord | ServiceRecord => []
  | ImmediateAddressHeader =>
      [SetDate "processing_date"; SetTime "processing_time"]
  | DetailHeader => [SetInt "batch_number"]
  | DetailRecord =>
      [ZeroUnlessNumeric "batch_number"; SetInt "batch_number";
       ZeroUnlessNumeric "item_number";
       ZeroUnlessNumeric "check_amount"; SetHundredths "check_amount";
       ZeroIfEmpty "check_number"; ZeroUnlessNumeric "check_number";
       SetInt "check_number"]
  | DetailOverflowRecord =>
      [SetInt "batch_number"; SetInt "item_number";
       SetInt "overflow_record_type"; SetInt "overflow_sequence_number"]
  | BatchTotalRecord =>
      [SetInt "batch_number"; SetInt "item_number"; SetDate "deposit_date";
       SetInt "total_number_remittances"; SetHundredths "check_dollar_total"]
  | ServiceTotalRecord =>
      [SetInt "batch_number"; SetInt "item_number"; SetDate "deposit_date";
       SetInt "total_num_checks"; SetHundredths "check_dollar_total"]
  | DestinationTrailerRecord => [SetInt "total_num_records"]
  end.

(** The statements with no fallback. *)
Definition is_hard (st : statement) : bool :=
  match st with
  | SetInt _ | SetHundredths _ | SetDate _ => true
  | _ => false
  end.

(** The fields whose attribute or raw value [validate] assigns. *)
Definition validated (k : kind) : list string := map subject (body k).

Definition names (k : kind) : list string :=
  map fst (schema (lockbox_class k)).

(** What the proofs use of the schema of a kind: the names are pairwise
    different, none is an attribute of the class, none has the form of a
    raw attribute of a field, [validate] only works on fields of the
    schema and assigns no Blank field. *)
Definition well_formed (k : kind) : bool :=
  bool_decide (NoDup (names k))
  && forallb (fun nm => negb (class_hasattr (prepared (lockbox_class k)) nm))
       (names k)
  && forallb (fun nm =>
                forallb (fun nm' => negb (String.eqb nm (raw_name nm')))
                  (names k))
       (names k)
  && forallb (fun st => mem (subject st) (names k)) (body k)
  && forallb (fun item =>
                negb (String.eqb (type (snd item)) Blank)
                || negb (mem (fst item) (map written (body k))))
       (schema (lockbox_class k)).

(** ** Vocabulary of the further properties *)

Definition not_a_time (field_val : string) : exn :=
  LockboxDefinitionError (field_val +:+ " is not a valid HHMM formatted date").

(** The error of [_parse] for a field whose column fails the test. *)
Definition mismatch (field_name : string) (fd : field_def) (raw_field : string)
  : exn :=
  LockboxParseError
    ("field " +:+ field_name +:+ " does not match expected type "
       +:+ type fd +:+ ", value = " +:+ dq +:+ raw_field +:+ dq).

Definition invalid_field_type (field_type : string) : exn :=
  LockboxDefinitionError
    ("invalid field type found: " +:+ dq +:+ field_type +:+ dq).

(** What [_parse_as_date] makes of a raw value that is a string: the [try]
    block and its handler. *)
Definition decode_date (field_val : string) (mmddyy : bool) : result value :=
  except_ValueError
    (if negb (len field_val =? 6) then Raise ValueError
     else if negb mmddyy then
       year <- py_int (slice field_val 0 2) ;;
       month <- py_int (slice field_val 2 4) ;;
       day <- py_int (slice field_val 4 6) ;;
       date (year + 2000) month day
     else
       year <- py_int (slice field_val 4 6) ;;
       month <- py_int (slice field_val 0 2) ;;
       day <- py_int (slice field_val 2 4) ;;
       date (year + 2000) month day)
    (field_val +:+ " is not a valid YYMMDD-formatted date").

(** The same for [_parse_as_time]. *)
Definition decode_time (field_val : string) : result value :=
  except_ValueError
    (if negb (len field_val =? 4) then Raise ValueError
     else
       hour <- py_int (slice field_val 0 2) ;;
       minute <- py_int (slice field_val 2 4) ;;
       time hour minute)
    (field_val +:+ " is not a valid HHMM formatted date").

(** The value that a statement of a [validate] method assigns, from the raw
    value of its field. *)
Definition convert (st : statement) (raw : string) : result value :=
  match st with
  | SetInt _ => n <- py_int raw ;; OK (VInt n)
  | SetHundredths _ => n <- py_int raw ;; OK (VFloat (Qmake n 100))
  | SetDate _ => decode_date raw false
  | SetTime _ => decode_time raw
  | ZeroUnlessNumeric _ => OK (VStr (lenient raw))
  | ZeroIfEmpty _ => OK (VStr (if len raw =? 0 then "0" else raw))
  end.

(** The statements that assign the attribute of a field, not its raw
    value. *)
Definition converts (st : statement) : bool :=
  match st with
  | ZeroUnlessNumeric _ | ZeroIfEmpty _ => false
  | _ => true
  end.

(** The kinds whose [validate] has no fallback: all of them but
    [DetailRecord]. *)
Definition converts_only (k : kind) : bool := forallb converts (body k).

Definition known_type (field_type : string) : bool :=
  mem field_type
    [LockboxFieldType.Alphanumeric; LockboxFieldType.Numeric;
     LockboxFieldType.Blank; LockboxFieldType.AlphanumericOrBlank].

(** [d\[key\]], when the key is there. *)
Fixpoint dict_get (d : dict) (key : string) : option field_def :=
  match d with
  | [] => None
  | (k, v) :: d' => if String.eqb k key then Some v else dict_get d' key
  end.

Definition width (fd : field_def) : Z :=
  snd (location fd) - fst (location fd).

Definition string4 (a b c d : ascii) : string :=
  String a (String b (String c (String d EmptyString))).


(** The names of a schema are free on an instance: none is an attribute of
    the class or of the instance, and none has the form of the raw
    attribute of one of them. *)
Definition free_names (c : namespace) (fs : dict) (self : obj) : Prop :=
  (forall nm, In nm (map fst fs) ->
              class_hasattr c nm = false /\ self !! nm = None)
  /\ (forall nm nm', In nm (map fst fs) -> In nm' (map fst fs) ->
                     nm <> raw_name nm').

Definition service_total_line : string :=
  "8001002123456725010100050000012345".
Definition trailer_line : string := "9000012".

(** The two lines have the same characters in the columns of every field
    of the schema. *)
Definition same_columns (fs : dict) (text text' : string) : bool :=
  forallb (fun item =>
             String.eqb (column text (snd item)) (column text' (snd item)))
    fs.

(** [detail_header_line] with other characters in the columns 20 to 30. *)
Definition detail_header_line_other : string :=
  "50010021234567250615dest?*    DEST2     ".

(** ** Vocabulary of the order of the conversions *)

(** The column of the field [nm] of a kind. *)
Definition field_column (k : kind) (text nm : string) : string :=
  match dict_get (schema (lockbox_class k)) nm with
  | Some fd => column text fd
  | None => EmptyString
  end.

(** [int(s)] returns. *)
Definition accepted_by_int (s : string) : bool :=
  match py_int s with
  | OK _ => true
  | Raise _ => false
  end.

(** [s] is a date YYMMDD for [_parse_as_date]. *)
Definition valid_date (s : string) : bool :=
  match decode_date s false with
  | OK _ => true
  | Raise _ => false
  end.

(** The integer fields that [validate] converts before it decodes
    [deposit_date], and those it converts after: only the two kinds of
    totals both decode the date and convert integers. *)
Definition converted_before_date (k : kind) : list string :=
  match k with
  | BatchTotalRecord | ServiceTotalRecord => ["batch_number"; "item_number"]
  | _ => []
  end.

Definition converted_after_date (k : kind) : list string :=
  match k with
  | BatchTotalRecord => ["total_number_remittances"; "check_dollar_total"]
  | ServiceTotalRecord => ["total_num_checks"; "check_dollar_total"]
  | _ => []
  end.

(** The date of the line is decoded before the field [nm] is converted,
    nothing fails before the date, and the date is invalid. *)
Definition date_fails_first (k : kind) (text nm : string) : bool :=
  mem nm (converted_after_date k)
  && forallb (fun nm' => accepted_by_int (field_column k text nm'))
       (converted_before_date k)
  && negb (valid_date (field_column k text "deposit_date")).

(** The error of the first statement whose conversion fails, on the raw
    values [R]. *)
Fixpoint first_error (R : string -> string) (sts : list statement)
  : option exn :=
  match sts with
  | [] => None
  | st :: sts' =>
      match convert st (R (subject st)) with
      | Raise e => Some e
      | OK _ => first_error R sts'
      end
  end.

(** A detail header with the batch number [ABC] and the date [999999], and
    two batch totals with that date: one with the batch number [ABC], one
    with the number of remittances [ABC]. *)
Definition detail_header_line_bad_date : string := "5ABC0021234567999999".
Definition batch_total_line_bad_batch : string :=
  "7ABC00212345679999990050000012345".
Definition batch_total_line_bad_count : string :=
  "70010021234567999999ABC0000012345".

(** A class whose schema has a field of a type that is none of the four. *)
Definition mistyped_class : record_class :=
  subclass "Mistyped" 0 [field "amount" 1 3 "decimal"] None.

(** * Properties *)

(** ** Strings *)

Lemma append_cons (a : ascii) (s t : string) :
  String a s +:+ t = String a (s +:+ t).
Proof. reflexivity. Qed.

Lemma length_append (s t : string) :
  String.length (s +:+ t) = (String.length s + String.length t)%nat.
Proof. induction s as [|a s IH]; simpl; [reflexivity|]. f_equal. exact IH. Qed.

Lemma append_inj_r (s t u : string) : s +:+ u = t +:+ u -> s = t.
Proof.
  intros H.
  assert (Hlen : String.length s = String.length t).
  { apply (f_equal String.length) in H.
    rewrite !length_append in H. lia. }
  revert t H Hlen. induction s as [|a s IH]; intros [|b t] H Hlen;
    simpl in Hlen; try discriminate; [reflexivity|].
  rewrite !append_cons in H. injection H as -> H. f_equal. apply IH; [exact H|lia].
Qed.

Lemma raw_name_inj (a b : string) : raw_name a = raw_name b -> a = b.
Proof.
  unfold raw_name. rewrite !append_cons. intros H. injection H as H.
  change (a +:+ "_raw" = b +:+ "_raw") in H. exact (append_inj_r _ _ _ H).
Qed.

Lemma raw_name_not_text (nm : string) : raw_name nm <> "raw_record_text".
Proof. unfold raw_name. rewrite append_cons. discriminate. Qed.

(** ** The error monad *)

Lemma bind_OK {A B : Type} (r : result A) (k : A -> result B) (b : B) :
  bind r k = OK b -> exists a, r = OK a /\ k a = OK b.
Proof. destruct r as [a|e]; simpl; [eauto|discriminate]. Qed.

Lemma bind_Raise {A B : Type} (r : result A) (k : A -> result B) (e : exn) :
  bind r k = Raise e -> r = Raise e \/ exists a, r = OK a /\ k a = Raise e.
Proof. destruct r as [a|e']; simpl; [eauto|intros [= ->]; auto]. Qed.

(** ** [_parse] *)

Section Parse.
Variable c : namespace.

Lemma raw_record_text_store (text : string) (self : obj)
    (item : string * field_def) :
  raw_record_text (store_raw text self item) = raw_record_text self.
Proof.
  unfold raw_record_text, store_raw, setattr.
  rewrite lookup_insert_ne; [reflexivity|apply raw_name_not_text].
Qed.

Lemma parse_field_OK (self o : obj) (item : string * field_def) :
  parse_field c self item = OK o ->
  hasattr c self (fst item) = false
  /\ accepts (raw_record_text self) (snd item) = true
  /\ o = store_raw (raw_record_text self) self item.
Proof.
  destruct item as [nm fd]. unfold parse_field, accepts, store_raw, column.
  simpl. destruct (hasattr c self nm); [discriminate|].
  destruct (location fd) as [a b]. simpl.
  destruct (compile_pattern (type fd)) as [patt|e]; simpl; [|discriminate].
  destruct (patt _); simpl; [|discriminate].
  intros [= <-]. auto.
Qed.

(** A successful [_parse] stores the column of every field, untrimmed,
    after testing each of them. *)
Lemma for_each_parse_OK (fs : dict) (self o : obj) :
  for_each (parse_field c) fs self = OK o ->
  o = fold_left (store_raw (raw_record_text self)) fs self
  /\ Forall (fun item => accepts (raw_record_text self) (snd item) = true) fs.
Proof.
  revert self. induction fs as [|item fs IH]; intros self; simpl.
  - intros [= <-]. auto.
  - intros H. apply bind_OK in H as (o1 & H1 & H2).
    apply parse_field_OK in H1 as (_ & Hacc & ->).
    apply IH in H2 as [-> HF]. rewrite raw_record_text_store in *.
    auto.
Qed.

Lemma parse_field_Raise (self : obj) (item : string * field_def) (e : exn) :
  parse_field c self item = Raise e ->
  e <> too_long /\ e <> ValueError.
Proof.
  destruct item as [nm fd]. unfold parse_field.
  destruct (hasattr c self nm); [intros [= <-]; split; discriminate|].
  destruct (location fd) as [a b].
  unfold compile_pattern.
  repeat (match goal with
          | |- context [if ?b then _ else _] => destruct b
          end; simpl);
    intros [= <-]; split; discriminate.
Qed.

Lemma for_each_parse_Raise (fs : dict) (self : obj) (e : exn) :
  for_each (parse_field c) fs self = Raise e ->
  e <> too_long /\ e <> ValueError.
Proof.
  revert self. induction fs as [|item fs IH]; intros self; simpl.
  - discriminate.
  - intros H. apply bind_Raise in H as [H|(o1 & _ & H)].
    + eapply parse_field_Raise, H.
    + eapply IH, H.
Qed.
End Parse.

Lemma store_raw_other (text : string) (fs : dict) (self : obj) (key : string) :
  (forall item, In item fs -> raw_name (fst item) <> key) ->
  fold_left (store_raw text) fs self !! key = self !! key.
Proof.
  revert self. induction fs as [|item fs IH]; intros self Hne; simpl.
  - reflexivity.
  - rewrite IH by (intros; apply Hne; right; assumption).
    unfold store_raw, setattr. apply lookup_insert_ne, Hne. left; reflexivity.
Qed.

Lemma store_raw_lookup (text : string) (fs : dict) (self : obj)
    (nm : string) (fd : field_def) :
  NoDup (map fst fs) -> In (nm, fd) fs ->
  fold_left (store_raw text) fs self !! raw_name nm
  = Some (VStr (column text fd)).
Proof.
  revert self. induction fs as [|item fs IH]; intros self Hnd Hin; simpl.
  - destruct Hin.
  - simpl in Hnd. apply NoDup_cons in Hnd as [Hfresh Hnd].
    destruct Hin as [->|Hin].
    + rewrite store_raw_other.
      * unfold store_raw, setattr. simpl. apply lookup_insert_eq.
      * intros [nm' fd'] Hin' Heq. simpl in Heq. apply raw_name_inj in Heq.
        subst nm'. apply Hfresh, list_elem_of_In.
        exact (in_map fst _ _ Hin').
    + apply IH; assumption.
Qed.

(** ** Characters and [int()] *)

Ltac each_char a :=
  destruct a as [[] [] [] [] [] [] [] []]; vm_compute;
  try (intros; discriminate); try (intros; repeat split; congruence).

Lemma digit_is_plain (a : ascii) :
  is_digit a = true ->
  to_ascii_literal a = a /\ is_c_space a = false /\ Ascii.eqb a "+" = false
  /\ Ascii.eqb a "-" = false /\ Ascii.eqb a "_" = false.
Proof. each_char a. Qed.

Lemma numeric_char_not_space (a : ascii) :
  isnumeric_char a = true -> isspace a = false.
Proof. each_char a. Qed.

Lemma numeric_char_not_LF (a : ascii) :
  isnumeric_char a = true -> Ascii.eqb a LF = false.
Proof. each_char a. Qed.

Lemma numeric_in_class_is_digit (a : ascii) :
  isnumeric_char a = true -> alphanumericorblank_class a = true ->
  is_digit a = true.
Proof. each_char a. Qed.

Lemma alphanumeric_class_is_spec_plus_apostrophe (a : ascii) :
  alphanumeric_class a = spec_alphanumeric_set a || Ascii.eqb a "'".
Proof. each_char a. Qed.

Lemma py_int_Raise (s : string) (e : exn) : py_int s = Raise e -> e = ValueError.
Proof.
  unfold py_int. destruct (split_sign _) as [sign body].
  destruct (starts_with_digit body); [|congruence].
  destruct (scan_digits false 0 body) as [[n rest]|]; [|congruence].
  destruct (is_empty _); congruence.
Qed.

Lemma scan_all_digits (s : string) (acc : Z) :
  string_forall is_digit s = true ->
  exists n, scan_digits false acc s = Some (n, EmptyString).
Proof.
  revert acc. induction s as [|a s IH]; intros acc; simpl.
  - eauto.
  - intros H. apply andb_prop in H as [Ha Hs].
    destruct (digit_is_plain a Ha) as (_ & _ & _ & _ & ->). rewrite Ha.
    apply IH, Hs.
Qed.

Lemma map_literal_digits (s : string) :
  string_forall is_digit s = true -> map_string to_ascii_literal s = s.
Proof.
  induction s as [|a s IH]; simpl; [reflexivity|].
  intros H. apply andb_prop in H as [Ha Hs].
  destruct (digit_is_plain a Ha) as (-> & _). f_equal. apply IH, Hs.
Qed.

(** A non-empty string of decimal digits is an integer literal. *)
Lemma py_int_digits (s : string) :
  is_empty s = false -> string_forall is_digit s = true ->
  exists n, py_int s = OK n.
Proof.
  intros Hne Hall. unfold py_int. rewrite map_literal_digits by exact Hall.
  destruct s as [|a s]; [discriminate|]. pose proof Hall as Hall'.
  simpl in Hall'. apply andb_prop in Hall' as [Ha _].
  destruct (digit_is_plain a Ha) as (_ & Hsp & Hplus & Hminus & _).
  simpl skip_c_space. rewrite Hsp. simpl split_sign. rewrite Hplus, Hminus.
  simpl starts_with_digit. rewrite Ha.
  destruct (scan_all_digits (String a s) 0 Hall) as [n ->].
  simpl. eauto.
Qed.

Lemma py_int_two_digits (a b : ascii) :
  is_digit a = true -> is_digit b = true ->
  py_int (String a (String b EmptyString)) = OK (two_digits a b).
Proof.
  intros Ha Hb. unfold py_int. simpl map_string.
  destruct (digit_is_plain a Ha) as (-> & Hsp & Hplus & Hminus & Hus).
  destruct (digit_is_plain b Hb) as (-> & _ & _ & _ & Hus').
  simpl skip_c_space. rewrite Hsp. simpl split_sign. rewrite Hplus, Hminus.
  simpl starts_with_digit. rewrite Ha. simpl scan_digits.
  rewrite Hus, Ha, Hus', Hb. simpl. unfold two_digits. f_equal. lia.
Qed.

(** ** Trimming and matching *)

Lemma lstrip_id (s : string) :
  (forall a s', s = String a s' -> isspace a = false) -> lstrip s = s.
Proof.
  destruct s as [|a s]; simpl; [reflexivity|].
  intros H. rewrite (H a s eq_refl). reflexivity.
Qed.

Lemma rstrip_no_space (s : string) :
  string_forall (fun a => negb (isspace a)) s = true -> rstrip s = s.
Proof.
  induction s as [|a s IH]; simpl; [reflexivity|].
  intros H. apply andb_prop in H as [Ha Hs]. rewrite (IH Hs).
  destruct s; [|reflexivity]. apply negb_true_iff in Ha. rewrite Ha. reflexivity.
Qed.

Lemma string_forall_impl (p q : ascii -> bool) (s : string) :
  (forall a, p a = true -> q a = true) ->
  string_forall p s = true -> string_forall q s = true.
Proof.
  intros Hpq. induction s as [|a s IH]; simpl; [reflexivity|].
  intros H. apply andb_prop in H as [Ha Hs].
  rewrite (Hpq a Ha), (IH Hs). reflexivity.
Qed.

Lemma strip_numeric (s : string) : isnumeric s = true -> strip s = s.
Proof.
  unfold isnumeric. intros H. apply andb_prop in H as [_ Hall].
  unfold strip. rewrite lstrip_id.
  - apply rstrip_no_space. revert Hall. apply string_forall_impl.
    intros a Ha. rewrite (numeric_char_not_space a Ha). reflexivity.
  - intros a s' ->. simpl in Hall. apply andb_prop in Hall as [Ha _].
    apply numeric_char_not_space, Ha.
Qed.

Lemma at_dollar_numeric (s : string) :
  string_forall isnumeric_char s = true -> at_dollar s = true ->
  s = EmptyString.
Proof.
  destruct s as [|a [|b s]]; simpl; try reflexivity; try discriminate.
  intros Ha Hd. apply andb_prop in Ha as [Ha _].
  rewrite (numeric_char_not_LF a Ha) in Hd. discriminate.
Qed.

Lemma match_star_numeric (cls : ascii -> bool) (s : string) :
  string_forall isnumeric_char s = true -> match_star cls s = true ->
  string_forall cls s = true.
Proof.
  induction s as [|a s IH]; simpl; [reflexivity|].
  intros Hn Hm. pose proof Hn as Hn'. apply andb_prop in Hn' as [Ha Hs].
  apply orb_prop in Hm as [Hd|Hm].
  - apply (at_dollar_numeric (String a s)) in Hd; [discriminate|exact Hn].
  - apply andb_prop in Hm as [Hc Hm]. rewrite Hc. apply IH; assumption.
Qed.

Lemma string_forall_and (p q : ascii -> bool) (s : string) :
  string_forall p s = true -> string_forall q s = true ->
  string_forall (fun a => p a && q a) s = true.
Proof.
  induction s as [|a s IH]; simpl; [reflexivity|].
  intros Hp Hq. apply andb_prop in Hp as [-> Hp].
  apply andb_prop in Hq as [-> Hq]. simpl. apply IH; assumption.
Qed.

(** What [int()] gets from a numeric column of an AlphanumericOrBlank
    field: a value that passed the pattern and that [isnumeric] holds of is
    made of decimal digits. *)
Lemma numeric_column_int (text : string) (fd : field_def) :
  type fd = LockboxFieldType.AlphanumericOrBlank ->
  accepts text fd = true -> isnumeric (column text fd) = true ->
  exists n, py_int (column text fd) = OK n.
Proof.
  intros Hty Hacc Hnum. unfold accepts in Hacc. rewrite Hty in Hacc.
  simpl in Hacc. rewrite (strip_numeric _ Hnum) in Hacc.
  unfold isnumeric in Hnum. apply andb_prop in Hnum as [Hne Hall].
  apply negb_true_iff in Hne. apply py_int_digits; [exact Hne|].
  apply orb_prop in Hacc as [Hd|Hm].
  - apply at_dollar_numeric in Hd; [|exact Hall]. rewrite Hd in Hne.
    discriminate.
  - assert (Hcls : string_forall alphanumericorblank_class (column text fd)
                   = true).
    { destruct (column text fd) as [|a s]; [reflexivity|].
      simpl in Hm |- *. apply andb_prop in Hm as [-> Hm]. simpl.
      simpl in Hall. apply andb_prop in Hall as [_ Hall].
      apply match_star_numeric; assumption. }
    generalize (string_forall_and _ _ _ Hall Hcls).
    apply string_forall_impl. intros a H. apply andb_prop in H as [H1 H2].
    apply numeric_in_class_is_digit; assumption.
Qed.

(** ** The class dictionary [fields] *)

Lemma dict_set_idem (d : dict) (key : string) (v : field_def) :
  dict_set (dict_set d key v) key v = dict_set d key v.
Proof.
  induction d as [|[k w] d IH]; simpl.
  - rewrite String.eqb_refl. reflexivity.
  - destruct (String.eqb k key) eqn:E; simpl; rewrite E; [reflexivity|].
    f_equal. exact IH.
Qed.

Lemma prepared_idem (c : record_class) : prepared (prepared c) = prepared c.
Proof.
  unfold prepared. destruct (fields c) as [d|] eqn:E; simpl; [|rewrite E; reflexivity].
  rewrite dict_set_idem. reflexivity.
Qed.

Lemma init_class (c : record_class) (text : string) :
  fst (__init__ c text) = c \/ fst (__init__ c text) = prepared c.
Proof.
  unfold __init__, prepared. destruct (_ <? _); [left; reflexivity|].
  destruct (fields c); [right|left]; reflexivity.
Qed.

(** The instance made does not tell whether [fields] already had the key
    [record_type]. *)
Lemma init_prepared (c : record_class) (text : string) :
  snd (__init__ (prepared c) text) = snd (__init__ c text).
Proof.
  unfold __init__, prepared. destruct (fields c) as [d|] eqn:E; [|rewrite E; reflexivity].
  simpl. destruct (_ <? _); [reflexivity|]. rewrite dict_set_idem. reflexivity.
Qed.

Lemma after_cases (c : record_class) (texts : list string) :
  after c texts = c \/ after c texts = prepared c.
Proof.
  unfold after. revert c. induction texts as [|t texts IH]; intros c; simpl.
  - left; reflexivity.
  - destruct (init_class c t) as [->| ->]; [apply IH|].
    right. destruct (IH (prepared c)) as [H|H]; rewrite H;
      [reflexivity|apply prepared_idem].
Qed.

Lemma init_OK (c : record_class) (text : string) (o : obj) :
  fields c <> None -> snd (__init__ c text) = OK o ->
  len text <= MAX_RECORD_LENGTH c
  /\ _parse (prepared c) (fresh text)
     = OK (fold_left (store_raw text) (schema c) (fresh text))
  /\ Forall (fun item => accepts text (snd item) = true) (schema c)
  /\ exists o2,
      match validate c with
      | Some v => v (class_of (prepared c)) (fold_left (store_raw text) (schema c) (fresh text))
      | None => OK (fold_left (store_raw text) (schema c) (fresh text))
      end = OK o2
      /\ o = fold_left (expose_field (prepared c)) (schema c) o2.
Proof.
  unfold __init__, schema, prepared. destruct (fields c) as [d|]; [|congruence].
  intros _. destruct (_ <? _) eqn:Hlen; [discriminate|]. simpl.
  intros H. apply bind_OK in H as (o1 & H1 & H).
  apply bind_OK in H as (o2 & H2 & H). injection H as <-.
  pose proof H1 as H1'. apply for_each_parse_OK in H1' as [-> HF].
  split; [apply Z.ltb_ge, Hlen|]. split; [exact H1|]. split; [exact HF|].
  exists o2. split; [exact H2|reflexivity].
Qed.

Lemma init_Raise (c : record_class) (text : string) (e : exn) :
  len text <= MAX_RECORD_LENGTH c -> snd (__init__ c text) = Raise e ->
  _parse (prepared c) (fresh text) = Raise e
  \/ exists o1 v, _parse (prepared c) (fresh text) = OK o1
                  /\ validate c = Some v
                  /\ v (class_of (prepared c)) o1 = Raise e.
Proof.
  unfold __init__, prepared. intros Hlen. apply Z.ltb_ge in Hlen. rewrite Hlen.
  destruct (fields c) as [d|]; [|discriminate]. simpl.
  intros H. apply bind_Raise in H as [H|(o1 & H1 & H)]; [left; exact H|].
  right. apply bind_Raise in H as [H|(o2 & _ & H)]; [|discriminate].
  destruct (validate c) as [v|]; [|discriminate]. eauto.
Qed.

Lemma init_eq (c : record_class) (text : string) :
  len text <= MAX_RECORD_LENGTH c -> fields c <> None ->
  snd (__init__ c text)
  = (self <- for_each (parse_field (prepared c)) (schema c) (fresh text) ;;
     self <- match validate c with
             | Some v => v (class_of (prepared c)) self
             | None => OK self
             end ;;
     OK (fold_left (expose_field (prepared c)) (schema c) self)).
Proof.
  intros Hlen Hf. apply Z.ltb_ge in Hlen.
  unfold __init__, schema, prepared. rewrite Hlen.
  destruct (fields c) as [d|]; [reflexivity|congruence].
Qed.

Lemma class_hasattr_prepared (c : record_class) (nm : string) :
  class_hasattr (prepared c) nm = class_hasattr c nm.
Proof.
  unfold prepared. destruct (fields c) as [d|] eqn:Hf; [|reflexivity].
  unfold class_hasattr. simpl. rewrite Hf. reflexivity.
Qed.

(** ** The [validate] methods *)

Lemma bind_ret {A : Type} (r : result A) : bind r OK = r.
Proof. destruct r; reflexivity. Qed.

Lemma bind_ext {A B : Type} (r : result A) (k k' : A -> result B) :
  (forall a, k a = k' a) -> bind r k = bind r k'.
Proof. intros H. destruct r; simpl; auto. Qed.

(** Each method runs the statements of its [body]. *)
Lemma validate_body (k : kind) (v : namespace -> obj -> result obj)
    (c : namespace) (self : obj) :
  validate (lockbox_class k) = Some v ->
  v c self = for_each (exec c) (body k) self.
Proof.
  destruct k; simpl; try discriminate; intros [= <-];
    repeat (first [ symmetry; apply bind_ret
                  | apply bind_ext; intros ? ]).
Qed.

Lemma no_validate_no_body (k : kind) :
  validate (lockbox_class k) = None -> body k = [].
Proof. destruct k; simpl; try discriminate; reflexivity. Qed.

Lemma kinds_well_formed (k : kind) : well_formed k = true.
Proof. destruct k; vm_compute; reflexivity. Qed.

Section Statements.
Variable c : namespace.

Lemma getattr_str_OK (self : obj) (name s : string) :
  getattr_str c self name = OK s -> self !! name = Some (VStr s).
Proof.
  unfold getattr_str. destruct (self !! name) as [[]|]; try discriminate.
  intros [= ->]. reflexivity.
Qed.

Lemma getattr_str_Raise (self : obj) (name : string) (e : exn) :
  getattr_str c self name = Raise e ->
  is_parse_error e = false /\ e <> ValueError
  /\ forall s, self !! name <> Some (VStr s).
Proof.
  unfold getattr_str. destruct (self !! name) as [[]|]; try discriminate;
    intros [= <-]; repeat split; discriminate.
Qed.

Lemma date_Raise (y m d : Z) (e : exn) : date y m d = Raise e -> e = ValueError.
Proof. unfold date. destruct (date_ok y m d); congruence. Qed.

Lemma time_Raise (h m : Z) (e : exn) : time h m = Raise e -> e = ValueError.
Proof. unfold time. destruct (time_ok h m); congruence. Qed.

Lemma except_ValueError_Raise {A : Type} (r : result A) (msg : string)
    (e : exn) :
  (forall e', r = Raise e' -> e' = ValueError) ->
  except_ValueError r msg = Raise e -> e = LockboxDefinitionError msg.
Proof.
  intros Hr. destruct r as [a|e']; simpl; [discriminate|].
  rewrite (Hr e' eq_refl). congruence.
Qed.

Ltac only_ValueError :=
  let H := fresh "Hraise" in
  intros ? H;
  repeat match type of H with
         | (if ?b then _ else _) = Raise _ => destruct b
         | bind _ _ = Raise _ => apply bind_Raise in H as [H|(? & _ & H)]
         | py_int _ = Raise _ => exact (py_int_Raise _ _ H)
         | date _ _ _ = Raise _ => exact (date_Raise _ _ _ _ H)
         | time _ _ = Raise _ => exact (time_Raise _ _ _ H)
         | Raise _ = Raise _ => congruence
         end.

Lemma parse_as_date_Raise (self : obj) (name : string) (b : bool) (e : exn) :
  _parse_as_date c self name b = Raise e ->
  is_parse_error e = false
  /\ forall s, self !! raw_name name = Some (VStr s) -> e = not_a_date s.
Proof.
  unfold _parse_as_date, hasattr.
  destruct (self !! raw_name name) as [v|] eqn:E; simpl.
  - unfold getattr_str. rewrite E. destruct v; simpl;
      try (intros [= <-]; split; [reflexivity|discriminate]).
    intros H. apply except_ValueError_Raise in H; [|only_ValueError].
    subst e. split; [reflexivity|]. intros s' [= <-]. reflexivity.
  - destruct (class_hasattr c (raw_name name)); simpl.
    + unfold getattr_str. rewrite E. simpl. intros [= <-].
      split; [reflexivity|discriminate].
    + intros [= <-]. split; [reflexivity|discriminate].
Qed.

Lemma parse_as_time_Raise (self : obj) (name : string) (e : exn) :
  _parse_as_time c self name = Raise e -> is_parse_error e = false.
Proof.
  unfold _parse_as_time, hasattr.
  destruct (self !! raw_name name) as [v|] eqn:E; simpl.
  - unfold getattr_str. rewrite E. destruct v; simpl;
      try (intros [= <-]; reflexivity).
    intros H. apply except_ValueError_Raise in H; [|only_ValueError].
    subst e. reflexivity.
  - destruct (class_hasattr c (raw_name name)); simpl.
    + unfold getattr_str. rewrite E. simpl. intros [= <-]. reflexivity.
    + intros [= <-]. reflexivity.
Qed.

Lemma parse_as_date_not_None (self : obj) (name : string) (b : bool)
    (v : value) :
  _parse_as_date c self name b = OK v -> v <> VNone.
Proof.
  unfold _parse_as_date. destruct (negb _); [discriminate|].
  destruct (getattr_str _ _ _) as [s|]; simpl; [|discriminate].
  match goal with
  | |- except_ValueError ?r _ = _ -> _ => destruct r as [d|[]] eqn:E
  end; simpl; try discriminate. intros [= <-].
  repeat match type of E with
         | (if ?b then _ else _) = OK _ => destruct b
         | bind _ _ = OK _ => apply bind_OK in E as (? & _ & E)
         | Raise _ = OK _ => discriminate
         end;
    unfold date in E; destruct (date_ok _ _ _); congruence.
Qed.

Lemma parse_as_time_not_None (self : obj) (name : string) (v : value) :
  _parse_as_time c self name = OK v -> v <> VNone.
Proof.
  unfold _parse_as_time. destruct (negb _); [discriminate|].
  destruct (getattr_str _ _ _) as [s|]; simpl; [|discriminate].
  match goal with
  | |- except_ValueError ?r _ = _ -> _ => destruct r as [d|[]] eqn:E
  end; simpl; try discriminate. intros [= <-].
  repeat match type of E with
         | (if ?b then _ else _) = OK _ => destruct b
         | bind _ _ = OK _ => apply bind_OK in E as (? & _ & E)
         | Raise _ = OK _ => discriminate
         end;
    unfold time in E; destruct (time_ok _ _); congruence.
Qed.

(** A statement that succeeds assigns one attribute, to a value other
    than [None], and leaves the others as they are. *)
Lemma exec_OK (self o : obj) (st : statement) :
  exec c self st = OK o ->
  (forall key, key <> written st -> o !! key = self !! key)
  /\ exists v, o !! written st = Some v /\ v <> VNone.
Proof.
  destruct st as [nm|nm|nm|nm|nm|nm]; simpl;
    unfold set_int, set_hundredths, set_date, set_time,
      zero_unless_numeric, zero_if_empty, setattr; intros H.
  - apply bind_OK in H as (raw & _ & H). apply bind_OK in H as (n & _ & H).
    injection H as <-. split.
    + intros key Hk. apply lookup_insert_ne. congruence.
    + exists (VInt n). rewrite lookup_insert_eq. split; [reflexivity|discriminate].
  - apply bind_OK in H as (raw & _ & H). apply bind_OK in H as (n & _ & H).
    injection H as <-. split.
    + intros key Hk. apply lookup_insert_ne. congruence.
    + eexists. rewrite lookup_insert_eq. split; [reflexivity|discriminate].
  - apply bind_OK in H as (d & Hd & H). injection H as <-. split.
    + intros key Hk. apply lookup_insert_ne. congruence.
    + exists d. rewrite lookup_insert_eq. split; [reflexivity|].
      eapply parse_as_date_not_None, Hd.
  - apply bind_OK in H as (t & Ht & H). injection H as <-. split.
    + intros key Hk. apply lookup_insert_ne. congruence.
    + exists t. rewrite lookup_insert_eq. split; [reflexivity|].
      eapply parse_as_time_not_None, Ht.
  - apply bind_OK in H as (raw & Hraw & H). injection H as <-.
    apply getattr_str_OK in Hraw. destruct (negb _); split.
    + intros key Hk. apply lookup_insert_ne. congruence.
    + eexists. rewrite lookup_insert_eq. split; [reflexivity|discriminate].
    + reflexivity.
    + exists (VStr raw). split; [exact Hraw|discriminate].
  - apply bind_OK in H as (raw & Hraw & H). injection H as <-.
    apply getattr_str_OK in Hraw. destruct (_ =? _); split.
    + intros key Hk. apply lookup_insert_ne. congruence.
    + eexists. rewrite lookup_insert_eq. split; [reflexivity|discriminate].
    + reflexivity.
    + exists (VStr raw). split; [exact Hraw|discriminate].
Qed.

Lemma exec_Raise (self : obj) (st : statement) (e : exn) :
  exec c self st = Raise e -> is_parse_error e = false.
Proof.
  destruct st as [nm|nm|nm|nm|nm|nm]; simpl;
    unfold set_int, set_hundredths, set_date, set_time,
      zero_unless_numeric, zero_if_empty; intros H;
    repeat match type of H with
           | bind _ _ = Raise _ => apply bind_Raise in H as [H|(? & _ & H)]
           | getattr_str _ _ _ = Raise _ =>
               exact (proj1 (getattr_str_Raise _ _ _ H))
           | py_int _ = Raise _ =>
               rewrite (py_int_Raise _ _ H); reflexivity
           | _parse_as_date _ _ _ _ = Raise _ =>
               exact (proj1 (parse_as_date_Raise _ _ _ _ H))
           | _parse_as_time _ _ _ = Raise _ =>
               exact (parse_as_time_Raise _ _ _ H)
           | OK _ = Raise _ => discriminate
           end.
Qed.

Lemma run_Raise (sts : list statement) (self : obj) (e : exn) :
  for_each (exec c) sts self = Raise e -> is_parse_error e = false.
Proof.
  revert self. induction sts as [|st sts IH]; intros self; simpl.
  - discriminate.
  - intros H. apply bind_Raise in H as [H|(o & _ & H)].
    + eapply exec_Raise, H.
    + eapply IH, H.
Qed.

(** Running statements leaves the attributes they do not assign. *)
Lemma run_frame (sts : list statement) (self o : obj) (key : string) :
  for_each (exec c) sts self = OK o ->
  ~ In key (map written sts) -> o !! key = self !! key.
Proof.
  revert self. induction sts as [|st sts IH]; intros self; simpl.
  - intros [= <-] _. reflexivity.
  - intros H Hk. apply bind_OK in H as (o1 & H1 & H).
    rewrite (IH _ H) by (intros Hin; apply Hk; right; exact Hin).
    apply (proj1 (exec_OK _ _ _ H1)). intros ->. apply Hk. left; reflexivity.
Qed.

(** Running statements never leaves [None] where it assigns. *)
Lemma run_not_None (sts : list statement) (self o : obj) (key : string) :
  for_each (exec c) sts self = OK o ->
  o !! key = self !! key \/ exists v, o !! key = Some v /\ v <> VNone.
Proof.
  revert self. induction sts as [|st sts IH]; intros self; simpl.
  - intros [= <-]. left; reflexivity.
  - intros H. apply bind_OK in H as (o1 & H1 & H).
    destruct (IH _ H) as [Heq|Hv]; [|right; exact Hv].
    rewrite Heq. destruct (exec_OK _ _ _ H1) as [Hframe Hw].
    destruct (String.eqb_spec key (written st)) as [->|Hne].
    + right; exact Hw.
    + left. apply Hframe, Hne.
Qed.
End Statements.

(** ** The loop that creates the missing fields *)

Section Expose.
Variable c : namespace.

Lemma expose_field_other (self : obj) (item : string * field_def)
    (key : string) :
  fst item <> key -> expose_field c self item !! key = self !! key.
Proof.
  destruct item as [nm fd]. unfold expose_field, setattr. simpl. intros Hne.
  destruct (hasattr c self nm); [reflexivity|].
  apply lookup_insert_ne, Hne.
Qed.

Lemma expose_other (fs : dict) (self : obj) (key : string) :
  ~ In key (map fst fs) ->
  fold_left (expose_field c) fs self !! key = self !! key.
Proof.
  revert self. induction fs as [|item fs IH]; intros self Hk; simpl.
  - reflexivity.
  - rewrite IH by (intros Hin; apply Hk; right; exact Hin).
    apply expose_field_other. intros Heq. apply Hk. left; exact Heq.
Qed.

(** What the loop leaves in a field: what [validate] assigned, else
    [None] for a Blank field and the raw value for another. *)
Lemma expose_lookup (fs : dict) (self : obj) (nm : string) (fd : field_def) :
  NoDup (map fst fs) -> ~ In (raw_name nm) (map fst fs) -> In (nm, fd) fs ->
  fold_left (expose_field c) fs self !! nm
  = if hasattr c self nm then self !! nm
    else Some (if String.eqb (type fd) LockboxFieldType.Blank then VNone
               else default VNone (self !! raw_name nm)).
Proof.
  revert self. induction fs as [|item fs IH]; intros self Hnd Hraw Hin.
  - destruct Hin.
  - simpl in Hnd, Hraw |- *. apply NoDup_cons in Hnd as [Hfresh Hnd].
    rewrite list_elem_of_In in Hfresh. destruct Hin as [->|Hin].
    + rewrite expose_other by exact Hfresh.
      unfold expose_field, setattr.
      destruct (hasattr c self nm); [reflexivity|apply lookup_insert_eq].
    + assert (Hne : fst item <> nm).
      { intros Heq. apply Hfresh. rewrite Heq. exact (in_map fst _ _ Hin). }
      rewrite IH; [|exact Hnd|tauto|exact Hin].
      unfold hasattr. rewrite !expose_field_other by tauto. reflexivity.
Qed.
End Expose.

(** ** Instances of the nine kinds *)

Lemma mem_In (nm : string) (l : list string) : mem nm l = true <-> In nm l.
Proof.
  unfold mem. rewrite existsb_exists. split.
  - intros (x & Hx & Heq). apply String.eqb_eq in Heq. subst x. exact Hx.
  - intros H. exists nm. split; [exact H|apply String.eqb_refl].
Qed.

Lemma well_formed_inv (k : kind) :
  NoDup (names k)
  /\ (forall nm, In nm (names k) ->
        class_hasattr (prepared (lockbox_class k)) nm = false)
  /\ (forall nm nm', In nm (names k) -> In nm' (names k) -> nm <> raw_name nm')
  /\ (forall st, In st (body k) -> In (subject st) (names k))
  /\ (forall nm fd, In (nm, fd) (schema (lockbox_class k)) ->
        type fd = LockboxFieldType.Blank -> ~ In nm (map written (body k))).
Proof.
  pose proof (kinds_well_formed k) as H. unfold well_formed in H.
  apply andb_prop in H as [H H5]. apply andb_prop in H as [H H4].
  apply andb_prop in H as [H H3]. apply andb_prop in H as [H1 H2].
  apply bool_decide_eq_true_1 in H1.
  rewrite forallb_forall in H2, H3, H4, H5.
  repeat split.
  - exact H1.
  - intros nm Hin. apply negb_true_iff. auto.
  - intros nm nm' Hin Hin'. specialize (H3 nm Hin).
    rewrite forallb_forall in H3. specialize (H3 nm' Hin').
    apply negb_true_iff, String.eqb_neq in H3. exact H3.
  - intros st Hin. apply mem_In. auto.
  - intros nm fd Hin Hty Hw. specialize (H5 (nm, fd) Hin). simpl in H5.
    rewrite Hty, String.eqb_refl in H5. simpl in H5.
    apply negb_true_iff in H5. apply mem_In in Hw. congruence.
Qed.

(** A statement assigns the attribute of its subject or its raw value. *)
Lemma written_subject (st : statement) :
  written st = subject st \/ written st = raw_name (subject st).
Proof. destruct st; simpl; auto. Qed.

(** How an instance of a kind with a schema comes to be: the line is not
    too long, every field passes its test, the statements of [validate]
    run on the raw values, and the last loop fills in the fields. *)
Lemma construct_OK (k : kind) (text : string) (o : obj) :
  fields (lockbox_class k) <> None -> construct k text = OK o ->
  len text <= 160
  /\ _parse (prepared (lockbox_class k)) (fresh text)
     = OK (fold_left (store_raw text) (schema (lockbox_class k)) (fresh text))
  /\ Forall (fun item => accepts text (snd item) = true)
       (schema (lockbox_class k))
  /\ exists o2,
      for_each (exec (prepared (lockbox_class k))) (body k)
        (fold_left (store_raw text) (schema (lockbox_class k)) (fresh text))
      = OK o2
      /\ o = fold_left (expose_field (prepared (lockbox_class k)))
               (schema (lockbox_class k)) o2.
Proof.
  intros Hf H.
  apply init_OK in H as (Hlen & Hp & HF & o2 & Hv & ->); [|exact Hf].
  split; [destruct k; exact Hlen|]. split; [exact Hp|]. split; [exact HF|].
  exists o2. split; [|reflexivity].
  destruct (validate (lockbox_class k)) as [v|] eqn:E.
  - rewrite <- (validate_body k v _ _ E). exact Hv.
  - rewrite (no_validate_no_body k E). exact Hv.
Qed.

Lemma schema_or_none (k : kind) :
  fields (lockbox_class k) <> None \/ schema (lockbox_class k) = [].
Proof. destruct k; [right; reflexivity|left; discriminate ..]. Qed.

Section Fields.
Variables (k : kind) (text : string).

Let c : record_class := prepared (lockbox_class k).
Let o1 : obj :=
  fold_left (store_raw text) (schema (lockbox_class k)) (fresh text).

Lemma parsed_raw (nm : string) (fd : field_def) :
  In (nm, fd) (schema (lockbox_class k)) ->
  o1 !! raw_name nm = Some (VStr (column text fd)).
Proof.
  intros Hin. apply store_raw_lookup; [|exact Hin].
  apply (well_formed_inv k).
Qed.

Lemma parsed_field (nm : string) :
  In nm (names k) -> o1 !! nm = None.
Proof.
  intros Hin. destruct (well_formed_inv k) as (_ & Hcls & Hraw & _).
  unfold o1. rewrite store_raw_other.
  - unfold fresh, setattr. rewrite lookup_insert_ne; [apply lookup_empty|].
    intros <-. specialize (Hcls _ Hin). discriminate.
  - intros [nm' fd'] Hin' Heq. simpl in Heq.
    apply (Hraw nm nm'); [exact Hin| |congruence].
    exact (in_map fst _ _ Hin').
Qed.

(** The attribute of a field and its raw value, in the instance made. *)
Lemma constructed_field (o2 : obj) (nm : string) (fd : field_def) :
  In (nm, fd) (schema (lockbox_class k)) ->
  fold_left (expose_field c) (schema (lockbox_class k)) o2 !! nm
  = match o2 !! nm with
    | Some v => Some v
    | None => Some (if String.eqb (type fd) LockboxFieldType.Blank then VNone
                    else default VNone (o2 !! raw_name nm))
    end.
Proof.
  intros Hin. destruct (well_formed_inv k) as (Hnd & Hcls & Hraw & _).
  assert (Hnm : In nm (names k)) by exact (in_map fst _ _ Hin).
  rewrite (expose_lookup c _ _ nm fd); [|exact Hnd| |exact Hin].
  - unfold hasattr. fold c in Hcls. rewrite (Hcls nm Hnm).
    destruct (o2 !! nm); reflexivity.
  - intros Hin'. exact (Hraw _ _ Hin' Hnm eq_refl).
Qed.

Lemma constructed_raw (o2 : obj) (nm : string) :
  In nm (names k) ->
  fold_left (expose_field c) (schema (lockbox_class k)) o2 !! raw_name nm
  = o2 !! raw_name nm.
Proof.
  intros Hin. destruct (well_formed_inv k) as (_ & _ & Hraw & _).
  apply expose_other. intros Hin'. exact (Hraw _ _ Hin' Hin eq_refl).
Qed.

(** A field that [validate] does not work on is untouched by it. *)
Lemma not_validated (o2 : obj) (nm : string) :
  for_each (exec c) (body k) o1 = OK o2 ->
  In nm (names k) -> ~ In nm (validated k) ->
  o2 !! nm = o1 !! nm /\ o2 !! raw_name nm = o1 !! raw_name nm.
Proof.
  intros Hrun Hin Hnv. destruct (well_formed_inv k) as (_ & _ & Hraw & Hsub & _).
  assert (Hw : forall key, (key = nm \/ key = raw_name nm) ->
                           ~ In key (map written (body k))).
  { intros key Hkey Hin'. apply in_map_iff in Hin' as (st & Hst & Hin').
    pose proof (Hsub st Hin') as Hs.
    destruct (written_subject st) as [Hws|Hws]; rewrite Hws in Hst;
      destruct Hkey as [-> | ->].
    - apply Hnv. unfold validated. rewrite <- Hst. apply in_map, Hin'.
    - exact (Hraw _ _ Hs Hin Hst).
    - exact (Hraw _ _ Hin Hs (eq_sym Hst)).
    - apply raw_name_inj in Hst. apply Hnv. unfold validated.
      rewrite <- Hst. apply in_map, Hin'. }
  split; eapply run_frame; eauto.
Qed.
End Fields.

(** * The claims *)

(** C8.  In every instance made, of any kind, a field of type Blank is
    exposed as [None] and a field of another type as a value other than
    [None]. *)
Theorem C8_blank_absent_others_present (k : kind) (text : string) (o : obj) :
  construct k text = OK o ->
  forall nm fd, In (nm, fd) (schema (lockbox_class k)) ->
    if String.eqb (type fd) LockboxFieldType.Blank then o !! nm = Some VNone
    else exists v, o !! nm = Some v /\ v <> VNone.
Proof.
  intros H nm fd Hin.
  destruct (schema_or_none k) as [Hf|Hnil]; [|rewrite Hnil in Hin; destruct Hin].
  apply construct_OK in H as (_ & _ & _ & o2 & Hrun & ->); [|exact Hf].
  assert (Hnm : In nm (names k)) by exact (in_map fst _ _ Hin).
  rewrite (constructed_field k o2 nm fd Hin).
  pose proof (parsed_field k text nm Hnm) as Hnone.
  destruct (String.eqb_spec (type fd) LockboxFieldType.Blank) as [Hty|Hty].
  - destruct (well_formed_inv k) as (_ & _ & _ & _ & Hblank).
    rewrite (run_frame _ _ _ _ nm Hrun (Hblank nm fd Hin Hty)), Hnone.
    reflexivity.
  - destruct (run_not_None _ _ _ _ nm Hrun) as [Heq|(v & Hv & Hne)].
    + rewrite Heq, Hnone.
      destruct (run_not_None _ _ _ _ (raw_name nm) Hrun) as [Heq'|(v & Hv & Hne)].
      * rewrite Heq', (parsed_raw k text nm fd Hin). simpl.
        eexists. split; [reflexivity|discriminate].
      * rewrite Hv. simpl. eauto.
    + rewrite Hv. eauto.
Qed.

(** The filler of a trailer line, a Blank field, is exposed as [None]. *)
Lemma C8_witness :
  construct DestinationTrailerRecord "9000012"
  = OK (instance DestinationTrailerRecord "9000012")
  /\ instance DestinationTrailerRecord "9000012" !! "filler" = Some VNone.
Proof.
  assert (E : construct DestinationTrailerRecord "9000012"
              = OK (instance DestinationTrailerRecord "9000012"))
    by (vm_cast_no_check (eq_refl (construct DestinationTrailerRecord "9000012"))).
  split; [exact E|].
  exact (C8_blank_absent_others_present DestinationTrailerRecord "9000012" _ E
           "filler" {| location := (7, 80); type := LockboxFieldType.Blank |}
           (or_intror (or_introl eq_refl))).
Defined.

(** The raw value and the attribute of a field that [validate] leaves
    alone. *)
Lemma field_left_alone (k : kind) (text : string) (o : obj) (nm : string)
    (fd : field_def) :
  construct k text = OK o -> In (nm, fd) (schema (lockbox_class k)) ->
  ~ In nm (validated k) ->
  o !! raw_name nm = Some (VStr (column text fd))
  /\ (type fd <> LockboxFieldType.Blank ->
      o !! nm = Some (VStr (column text fd))).
Proof.
  intros H Hin Hnv.
  destruct (schema_or_none k) as [Hf|Hnil]; [|rewrite Hnil in Hin; destruct Hin].
  apply construct_OK in H as (_ & _ & _ & o2 & Hrun & ->); [|exact Hf].
  assert (Hnm : In nm (names k)) by exact (in_map fst _ _ Hin).
  pose proof (parsed_raw k text nm fd Hin) as Hraw.
  destruct (not_validated k text o2 nm Hrun Hnm Hnv) as [Hattr Hraw2].
  rewrite (parsed_field k text nm Hnm) in Hattr. rewrite Hraw in Hraw2.
  split.
  - rewrite (constructed_raw k o2 nm Hnm). exact Hraw2.
  - intros Hty. rewrite (constructed_field k o2 nm fd Hin), Hattr, Hraw2.
    apply String.eqb_neq in Hty. rewrite Hty. reflexivity.
Qed.

(** C1, as the code has it.  The raw value that [_parse] records for a
    field is the column [raw_text[start:end]] itself, white space included:
    trimming only serves the test of the character class.  The same
    untrimmed column is the raw value of the instance made, and what the
    field's attribute exposes unless the field is Blank, whenever
    [validate] does not work on the field. *)
Theorem C1_raw_value_is_the_untrimmed_column (k : kind) (text : string)
    (o : obj) :
  construct k text = OK o ->
  forall nm fd, In (nm, fd) (schema (lockbox_class k)) ->
    (exists o1, _parse (prepared (lockbox_class k)) (fresh text) = OK o1
                /\ o1 !! raw_name nm = Some (VStr (column text fd)))
    /\ (~ In nm (validated k) ->
        o !! raw_name nm = Some (VStr (column text fd))
        /\ (type fd <> LockboxFieldType.Blank ->
            o !! nm = Some (VStr (column text fd)))).
Proof.
  intros H nm fd Hin. split.
  - destruct (schema_or_none k) as [Hf|Hnil];
      [|rewrite Hnil in Hin; destruct Hin].
    apply construct_OK in H as (_ & Hp & _); [|exact Hf].
    eexists. split; [exact Hp|]. exact (parsed_raw k text nm fd Hin).
  - intros Hnv. exact (field_left_alone k text o nm fd H Hin Hnv).
Qed.

(** The destination of [header_line] is exposed with its trailing spaces. *)
Lemma C1_witness :
  construct ImmediateAddressHeader header_line
  = OK (instance ImmediateAddressHeader header_line)
  /\ instance ImmediateAddressHeader header_line !! "destination_id"
     = Some (VStr (slice header_line 3 13)).
Proof.
  assert (E : construct ImmediateAddressHeader header_line
              = OK (instance ImmediateAddressHeader header_line))
    by (vm_cast_no_check (eq_refl (construct ImmediateAddressHeader header_line))).
  split; [exact E|].
  refine (proj2 (proj2 (C1_raw_value_is_the_untrimmed_column
                          ImmediateAddressHeader header_line _ E
                          "destination_id"
                          {| location := (3, 13);
                             type := LockboxFieldType.Alphanumeric |}
                          (or_intror (or_introl eq_refl))) _) _).
  - vm_compute. intuition discriminate.
  - discriminate.
Defined.

(** C1 as stated fails: the destination of [header_line] is recorded and
    exposed with its trailing spaces, which trimming would remove. *)
Lemma C1_counterexample :
  exists o raw,
    construct ImmediateAddressHeader header_line = OK o
    /\ o !! "_destination_id_raw" = Some (VStr raw)
    /\ o !! "destination_id" = Some (VStr raw)
    /\ raw = slice header_line 3 13
    /\ raw <> strip (slice header_line 3 13).
Proof.
  exists (instance ImmediateAddressHeader header_line), "ONEIL     ".
  repeat split; try (vm_compute; reflexivity). vm_compute. discriminate.
Qed.

(** ** The field [record_type] *)

Lemma first_column (ch : ascii) (rest : string) :
  slice (String ch rest) 0 1 = String ch EmptyString.
Proof.
  unfold slice, clamp_index, len. simpl String.length.
  replace (Z.min 0 (Z.of_nat (S (String.length rest)))) with 0 by lia.
  replace (Z.min 1 (Z.of_nat (S (String.length rest)))) with 1 by lia.
  destruct rest; reflexivity.
Qed.

Lemma one_digit (ch : ascii) :
  match_plus numeric_class (strip (String ch EmptyString)) = true ->
  is_digit ch = true.
Proof. each_char ch. Qed.

(** The test of [record_type] holds exactly of the lines that start with a
    decimal digit, which is then the whole column. *)
Lemma record_type_accepted (text : string) :
  accepts text record_type_field = true ->
  exists ch rest, text = String ch rest /\ is_digit ch = true
                  /\ column text record_type_field = String ch EmptyString.
Proof.
  destruct text as [|ch rest]; [discriminate|].
  unfold accepts, column. simpl compile_pattern. simpl location. simpl fst.
  simpl snd. rewrite first_column. intros H. exists ch, rest.
  split; [reflexivity|]. split; [apply one_digit, H|reflexivity].
Qed.

Lemma record_type_in_schema (k : kind) :
  fields (lockbox_class k) <> None ->
  In ("record_type", record_type_field) (schema (lockbox_class k))
  /\ ~ In "record_type" (validated k).
Proof.
  destruct k; intros Hf; try (exfalso; apply Hf; reflexivity);
    (split; [vm_compute; tauto|vm_compute; intuition discriminate]).
Qed.

(** C10.  For every kind with a schema, [__init__] adds the field
    [record_type], columns 0 to 1 and Numeric, to the schema that is
    parsed: an instance is only made from a line that starts with a decimal
    digit, the empty line ends in a parse error, and the instance exposes
    that first character as [record_type]. *)
Theorem C10_record_type_is_the_leading_digit (k : kind) (text : string) :
  fields (lockbox_class k) <> None ->
  In ("record_type", record_type_field) (schema (lockbox_class k))
  /\ (exists msg, construct k EmptyString = Raise (LockboxParseError msg))
  /\ forall o, construct k text = OK o ->
       exists ch rest,
         text = String ch rest /\ is_digit ch = true
         /\ o !! "record_type" = Some (VStr (String ch EmptyString)).
Proof.
  intros Hf. destruct (record_type_in_schema k Hf) as [Hin Hnv].
  split; [exact Hin|]. split.
  - destruct k; try (exfalso; apply Hf; reflexivity);
      eexists; vm_compute; reflexivity.
  - intros o H.
    destruct (field_left_alone k text o _ _ H Hin Hnv) as [_ Hattr].
    apply construct_OK in H as (_ & _ & HF & _); [|exact Hf].
    pose proof (proj1 (List.Forall_forall _ _) HF _ Hin) as Hacc.
    apply record_type_accepted in Hacc as (ch & rest & -> & Hd & Hcol).
    exists ch, rest. split; [reflexivity|]. split; [exact Hd|].
    rewrite <- Hcol. apply Hattr. discriminate.
Qed.

(** A trailer line exposes its leading digit as [record_type]. *)
Lemma C10_witness :
  exists ch rest,
    "9000012" = String ch rest /\ is_digit ch = true
    /\ instance DestinationTrailerRecord "9000012" !! "record_type"
       = Some (VStr (String ch EmptyString)).
Proof.
  assert (E : construct DestinationTrailerRecord "9000012"
              = OK (instance DestinationTrailerRecord "9000012"))
    by (vm_cast_no_check (eq_refl (construct DestinationTrailerRecord "9000012"))).
  assert (Hf : fields (lockbox_class DestinationTrailerRecord) <> None)
    by discriminate.
  exact (proj2 (proj2 (C10_record_type_is_the_leading_digit
                         DestinationTrailerRecord "9000012" Hf)) _ E).
Defined.

(** ** Lines that are too long *)

(** C6.  For every kind, a line of more than 160 characters ends in the
    error [record longer than 160] whatever it holds, with the class left
    as it was (not even the key [record_type] is added, and no field is
    looked at); no line of at most 160 characters ends in that error. *)
Theorem C6_longer_than_160 (k : kind) (text : string) :
  (160 < len text ->
   __init__ (lockbox_class k) text = (lockbox_class k, Raise too_long))
  /\ (len text <= 160 -> construct k text <> Raise too_long).
Proof.
  split.
  - intros Hlen. apply Z.ltb_lt in Hlen. unfold __init__.
    replace (MAX_RECORD_LENGTH (lockbox_class k)) with 160
      by (destruct k; reflexivity).
    rewrite Hlen. reflexivity.
  - intros Hlen H. unfold construct in H.
    apply init_Raise in H as [H|(o1 & v & _ & Hv & H)];
      [| |destruct k; exact Hlen].
    + apply for_each_parse_Raise in H as [H _]. apply H. reflexivity.
    + rewrite (validate_body k v _ _ Hv) in H. apply run_Raise in H.
      discriminate.
Qed.

(** A line of one character does not end in the error of long lines. *)
Lemma C6_witness :
  construct ServiceRecord "2" <> Raise too_long.
Proof.
  apply (proj2 (C6_longer_than_160 ServiceRecord "2")). vm_compute. discriminate.
Defined.

(** ** No state between instances *)

(** C9.  Making an instance is a function of the kind and of the line:
    whatever instances of the kind were made before, from whatever lines,
    the same line gives the same instance, field for field, or the same
    exception.  The one thing [__init__] writes outside the instance, the
    key [record_type] of the class's [fields], has the same effect the
    first time and later. *)
Theorem C9_same_line_same_result (k : kind) (earlier : list string)
    (text : string) :
  snd (__init__ (after (lockbox_class k) earlier) text) = construct k text
  /\ snd (__init__ (fst (__init__ (lockbox_class k) text)) text)
     = construct k text.
Proof.
  assert (H : forall texts,
             snd (__init__ (after (lockbox_class k) texts) text)
             = construct k text).
  { intros texts. unfold construct.
    destruct (after_cases (lockbox_class k) texts) as [->| ->];
      [reflexivity|apply init_prepared]. }
  split; [apply H|apply (H [text])].
Qed.

(** ** Attributes that exist already *)

Lemma for_each_app {A S : Type} (body : S -> A -> result S) (xs ys : list A)
    (s : S) :
  for_each body (xs ++ ys)%list s = bind (for_each body xs s) (for_each body ys).
Proof.
  revert s. induction xs as [|x xs IH]; intros s; simpl; [reflexivity|].
  destruct (body s x); simpl; [apply IH|reflexivity].
Qed.

Lemma store_raw_keeps (text : string) (fs : dict) (self : obj) (key : string) :
  is_some (self !! key) = true ->
  is_some (fold_left (store_raw text) fs self !! key) = true.
Proof.
  revert self. induction fs as [|item fs IH]; intros self H; simpl; [exact H|].
  apply IH. unfold store_raw, setattr.
  destruct (String.eqb_spec (raw_name (fst item)) key) as [->|Hne].
  - rewrite lookup_insert_eq. reflexivity.
  - rewrite lookup_insert_ne by exact Hne. exact H.
Qed.

Lemma store_raw_some (text : string) (fs : dict) (self : obj) (nm : string) :
  In nm (map (fun item => raw_name (fst item)) fs) ->
  is_some (fold_left (store_raw text) fs self !! nm) = true.
Proof.
  revert self. induction fs as [|item fs IH]; intros self Hin; simpl.
  - destruct Hin.
  - destruct Hin as [<-|Hin]; [|apply IH, Hin].
    apply store_raw_keeps. unfold store_raw, setattr.
    rewrite lookup_insert_eq. reflexivity.
Qed.

(** C2, as the code has it.  A field of the schema whose name is already an
    attribute when [_parse] comes to it (an attribute of the class, or the
    raw value stored for an earlier field) ends the construction of any
    line of admissible length with an [AttributeError] that names the
    field, not with a [LockboxDefinitionError].  The check comes before the
    field's own column is read; the fields before it in the schema have
    been parsed by then, and the error of the first of them that fails
    comes instead. *)
Theorem C2_existing_attribute_raises_AttributeError (c : record_class)
    (text : string) (pre post : dict) (nm : string) (fd : field_def) :
  len text <= MAX_RECORD_LENGTH c ->
  schema c = (pre ++ (nm, fd) :: post)%list ->
  class_hasattr c nm = true
  \/ In nm (map (fun item => raw_name (fst item)) pre) ->
  snd (__init__ c text)
  = match for_each (parse_field (prepared c)) pre (fresh text) with
    | OK _ => Raise (already_has_field nm)
    | Raise e => Raise e
    end.
Proof.
  intros Hlen Hsch Hhas.
  assert (Hf : fields c <> None).
  { intros Hf. unfold schema, prepared, items in Hsch. rewrite Hf in Hsch.
    rewrite Hf in Hsch. destruct pre; discriminate. }
  rewrite (init_eq c text Hlen Hf), Hsch, for_each_app.
  destruct (for_each _ pre (fresh text)) as [o1|e] eqn:Hpre; [|reflexivity].
  simpl. unfold parse_field at 1.
  assert (Hh : hasattr (prepared c) o1 nm = true).
  { unfold hasattr. apply orb_true_iff. destruct Hhas as [Hcls|Hraw].
    - right. rewrite class_hasattr_prepared. exact Hcls.
    - left. apply for_each_parse_OK in Hpre as [-> _].
      apply store_raw_some, Hraw. }
  rewrite Hh. reflexivity.
Qed.

(** A field named [children] ends the construction before any column is
    read. *)
Lemma C2_witness :
  snd (__init__ clashing_class "0") = Raise (already_has_field "children").
Proof.
  apply (C2_existing_attribute_raises_AttributeError clashing_class "0" []
           [("record_type", record_type_field)] "children"
           {| location := (1, 3); type := LockboxFieldType.Numeric |}).
  - vm_compute. discriminate.
  - reflexivity.
  - left. vm_compute. reflexivity.
Defined.

(** C2 as stated fails.  The display of [LockboxDetailHeader.fields] writes
    the name [destination] twice, and [detail_header_line] still gives an
    instance (whose [destination] is the later of the two columns).  And
    where a field is named like an attribute that exists, as in
    [clashing_class], the error is an [AttributeError]. *)
Lemma C2_counterexample :
  ~ NoDup (map fst LockboxDetailHeader.fields_display)
  /\ construct DetailHeader detail_header_line
     = OK (instance DetailHeader detail_header_line)
  /\ instance DetailHeader detail_header_line !! "destination"
     = Some (VStr (slice detail_header_line 30 40))
  /\ class_hasattr clashing_class "children" = true
  /\ snd (__init__ clashing_class "0") = Raise (already_has_field "children")
  /\ forall msg,
       snd (__init__ clashing_class "0") <> Raise (LockboxDefinitionError msg).
Proof.
  assert (H : snd (__init__ clashing_class "0")
              = Raise (already_has_field "children"))
    by (vm_compute; reflexivity).
  split; [|split; [|split; [|split; [|split]]]].
  - intros Hnd.
    assert (Hb : bool_decide
                   (NoDup (map fst LockboxDetailHeader.fields_display)) = true)
      by (apply bool_decide_eq_true_2; exact Hnd).
    vm_compute in Hb. discriminate.
  - vm_cast_no_check (eq_refl (construct DetailHeader detail_header_line)).
  - vm_compute. reflexivity.
  - vm_compute. reflexivity.
  - exact H.
  - intros msg. rewrite H. discriminate.
Qed.

(** ** The Alphanumeric pattern *)

Lemma match_star_rstrip (cls : ascii -> bool) (s : string) :
  match_star cls (rstrip s) = string_forall cls (rstrip s).
Proof.
  induction s as [|a s IH]; [reflexivity|].
  simpl rstrip. destruct (rstrip s) as [|b t] eqn:E.
  - destruct (isspace a) eqn:Ha; [reflexivity|].
    simpl. replace (Ascii.eqb a LF) with false; [reflexivity|].
    revert Ha. clear. each_char a.
  - change (match_star cls (String a (String b t)))
      with (cls a && match_star cls (String b t)).
    rewrite IH. reflexivity.
Qed.

(** On a trimmed value, [^\[cls\]+$] holds of the non-empty strings of
    characters of the class. *)
Lemma match_plus_strip (cls : ascii -> bool) (s : string) :
  match_plus cls (strip s)
  = negb (is_empty (strip s)) && string_forall cls (strip s).
Proof.
  unfold strip. pose proof (match_star_rstrip cls (lstrip s)) as H.
  destruct (rstrip (lstrip s)) as [|a [|b t]]; [reflexivity| |].
  - simpl. destruct (cls a); reflexivity.
  - change (match_star cls (String a (String b t)))
      with (cls a && match_star cls (String b t)) in H.
    change (string_forall cls (String a (String b t)))
      with (cls a && string_forall cls (String b t)) in H.
    change (match_plus cls (String a (String b t)))
      with (cls a && match_star cls (String b t)).
    exact H.
Qed.

(** C5.  The test of an Alphanumeric field, on the code: the trimmed
    column is accepted exactly when it is not empty and all its characters
    are in the class of the pattern, which is the set of the specification
    together with the apostrophe.  So a value with an apostrophe, outside
    the set of the specification, is accepted: [header_line_apostrophe]
    gives an instance whose [destination_id] holds it. *)
Theorem C5_alphanumeric_pattern_accepts_the_apostrophe :
  (forall text loc,
     accepts text {| location := loc; type := LockboxFieldType.Alphanumeric |}
     = negb (is_empty (strip (slice text (fst loc) (snd loc))))
       && string_forall alphanumeric_class (strip (slice text (fst loc) (snd loc))))
  /\ (forall a,
        alphanumeric_class a = spec_alphanumeric_set a || Ascii.eqb a "'")
  /\ spec_alphanumeric_set "'" = false
  /\ strip (slice header_line_apostrophe 3 13) = "O'NEIL"
  /\ construct ImmediateAddressHeader header_line_apostrophe
     = OK (instance ImmediateAddressHeader header_line_apostrophe)
  /\ instance ImmediateAddressHeader header_line_apostrophe !! "destination_id"
     = Some (VStr "O'NEIL    ").
Proof.
  split; [|split; [|split; [|split; [|split]]]].
  - intros text loc. unfold accepts, column. simpl. apply match_plus_strip.
  - exact alphanumeric_class_is_spec_plus_apostrophe.
  - reflexivity.
  - vm_compute. reflexivity.
  - vm_cast_no_check
      (eq_refl (construct ImmediateAddressHeader header_line_apostrophe)).
  - vm_compute. reflexivity.
Qed.

(** ** Dates *)

Lemma string6_slices (a1 a2 a3 a4 a5 a6 : ascii) :
  len (string6 a1 a2 a3 a4 a5 a6) = 6
  /\ slice (string6 a1 a2 a3 a4 a5 a6) 0 2 = String a1 (String a2 EmptyString)
  /\ slice (string6 a1 a2 a3 a4 a5 a6) 2 4 = String a3 (String a4 EmptyString)
  /\ slice (string6 a1 a2 a3 a4 a5 a6) 4 6 = String a5 (String a6 EmptyString).
Proof. repeat split; reflexivity. Qed.

(** C7.  [_parse_as_date] on a field whose raw value is [s].  When [s] is
    not 6 characters long the result is a [LockboxDefinitionError].  When
    [s] is 6 decimal digits, they are read as YYMMDD, or as MMDDYY when
    [mmddyy] is set, the year is 2000 + YY, and the result is that date
    when it is a date of the calendar and a [LockboxDefinitionError] when
    it is not.  So 250615 read as YYMMDD and 061525 read as MMDDYY give 15
    June 2025, and 251305 read as YYMMDD is an error. *)
Theorem C7_parse_as_date :
  (forall (c : namespace) (self : obj) (field_name s : string) (mmddyy : bool),
     self !! raw_name field_name = Some (VStr s) ->
     (len s <> 6 ->
      _parse_as_date c self field_name mmddyy = Raise (not_a_date s))
     /\ (forall a1 a2 a3 a4 a5 a6,
           s = string6 a1 a2 a3 a4 a5 a6 ->
           forallb is_digit [a1; a2; a3; a4; a5; a6] = true ->
           let year :=
             (if mmddyy then two_digits a5 a6 else two_digits a1 a2) + 2000 in
           let month := if mmddyy then two_digits a1 a2 else two_digits a3 a4 in
           let day := if mmddyy then two_digits a3 a4 else two_digits a5 a6 in
           _parse_as_date c self field_name mmddyy
           = if date_ok year month day then OK (VDate year month day)
             else Raise (not_a_date s)))
  /\ _parse_as_date LockboxBaseRecord
       (setattr ∅ "_deposit_date_raw" (VStr "250615")) "deposit_date" false
     = OK (VDate 2025 6 15)
  /\ _parse_as_date LockboxBaseRecord
       (setattr ∅ "_deposit_date_raw" (VStr "061525")) "deposit_date" true
     = OK (VDate 2025 6 15)
  /\ _parse_as_date LockboxBaseRecord
       (setattr ∅ "_deposit_date_raw" (VStr "251305")) "deposit_date" false
     = Raise (not_a_date "251305").
Proof.
  split; [|repeat split; vm_compute; reflexivity].
  intros c self field_name s mmddyy Hraw.
  assert (Hdef : _parse_as_date c self field_name mmddyy
                 = except_ValueError
                     (if negb (len s =? 6) then Raise ValueError
                      else if negb mmddyy then
                        year <- py_int (slice s 0 2) ;;
                        month <- py_int (slice s 2 4) ;;
                        day <- py_int (slice s 4 6) ;;
                        date (year + 2000) month day
                      else
                        year <- py_int (slice s 4 6) ;;
                        month <- py_int (slice s 0 2) ;;
                        day <- py_int (slice s 2 4) ;;
                        date (year + 2000) month day)
                     (s +:+ " is not a valid YYMMDD-formatted date")).
  { unfold _parse_as_date, hasattr, getattr_str. rewrite Hraw. reflexivity. }
  rewrite Hdef. clear Hdef. split.
  - intros Hlen. apply Z.eqb_neq in Hlen. rewrite Hlen. reflexivity.
  - intros a1 a2 a3 a4 a5 a6 -> Hd. simpl in Hd.
    repeat (apply andb_prop in Hd as [? Hd]).
    destruct (string6_slices a1 a2 a3 a4 a5 a6) as (-> & -> & -> & ->).
    rewrite !py_int_two_digits by assumption.
    destruct mmddyy; simpl; unfold date;
      match goal with
      | |- context [date_ok ?y ?m ?d] => destruct (date_ok y m d)
      end; reflexivity.
Qed.

(** A raw value of eight digits is not a date. *)
Lemma C7_witness :
  _parse_as_date LockboxBaseRecord
    (setattr ∅ "_deposit_date_raw" (VStr "20250615")) "deposit_date" false
  = Raise (not_a_date "20250615").
Proof.
  apply (proj1 C7_parse_as_date LockboxBaseRecord
           (setattr ∅ "_deposit_date_raw" (VStr "20250615")) "deposit_date"
           "20250615" false).
  - vm_compute. reflexivity.
  - vm_compute. discriminate.
Defined.

(** ** Integer fields with no fallback *)

Lemma schema_field (k : kind) (nm : string) :
  In nm (names k) -> exists fd, In (nm, fd) (schema (lockbox_class k)).
Proof.
  unfold names. intros H. apply in_map_iff in H as ([nm' fd] & Heq & H).
  simpl in Heq. subst nm'. eauto.
Qed.

(** C4 as stated fails: the batch number [ABC] of
    [detail_header_line_letters] passes [_parse], is not numeric, and ends
    the construction in a [ValueError], not in a [LockboxDefinitionError]. *)
Lemma C4_counterexample :
  accepts detail_header_line_letters
    {| location := (1, 4); type := LockboxFieldType.AlphanumericOrBlank |}
  = true
  /\ slice detail_header_line_letters 1 4 = "ABC"
  /\ isnumeric "ABC" = false
  /\ construct DetailHeader detail_header_line_letters = Raise ValueError
  /\ forall msg, construct DetailHeader detail_header_line_letters
                 <> Raise (LockboxDefinitionError msg).
Proof.
  assert (H : construct DetailHeader detail_header_line_letters
              = Raise ValueError) by (vm_compute; reflexivity).
  repeat split; try (vm_compute; reflexivity).
  intros msg. rewrite H. discriminate.
Qed.

(** ** The fallback of [LockboxDetailRecord] *)

Section Lenient.
Variable c : namespace.

Lemma zero_unless_numeric_run (self : obj) (nm raw : string) :
  self !! raw_name nm = Some (VStr raw) ->
  zero_unless_numeric c self nm
  = OK (setattr self (raw_name nm) (VStr (lenient raw))).
Proof.
  intros H. unfold zero_unless_numeric, getattr_str, lenient, setattr.
  rewrite H. simpl. destruct (isnumeric raw); simpl; [|reflexivity].
  rewrite insert_id by exact H. reflexivity.
Qed.

Lemma zero_if_empty_run (self : obj) (nm raw : string) :
  self !! raw_name nm = Some (VStr raw) ->
  zero_if_empty c self nm
  = OK (setattr self (raw_name nm)
          (VStr (if len raw =? 0 then "0" else raw))).
Proof.
  intros H. unfold zero_if_empty, getattr_str, setattr.
  rewrite H. simpl. destruct (len raw =? 0); [reflexivity|].
  rewrite insert_id by exact H. reflexivity.
Qed.

Lemma set_int_run (self : obj) (nm raw : string) (n : Z) :
  self !! raw_name nm = Some (VStr raw) -> py_int raw = OK n ->
  set_int c self nm = OK (setattr self nm (VInt n)).
Proof.
  intros H Hn. unfold set_int, getattr_str. rewrite H. simpl. rewrite Hn.
  reflexivity.
Qed.

Lemma set_hundredths_run (self : obj) (nm raw : string) (n : Z) :
  self !! raw_name nm = Some (VStr raw) -> py_int raw = OK n ->
  set_hundredths c self nm = OK (setattr self nm (VFloat (Qmake n 100))).
Proof.
  intros H Hn. unfold set_hundredths, getattr_str. rewrite H. simpl.
  rewrite Hn. reflexivity.
Qed.
End Lenient.

Lemma lenient_zero_if_empty (raw : string) :
  lenient (if len raw =? 0 then "0" else raw) = lenient raw.
Proof. destruct raw; reflexivity. Qed.

(** What [int()] makes of a raw value after the fallback: an integer, and
    zero when the value was not numeric. *)
Lemma lenient_int (text : string) (fd : field_def) :
  type fd = LockboxFieldType.AlphanumericOrBlank ->
  accepts text fd = true ->
  exists n, py_int (lenient (column text fd)) = OK n
            /\ (isnumeric (column text fd) = false -> n = 0).
Proof.
  intros Hty Hacc. unfold lenient.
  destruct (isnumeric (column text fd)) eqn:Hnum.
  - destruct (numeric_column_int text fd Hty Hacc Hnum) as [n Hn].
    exists n. split; [exact Hn|discriminate].
  - exists 0. split; reflexivity.
Qed.

Ltac different := let H := fresh in intros H; vm_compute in H; discriminate H.

Ltac lookup_chain :=
  unfold setattr;
  repeat (rewrite lookup_insert_ne by different);
  try rewrite lookup_insert_eq; try reflexivity; try eassumption.

Lemma bind_OK_l {A B : Type} (a : A) (k : A -> result B) : bind (OK a) k = k a.
Proof. reflexivity. Qed.

(** C3, as the code has it.  A [LockboxDetailRecord] line that passes
    [_parse] always gives an instance: [validate] does not fail.  In
    [batch_number], [check_amount] and [check_number] a raw value that is
    not numeric (the empty one included) is replaced by ["0"], and the
    fields are exposed as numbers: the integer read from the raw value,
    over 100 for [check_amount], and zero when the value was replaced.
    [item_number] gets the same replacement but no conversion: it is
    exposed as a string, the raw value or ["0"]. *)
Theorem C3_detail_record_fallback (text : string) (o1 : obj) :
  len text <= 160 ->
  _parse (prepared (lockbox_class DetailRecord)) (fresh text) = OK o1 ->
  exists o nb na nc,
    construct DetailRecord text = OK o
    /\ py_int (lenient (slice text 1 4)) = OK nb
    /\ py_int (lenient (slice text 7 17)) = OK na
    /\ py_int (lenient (slice text 40 50)) = OK nc
    /\ (isnumeric (slice text 1 4) = false -> nb = 0)
    /\ (isnumeric (slice text 7 17) = false -> na = 0)
    /\ (isnumeric (slice text 40 50) = false -> nc = 0)
    /\ o !! "batch_number" = Some (VInt nb)
    /\ o !! "item_number" = Some (VStr (lenient (slice text 4 7)))
    /\ o !! "check_amount" = Some (VFloat (Qmake na 100))
    /\ o !! "check_number" = Some (VInt nc).
Proof.
  intros Hlen Hparse.
  assert (Hp : for_each (parse_field (prepared (lockbox_class DetailRecord)))
                 (schema (lockbox_class DetailRecord)) (fresh text) = OK o1)
    by exact Hparse.
  pose proof Hp as Hp'. apply for_each_parse_OK in Hp' as [Ho1 HF].
  change (raw_record_text (fresh text)) with text in Ho1, HF.
  pose proof (proj1 (List.Forall_forall _ _) HF) as Hacc.
  set (AoB := LockboxFieldType.AlphanumericOrBlank) in *.
  set (fb := {| location := (1, 4); type := AoB |}).
  set (fi := {| location := (4, 7); type := AoB |}).
  set (fa := {| location := (7, 17); type := AoB |}).
  set (fn := {| location := (40, 50); type := AoB |}).
  assert (Hib : In ("batch_number", fb) (schema (lockbox_class DetailRecord)))
    by (vm_compute; tauto).
  assert (Hii : In ("item_number", fi) (schema (lockbox_class DetailRecord)))
    by (vm_compute; tauto).
  assert (Hia : In ("check_amount", fa) (schema (lockbox_class DetailRecord)))
    by (vm_compute; tauto).
  assert (Hin : In ("check_number", fn) (schema (lockbox_class DetailRecord)))
    by (vm_compute; tauto).
  destruct (lenient_int text fb eq_refl (Hacc _ Hib)) as (nb & Hnb & Hzb).
  destruct (lenient_int text fa eq_refl (Hacc _ Hia)) as (na & Hna & Hza).
  destruct (lenient_int text fn eq_refl (Hacc _ Hin)) as (nc & Hnc & Hzc).
  pose proof (parsed_raw DetailRecord text _ _ Hib) as Rb.
  pose proof (parsed_raw DetailRecord text _ _ Hii) as Ri.
  pose proof (parsed_raw DetailRecord text _ _ Hia) as Ra.
  pose proof (parsed_raw DetailRecord text _ _ Hin) as Rn.
  rewrite <- Ho1 in Rb, Ri, Ra, Rn.
  set (c := prepared (lockbox_class DetailRecord)).
  assert (Hval : exists o2,
             LockboxDetailRecord.validate c o1 = OK o2
             /\ o2 !! "batch_number" = Some (VInt nb)
             /\ o2 !! "item_number" = None
             /\ o2 !! "_item_number_raw" = Some (VStr (lenient (column text fi)))
             /\ o2 !! "check_amount" = Some (VFloat (Qmake na 100))
             /\ o2 !! "check_number" = Some (VInt nc)).
  { assert (Hnone : o1 !! "item_number" = None).
    { rewrite Ho1. apply (parsed_field DetailRecord text).
      exact (in_map fst _ _ Hii). }
    eexists. split.
    - unfold LockboxDetailRecord.validate.
      rewrite (zero_unless_numeric_run c o1 "batch_number" _ Rb), bind_OK_l.
      erewrite set_int_run, bind_OK_l; [|lookup_chain|exact Hnb].
      erewrite zero_unless_numeric_run, bind_OK_l; [|lookup_chain].
      erewrite zero_unless_numeric_run, bind_OK_l; [|lookup_chain].
      erewrite set_hundredths_run, bind_OK_l; [|lookup_chain|exact Hna].
      erewrite zero_if_empty_run, bind_OK_l; [|lookup_chain].
      erewrite zero_unless_numeric_run, bind_OK_l; [|lookup_chain].
      rewrite lenient_zero_if_empty.
      erewrite set_int_run; [reflexivity|lookup_chain|exact Hnc].
    - repeat split; lookup_chain. }
  destruct Hval as (o2 & Hval & Ab & Ai & Ari & Aa & An).
  exists (fold_left (expose_field c) (schema (lockbox_class DetailRecord)) o2),
    nb, na, nc.
  split.
  { unfold construct. rewrite init_eq; [|exact Hlen|discriminate].
    rewrite Hp, bind_OK_l.
    change (validate (lockbox_class DetailRecord))
      with (Some LockboxDetailRecord.validate).
    cbv beta iota. fold c. rewrite Hval. reflexivity. }
  subst c. repeat split; try assumption.
  - rewrite (constructed_field DetailRecord o2 _ _ Hib), Ab. reflexivity.
  - rewrite (constructed_field DetailRecord o2 _ _ Hii), Ai.
    change (raw_name "item_number") with "_item_number_raw". rewrite Ari.
    reflexivity.
  - rewrite (constructed_field DetailRecord o2 _ _ Hia), Aa. reflexivity.
  - rewrite (constructed_field DetailRecord o2 _ _ Hin), An. reflexivity.
Qed.

(** A detail line whose four fields are all malformed still gives an
    instance. *)
Lemma C3_witness :
  exists o nb na nc,
    construct DetailRecord detail_line_malformed = OK o
    /\ py_int (lenient (slice detail_line_malformed 1 4)) = OK nb
    /\ py_int (lenient (slice detail_line_malformed 7 17)) = OK na
    /\ py_int (lenient (slice detail_line_malformed 40 50)) = OK nc
    /\ (isnumeric (slice detail_line_malformed 1 4) = false -> nb = 0)
    /\ (isnumeric (slice detail_line_malformed 7 17) = false -> na = 0)
    /\ (isnumeric (slice detail_line_malformed 40 50) = false -> nc = 0)
    /\ o !! "batch_number" = Some (VInt nb)
    /\ o !! "item_number"
       = Some (VStr (lenient (slice detail_line_malformed 4 7)))
    /\ o !! "check_amount" = Some (VFloat (Qmake na 100))
    /\ o !! "check_number" = Some (VInt nc).
Proof.
  apply (C3_detail_record_fallback detail_line_malformed
           (fold_left (store_raw detail_line_malformed)
              (schema (lockbox_class DetailRecord))
              (fresh detail_line_malformed))).
  - vm_compute. discriminate.
  - vm_cast_no_check
      (eq_refl (_parse (prepared (lockbox_class DetailRecord))
                  (fresh detail_line_malformed))).
Defined.

(** C3 as stated fails: the item number [002] of [detail_line] is numeric
    and is exposed as the string ["002"], not as a number. *)
Lemma C3_counterexample :
  construct DetailRecord detail_line = OK (instance DetailRecord detail_line)
  /\ slice detail_line 4 7 = "002"
  /\ isnumeric "002" = true
  /\ instance DetailRecord detail_line !! "item_number" = Some (VStr "002")
  /\ is_number (VStr "002") = false.
Proof.
  split; [|repeat split; vm_compute; reflexivity].
  vm_cast_no_check (eq_refl (construct DetailRecord detail_line)).
Qed.

(** * Further properties *)

(** ** The tests of the Numeric, Blank and AlphanumericOrBlank fields *)

Lemma lstrip_head (s : string) (a : ascii) (t : string) :
  lstrip s = String a t -> isspace a = false.
Proof.
  induction s as [|b s IH]; simpl; [discriminate|].
  destruct (isspace b) eqn:Hb; [exact IH|]. intros [= <- _]. exact Hb.
Qed.

Lemma rstrip_head (s : string) (a : ascii) (t : string) :
  rstrip s = String a t -> exists t', s = String a t'.
Proof.
  destruct s as [|b s]; simpl; [discriminate|].
  destruct (rstrip s); [destruct (isspace b); [discriminate|]|];
    intros [= <- _]; eauto.
Qed.

(** A trimmed value does not start with white space. *)
Lemma strip_head (s : string) (a : ascii) (t : string) :
  strip s = String a t -> isspace a = false.
Proof.
  unfold strip. intros H. apply rstrip_head in H as [t' H].
  exact (lstrip_head s a t' H).
Qed.

Lemma lstrip_spaces (s : string) :
  string_forall isspace s = true -> lstrip s = EmptyString.
Proof.
  induction s as [|a s IH]; simpl; [reflexivity|].
  intros H. apply andb_prop in H as [-> H]. exact (IH H).
Qed.

Lemma rstrip_nonempty (a : ascii) (s : string) :
  isspace a = false -> rstrip (String a s) <> EmptyString.
Proof. intros Ha. simpl. destruct (rstrip s); [rewrite Ha|]; discriminate. Qed.

(** Trimming leaves nothing exactly of the strings of white space. *)
Lemma strip_empty (s : string) :
  is_empty (strip s) = string_forall isspace s.
Proof.
  unfold strip. induction s as [|a s IH]; [reflexivity|].
  simpl lstrip. simpl string_forall. destruct (isspace a) eqn:Ha; [exact IH|].
  pose proof (rstrip_nonempty a s Ha) as Hne.
  destruct (rstrip (String a s)); [congruence|reflexivity].
Qed.

Lemma at_dollar_strip (s : string) : at_dollar (strip s) = is_empty (strip s).
Proof.
  destruct (strip s) as [|a [|b t]] eqn:E; try reflexivity.
  simpl. pose proof (strip_head s a EmptyString E) as Ha.
  revert Ha. clear. each_char a.
Qed.

Lemma string_forall_head_false (p : ascii -> bool) (a : ascii) (t : string) :
  p a = false -> string_forall p (String a t) = false.
Proof. intros H. simpl. rewrite H. reflexivity. Qed.

(** X9.  The tests of [_parse] in terms of the column of the field.  A
    Numeric field is accepted when its trimmed column is a non-empty string
    of the digits 0 to 9; a Blank field when its column is white space
    only, the empty column included; an AlphanumericOrBlank field when all
    the characters of its trimmed column, if any, are in the class of the
    pattern. *)
Theorem X9_tests_of_the_field_types (text : string) (loc : Z * Z) :
  accepts text {| location := loc; type := Numeric |}
  = negb (is_empty (strip (slice text (fst loc) (snd loc))))
    && string_forall is_digit (strip (slice text (fst loc) (snd loc)))
  /\ accepts text {| location := loc; type := Blank |}
     = string_forall isspace (slice text (fst loc) (snd loc))
  /\ accepts text {| location := loc; type := AlphanumericOrBlank |}
     = string_forall alphanumericorblank_class
         (strip (slice text (fst loc) (snd loc))).
Proof.
  unfold accepts, column. simpl. set (col := slice text (fst loc) (snd loc)).
  split; [apply match_plus_strip|]. split.
  - unfold strip. rewrite match_star_rstrip. fold (strip col).
    rewrite <- (strip_empty col).
    destruct (strip col) as [|a t] eqn:E; [reflexivity|].
    apply string_forall_head_false. exact (strip_head col a t E).
  - rewrite at_dollar_strip, match_plus_strip.
    destruct (strip col); [reflexivity|]. reflexivity.
Qed.

(** ** Dates and times of the day *)

Section Decode.
Variable c : namespace.

Lemma parse_as_date_decode (self : obj) (name s : string) (mmddyy : bool) :
  self !! raw_name name = Some (VStr s) ->
  _parse_as_date c self name mmddyy = decode_date s mmddyy.
Proof.
  intros H. unfold _parse_as_date, hasattr, getattr_str, decode_date.
  rewrite H. reflexivity.
Qed.

Lemma parse_as_time_decode (self : obj) (name s : string) :
  self !! raw_name name = Some (VStr s) ->
  _parse_as_time c self name = decode_time s.
Proof.
  intros H. unfold _parse_as_time, hasattr, getattr_str, decode_time.
  rewrite H. reflexivity.
Qed.
End Decode.

Lemma string4_slices (a1 a2 a3 a4 : ascii) :
  len (string4 a1 a2 a3 a4) = 4
  /\ slice (string4 a1 a2 a3 a4) 0 2 = String a1 (String a2 EmptyString)
  /\ slice (string4 a1 a2 a3 a4) 2 4 = String a3 (String a4 EmptyString).
Proof. repeat split; reflexivity. Qed.

(** X1.  [_parse_as_time] on a field whose raw value is [s].  When [s] is
    not 4 characters long the result is a [LockboxDefinitionError].  When
    [s] is 4 decimal digits HHMM, the result is the time HH:MM when HH is
    at most 23 and MM at most 59, and a [LockboxDefinitionError]
    otherwise. *)
Theorem X1_parse_as_time (c : namespace) (self : obj) (field_name s : string) :
  self !! raw_name field_name = Some (VStr s) ->
  (len s <> 4 -> _parse_as_time c self field_name = Raise (not_a_time s))
  /\ (forall a1 a2 a3 a4,
        s = string4 a1 a2 a3 a4 ->
        forallb is_digit [a1; a2; a3; a4] = true ->
        _parse_as_time c self field_name
        = if (two_digits a1 a2 <=? 23) && (two_digits a3 a4 <=? 59)
          then OK (VTime (two_digits a1 a2) (two_digits a3 a4))
          else Raise (not_a_time s)).
Proof.
  intros Hraw. rewrite (parse_as_time_decode c self field_name s Hraw).
  unfold decode_time. split.
  - intros Hlen. apply Z.eqb_neq in Hlen. rewrite Hlen. reflexivity.
  - intros a1 a2 a3 a4 -> Hd. simpl in Hd.
    repeat (apply andb_prop in Hd as [? Hd]).
    destruct (string4_slices a1 a2 a3 a4) as (-> & -> & ->).
    rewrite !py_int_two_digits by assumption. simpl. unfold time, time_ok.
    assert (Hpos : forall a b, is_digit a = true -> is_digit b = true ->
                             (0 <=? two_digits a b) = true).
    { intros a b Ha Hb. apply Z.leb_le. unfold two_digits, digit_value.
      unfold is_digit, between in Ha, Hb.
      apply andb_prop in Ha as [Ha _]. apply andb_prop in Hb as [Hb _].
      apply Z.leb_le in Ha, Hb. lia. }
    rewrite !Hpos by assumption. simpl.
    destruct (two_digits a1 a2 <=? 23); simpl; [|reflexivity].
    destruct (two_digits a3 a4 <=? 59); reflexivity.
Qed.

(** The time 13:45, from the raw value [1345]. *)
Lemma X1_witness :
  _parse_as_time LockboxBaseRecord
    (setattr ∅ "_processing_time_raw" (VStr "1345")) "processing_time"
  = OK (VTime 13 45).
Proof.
  refine (proj2 (X1_parse_as_time LockboxBaseRecord
                   (setattr ∅ "_processing_time_raw" (VStr "1345"))
                   "processing_time" "1345" _) "1" "3" "4" "5" _ _)%char.
  - vm_compute. reflexivity.
  - reflexivity.
  - reflexivity.
Defined.

Section DecodeErrors.
Variable c : namespace.

Lemma decode_date_Raise (s : string) (b : bool) (e : exn) :
  decode_date s b = Raise e -> e = not_a_date s.
Proof.
  unfold decode_date. intros H.
  apply except_ValueError_Raise in H; [exact H|].
  intros e' Hr.
  repeat match type of Hr with
         | (if ?b then _ else _) = Raise _ => destruct b
         | bind _ _ = Raise _ => apply bind_Raise in Hr as [Hr|(? & _ & Hr)]
         | py_int _ = Raise _ => exact (py_int_Raise _ _ Hr)
         | date _ _ _ = Raise _ => exact (date_Raise _ _ _ _ Hr)
         | Raise _ = Raise _ => congruence
         end.
Qed.

Lemma decode_time_Raise (s : string) (e : exn) :
  decode_time s = Raise e -> e = not_a_time s.
Proof.
  unfold decode_time. intros H.
  apply except_ValueError_Raise in H; [exact H|].
  intros e' Hr.
  repeat match type of Hr with
         | (if ?b then _ else _) = Raise _ => destruct b
         | bind _ _ = Raise _ => apply bind_Raise in Hr as [Hr|(? & _ & Hr)]
         | py_int _ = Raise _ => exact (py_int_Raise _ _ Hr)
         | time _ _ = Raise _ => exact (time_Raise _ _ _ Hr)
         | Raise _ = Raise _ => congruence
         end.
Qed.

Lemma parse_as_date_errors (self : obj) (name : string) (b : bool) (e : exn) :
  _parse_as_date c self name b = Raise e ->
  e <> ValueError
  /\ forall s, self !! raw_name name = Some (VStr s) -> e = not_a_date s.
Proof.
  destruct (self !! raw_name name) as [v|] eqn:E.
  - destruct v;
      try (unfold _parse_as_date, hasattr, getattr_str; rewrite E; simpl;
           intros [= <-]; split; discriminate).
    rewrite (parse_as_date_decode c self name s b E). intros H.
    apply decode_date_Raise in H. subst e.
    split; [discriminate|]. intros s' [= <-]. reflexivity.
  - unfold _parse_as_date, hasattr, getattr_str. rewrite E. simpl.
    destruct (class_hasattr c (raw_name name)); simpl; intros [= <-];
      split; discriminate.
Qed.

Lemma parse_as_time_errors (self : obj) (name : string) (e : exn) :
  _parse_as_time c self name = Raise e ->
  e <> ValueError
  /\ forall s, self !! raw_name name = Some (VStr s) -> e = not_a_time s.
Proof.
  destruct (self !! raw_name name) as [v|] eqn:E.
  - destruct v;
      try (unfold _parse_as_time, hasattr, getattr_str; rewrite E; simpl;
           intros [= <-]; split; discriminate).
    rewrite (parse_as_time_decode c self name s E). intros H.
    apply decode_time_Raise in H. subst e.
    split; [discriminate|]. intros s' [= <-]. reflexivity.
  - unfold _parse_as_time, hasattr, getattr_str. rewrite E. simpl.
    destruct (class_hasattr c (raw_name name)); simpl; intros [= <-];
      split; discriminate.
Qed.

Lemma parse_as_date_OK (self : obj) (name : string) (b : bool) (v : value) :
  _parse_as_date c self name b = OK v ->
  exists s, self !! raw_name name = Some (VStr s) /\ decode_date s b = OK v.
Proof.
  destruct (self !! raw_name name) as [w|] eqn:E.
  - destruct w;
      try (unfold _parse_as_date, hasattr, getattr_str; rewrite E; simpl;
           discriminate).
    rewrite (parse_as_date_decode c self name s b E). eauto.
  - unfold _parse_as_date, hasattr, getattr_str. rewrite E. simpl.
    destruct (class_hasattr c (raw_name name)); discriminate.
Qed.

Lemma parse_as_time_OK (self : obj) (name : string) (v : value) :
  _parse_as_time c self name = OK v ->
  exists s, self !! raw_name name = Some (VStr s) /\ decode_time s = OK v.
Proof.
  destruct (self !! raw_name name) as [w|] eqn:E.
  - destruct w;
      try (unfold _parse_as_time, hasattr, getattr_str; rewrite E; simpl;
           discriminate).
    rewrite (parse_as_time_decode c self name s E). eauto.
  - unfold _parse_as_time, hasattr, getattr_str. rewrite E. simpl.
    destruct (class_hasattr c (raw_name name)); discriminate.
Qed.
End DecodeErrors.

(** X2.  The [ValueError] of [int()] and of [datetime] never leaves
    [_parse_as_date] or [_parse_as_time]: whatever the instance and the
    field, they do not end in a [ValueError], and when the raw value of the
    field is a string the only error they end in is the
    [LockboxDefinitionError] that quotes it. *)
Theorem X2_decoders_never_raise_ValueError (c : namespace) (self : obj)
    (field_name : string) (mmddyy : bool) (e : exn) :
  (_parse_as_date c self field_name mmddyy = Raise e ->
   e <> ValueError
   /\ forall s, self !! raw_name field_name = Some (VStr s) ->
                e = not_a_date s)
  /\ (_parse_as_time c self field_name = Raise e ->
      e <> ValueError
      /\ forall s, self !! raw_name field_name = Some (VStr s) ->
                   e = not_a_time s).
Proof.
  split; [apply parse_as_date_errors|apply parse_as_time_errors].
Qed.

(** A raw value of letters is not a date: the error quotes it. *)
Lemma X2_witness :
  not_a_date "ABCDEF" <> ValueError
  /\ forall s, setattr (∅ : obj) "_deposit_date_raw" (VStr "ABCDEF")
               !! raw_name "deposit_date" = Some (VStr s) ->
               not_a_date "ABCDEF" = not_a_date s.
Proof.
  apply (proj1 (X2_decoders_never_raise_ValueError LockboxBaseRecord
                  (setattr ∅ "_deposit_date_raw" (VStr "ABCDEF"))
                  "deposit_date" false (not_a_date "ABCDEF"))).
  vm_compute. reflexivity.
Defined.

(** ** The size of the integers *)

Lemma len_cons (a : ascii) (s : string) : len (String a s) = len s + 1.
Proof. unfold len. simpl String.length. lia. Qed.

Lemma len_nonneg (s : string) : 0 <= len s.
Proof. unfold len. lia. Qed.

Lemma digit_value_range (a : ascii) :
  is_digit a = true -> 0 <= digit_value a <= 9.
Proof.
  unfold is_digit, between, digit_value. intros H.
  apply andb_prop in H as [H1 H2]. apply Z.leb_le in H1, H2. lia.
Qed.

Lemma scan_digits_bound (s : string) (b : bool) (acc n : Z) (rest : string) :
  scan_digits b acc s = Some (n, rest) -> 0 <= acc ->
  acc <= n /\ n + 1 <= (acc + 1) * 10 ^ len s.
Proof.
  revert b acc. induction s as [|a s IH]; intros b acc; simpl scan_digits.
  - destruct b; [discriminate|]. intros [= <- _] Hacc.
    change (len EmptyString) with 0. simpl. lia.
  - intros H Hacc. rewrite len_cons. pose proof (len_nonneg s) as Hlen.
    rewrite Z.pow_add_r by lia. change (10 ^ 1) with 10.
    assert (Hp : 1 <= 10 ^ len s)
      by (pose proof (Z.pow_pos_nonneg 10 (len s)); lia).
    destruct (Ascii.eqb a "_").
    + destruct b; [discriminate|]. apply IH in H as [H1 H2]; [|exact Hacc]. nia.
    + destruct (is_digit a) eqn:Ha.
      * pose proof (digit_value_range a Ha) as Hd.
        apply IH in H as [H1 H2]; [|lia]. nia.
      * destruct b; [discriminate|]. injection H as <- _. nia.
Qed.

Lemma map_string_len (f : ascii -> ascii) (s : string) :
  len (map_string f s) = len s.
Proof.
  induction s as [|a s IH]; [reflexivity|]. simpl map_string.
  rewrite !len_cons, IH. reflexivity.
Qed.

Lemma skip_c_space_len (s : string) : len (skip_c_space s) <= len s.
Proof.
  induction s as [|a s IH]; simpl; [lia|].
  destruct (is_c_space a); rewrite ?len_cons; lia.
Qed.

(** [int()] of [w] characters is below [10 ^ w] and above
    [- 10 ^ (w - 1)]: a sign takes the place of a digit. *)
Lemma py_int_bound (s : string) (n : Z) :
  py_int s = OK n -> - 10 ^ (len s - 1) < n < 10 ^ len s.
Proof.
  unfold py_int.
  pose proof (skip_c_space_len (map_string to_ascii_literal s)) as Hskip.
  rewrite map_string_len in Hskip.
  destruct (skip_c_space (map_string to_ascii_literal s)) as [|a t] eqn:E;
    [discriminate|].
  rewrite len_cons in Hskip. pose proof (len_nonneg t) as Ht.
  assert (Hmono : forall x y, 0 <= x <= y -> 10 ^ x <= 10 ^ y)
    by (intros; apply Z.pow_le_mono_r; lia).
  assert (Hpos : forall x, 0 <= x -> 1 <= 10 ^ x)
    by (intros x Hx; pose proof (Z.pow_pos_nonneg 10 x); lia).
  unfold split_sign.
  destruct (Ascii.eqb a "+"); [|destruct (Ascii.eqb a "-")];
    (destruct (starts_with_digit _); [|discriminate]);
    (destruct (scan_digits false 0 _) as [[m rest]|] eqn:Hs; [|discriminate]);
    (destruct (is_empty _); [|discriminate]); intros [= <-];
    apply scan_digits_bound in Hs as [H1 H2]; try lia.
  - pose proof (Hmono (len t) (len s) ltac:(lia)).
    pose proof (Hpos (len s - 1) ltac:(lia)). lia.
  - pose proof (Hmono (len t) (len s - 1) ltac:(lia)).
    pose proof (Hpos (len s) ltac:(lia)). lia.
  - rewrite len_cons in H2.
    pose proof (Hmono (len t + 1) (len s) ltac:(lia)).
    pose proof (Hpos (len s - 1) ltac:(lia)). lia.
Qed.

Lemma substring_length (n m : nat) (s : string) :
  (String.length (substring n m s) <= m)%nat.
Proof.
  revert n m. induction s as [|a s IH]; intros [|n] [|m]; simpl; try lia.
  - specialize (IH 0%nat m). lia.
  - apply IH.
  - apply IH.
Qed.

Lemma slice_len (s : string) (a b : Z) :
  0 <= a <= b -> len (slice s a b) <= b - a.
Proof.
  intros Hab. unfold slice, len.
  pose proof (substring_length
                (Z.to_nat (clamp_index a (Z.of_nat (String.length s))))
                (Z.to_nat (clamp_index b (Z.of_nat (String.length s))
                           - clamp_index a (Z.of_nat (String.length s)))) s).
  unfold clamp_index in *.
  destruct (Z.ltb_spec a 0); destruct (Z.ltb_spec b 0); lia.
Qed.

Lemma two_columns_int (s : string) (a : Z) (n : Z) :
  0 <= a -> py_int (slice s a (a + 2)) = OK n -> -9 <= n <= 99.
Proof.
  intros Ha H. apply py_int_bound in H.
  pose proof (slice_len s a (a + 2) ltac:(lia)) as Hle.
  pose proof (len_nonneg (slice s a (a + 2))) as Hge.
  assert (Hcases : len (slice s a (a + 2)) = 0 \/ len (slice s a (a + 2)) = 1
                   \/ len (slice s a (a + 2)) = 2) by lia.
  destruct Hcases as [E|[E|E]]; rewrite E in H; simpl in H; lia.
Qed.

Lemma except_ValueError_OK {A : Type} (r : result A) (msg : string) (a : A) :
  except_ValueError r msg = OK a -> r = OK a.
Proof. destruct r as [x|[]]; simpl; congruence. Qed.

Lemma decode_date_OK (s : string) (b : bool) (v : value) :
  decode_date s b = OK v ->
  len s = 6
  /\ exists y m d, v = VDate y m d /\ 1991 <= y <= 2099
                   /\ date_ok y m d = true.
Proof.
  unfold decode_date. intros H. apply except_ValueError_OK in H.
  destruct (Z.eqb_spec (len s) 6) as [Hlen|Hlen]; simpl in H; [|discriminate].
  split; [exact Hlen|].
  destruct b; simpl in H;
    apply bind_OK in H as (y & Hy & H); apply bind_OK in H as (m & Hm & H);
    apply bind_OK in H as (d & Hd & H); unfold date in H;
    destruct (date_ok (y + 2000) m d) eqn:Hok; try discriminate;
    injection H as <-; exists (y + 2000), m, d;
    (split; [reflexivity|]); (split; [|exact Hok]).
  - apply (two_columns_int s 4) in Hy; lia.
  - apply (two_columns_int s 0) in Hy; lia.
Qed.

Lemma decode_time_OK (s : string) (v : value) :
  decode_time s = OK v ->
  len s = 4
  /\ exists h m, v = VTime h m /\ 0 <= h <= 23 /\ 0 <= m <= 59.
Proof.
  unfold decode_time. intros H. apply except_ValueError_OK in H.
  destruct (Z.eqb_spec (len s) 4) as [Hlen|Hlen]; simpl in H; [|discriminate].
  split; [exact Hlen|].
  apply bind_OK in H as (h & _ & H). apply bind_OK in H as (m & _ & H).
  unfold time, time_ok in H.
  destruct (Z.leb_spec 0 h); destruct (Z.leb_spec h 23);
    destruct (Z.leb_spec 0 m); destruct (Z.leb_spec m 59);
    simpl in H; try discriminate.
  injection H as <-. exists h, m. repeat split; assumption.
Qed.

(** X3.  What [_parse_as_date] and [_parse_as_time] return.  A result of
    [_parse_as_date] is a date of the calendar whose year is between 1991
    and 2099: the two columns of the year give an integer from -9 to 99,
    since [int()] takes a sign, and 2000 is added to it.  A result of
    [_parse_as_time] is a time with the hour from 0 to 23 and the minute
    from 0 to 59. *)
Theorem X3_decoded_values_are_in_range (c : namespace) (self : obj)
    (field_name : string) (mmddyy : bool) (v : value) :
  (_parse_as_date c self field_name mmddyy = OK v ->
   exists y m d, v = VDate y m d /\ 1991 <= y <= 2099
                 /\ date_ok y m d = true)
  /\ (_parse_as_time c self field_name = OK v ->
      exists h m, v = VTime h m /\ 0 <= h <= 23 /\ 0 <= m <= 59).
Proof.
  split; intros H.
  - apply parse_as_date_OK in H as (s & _ & H).
    exact (proj2 (decode_date_OK s mmddyy v H)).
  - apply parse_as_time_OK in H as (s & _ & H).
    exact (proj2 (decode_time_OK s v H)).
Qed.

(** The raw value [-90101] is the first of January 1991. *)
Lemma X3_witness :
  exists y m d, VDate 1991 1 1 = VDate y m d /\ 1991 <= y <= 2099
                /\ date_ok y m d = true.
Proof.
  apply (proj1 (X3_decoded_values_are_in_range LockboxBaseRecord
                  (setattr ∅ "_deposit_date_raw" (VStr "-90101"))
                  "deposit_date" false (VDate 1991 1 1))).
  vm_compute. reflexivity.
Defined.

(** ** Which field ends [_parse] *)

Lemma known_type_compiles (ty : string) :
  known_type ty = true -> exists patt, compile_pattern ty = OK patt.
Proof.
  unfold known_type, mem, compile_pattern. simpl.
  destruct (String.eqb ty Alphanumeric); [eauto|].
  destruct (String.eqb ty Numeric); [eauto|].
  destruct (String.eqb ty Blank); [eauto|].
  destruct (String.eqb ty AlphanumericOrBlank); [eauto|]. discriminate.
Qed.

Lemma unknown_type_raises (ty : string) :
  known_type ty = false -> compile_pattern ty = Raise (invalid_field_type ty).
Proof.
  unfold known_type, mem, compile_pattern. simpl.
  destruct (String.eqb ty Alphanumeric); [discriminate|].
  destruct (String.eqb ty Numeric); [discriminate|].
  destruct (String.eqb ty Blank); [discriminate|].
  destruct (String.eqb ty AlphanumericOrBlank); [discriminate|]. reflexivity.
Qed.

Lemma accepts_known_type (text : string) (fd : field_def) :
  accepts text fd = true -> known_type (type fd) = true.
Proof.
  unfold accepts. destruct (known_type (type fd)) eqn:E; [reflexivity|].
  rewrite (unknown_type_raises _ E). discriminate.
Qed.

Section ParseFields.
Variable c : namespace.

Lemma parse_field_accepted (self : obj) (nm : string) (fd : field_def) :
  hasattr c self nm = false -> accepts (raw_record_text self) fd = true ->
  parse_field c self (nm, fd)
  = OK (store_raw (raw_record_text self) self (nm, fd)).
Proof.
  intros Hh Hacc. unfold parse_field, accepts, store_raw, column in *.
  simpl fst in *. simpl snd in *.
  rewrite Hh. destruct (location fd) as [a b]. simpl in *.
  destruct (compile_pattern (type fd)) as [patt|e]; [|discriminate].
  simpl. rewrite Hacc. reflexivity.
Qed.

Lemma parse_field_rejected (self : obj) (nm : string) (fd : field_def) :
  hasattr c self nm = false -> known_type (type fd) = true ->
  accepts (raw_record_text self) fd = false ->
  parse_field c self (nm, fd)
  = Raise (mismatch nm fd (column (raw_record_text self) fd)).
Proof.
  intros Hh Hk Hacc. unfold parse_field, accepts, mismatch, column in *.
  rewrite Hh. destruct (location fd) as [a b]. simpl in *.
  destruct (known_type_compiles _ Hk) as [patt Hp]. rewrite Hp in *.
  simpl. rewrite Hacc. reflexivity.
Qed.

Lemma parse_field_unknown (self : obj) (nm : string) (fd : field_def) :
  hasattr c self nm = false -> known_type (type fd) = false ->
  parse_field c self (nm, fd) = Raise (invalid_field_type (type fd)).
Proof.
  intros Hh Hk. unfold parse_field. rewrite Hh.
  destruct (location fd) as [a b]. rewrite (unknown_type_raises _ Hk).
  reflexivity.
Qed.

Lemma free_names_hasattr (fs : dict) (self : obj) (nm : string) :
  free_names c fs self -> In nm (map fst fs) -> hasattr c self nm = false.
Proof.
  intros [H _] Hin. destruct (H nm Hin) as [Hc Hs].
  unfold hasattr. rewrite Hc, Hs. reflexivity.
Qed.

Lemma free_names_store (fs : dict) (self : obj) (text : string)
    (item : string * field_def) :
  free_names c fs self -> In (fst item) (map fst fs) ->
  free_names c fs (store_raw text self item).
Proof.
  intros [H1 H2] Hin. split; [|exact H2].
  intros nm Hnm. destruct (H1 nm Hnm) as [Hc Hs]. split; [exact Hc|].
  unfold store_raw, setattr. rewrite lookup_insert_ne; [exact Hs|].
  intros Heq. exact (H2 nm (fst item) Hnm Hin (eq_sym Heq)).
Qed.

Lemma free_names_fold (fs pre : dict) (self : obj) (text : string) :
  free_names c fs self -> incl (map fst pre) (map fst fs) ->
  free_names c fs (fold_left (store_raw text) pre self).
Proof.
  revert self. induction pre as [|item pre IH]; intros self Hfree Hincl.
  - exact Hfree.
  - simpl. apply IH.
    + apply free_names_store; [exact Hfree|]. apply Hincl. left; reflexivity.
    + intros x Hx. apply Hincl. right; exact Hx.
Qed.

(** [_parse] goes through the fields that pass their test, storing their
    columns. *)
Lemma parse_accepted_prefix (fs pre rest : dict) (self : obj) :
  free_names c fs self -> incl (map fst pre) (map fst fs) ->
  Forall (fun item => accepts (raw_record_text self) (snd item) = true) pre ->
  for_each (parse_field c) (pre ++ rest)%list self
  = for_each (parse_field c) rest
      (fold_left (store_raw (raw_record_text self)) pre self).
Proof.
  revert self. induction pre as [|[nm fd] pre IH]; intros self Hfree Hincl HF.
  - reflexivity.
  - apply Forall_cons in HF as [Hacc HF]. simpl in Hacc.
    assert (Hnm : In nm (map fst fs)) by (apply Hincl; left; reflexivity).
    change (((nm, fd) :: pre) ++ rest)%list
      with ((nm, fd) :: (pre ++ rest))%list.
    cbn [for_each]. rewrite parse_field_accepted;
      [|exact (free_names_hasattr fs self nm Hfree Hnm)|exact Hacc].
    rewrite bind_OK_l, IH; cbn [fold_left].
    + rewrite raw_record_text_store. reflexivity.
    + apply free_names_store; [exact Hfree|exact Hnm].
    + intros x Hx. apply Hincl. right; exact Hx.
    + rewrite raw_record_text_store. exact HF.
Qed.

(** An error of [_parse] on a schema of free names and known types is the
    error of a field whose column fails its test. *)
Lemma parse_Raise_mismatch (fs rest : dict) (self : obj) (e : exn) :
  free_names c fs self -> incl (map fst rest) (map fst fs) ->
  Forall (fun item => known_type (type (snd item)) = true) rest ->
  for_each (parse_field c) rest self = Raise e ->
  exists nm fd, In (nm, fd) rest
                /\ accepts (raw_record_text self) fd = false
                /\ e = mismatch nm fd (column (raw_record_text self) fd).
Proof.
  revert self. induction rest as [|[nm fd] rest IH];
    intros self Hfree Hincl Hk; [discriminate|].
  apply Forall_cons in Hk as [Hk1 Hk]. simpl in Hk1.
  assert (Hnm : In nm (map fst fs)) by (apply Hincl; left; reflexivity).
  pose proof (free_names_hasattr fs self nm Hfree Hnm) as Hh.
  cbn [for_each]. destruct (accepts (raw_record_text self) fd) eqn:Hacc.
  - rewrite parse_field_accepted by assumption. rewrite bind_OK_l. intros H.
    apply IH in H as (nm' & fd' & Hin & Ha & He).
    + rewrite raw_record_text_store in Ha, He.
      exists nm', fd'. split; [right; exact Hin|]. split; assumption.
    + apply free_names_store; [exact Hfree|exact Hnm].
    + intros x Hx. apply Hincl. right; exact Hx.
    + exact Hk.
  - rewrite parse_field_rejected by assumption. cbn [bind]. intros [= <-].
    exists nm, fd. split; [left; reflexivity|]. split; [exact Hacc|reflexivity].
Qed.
End ParseFields.

Lemma raw_record_text_fold (text : string) (fs : dict) (self : obj) :
  raw_record_text (fold_left (store_raw text) fs self) = raw_record_text self.
Proof.
  revert self. induction fs as [|item fs IH]; intros self; [reflexivity|].
  simpl. rewrite IH. apply raw_record_text_store.
Qed.

Lemma kinds_known_types (k : kind) :
  Forall (fun item => known_type (type (snd item)) = true)
    (schema (lockbox_class k)).
Proof. destruct k; repeat constructor. Qed.

Lemma kind_free_names (k : kind) (text : string) :
  free_names (prepared (lockbox_class k)) (schema (lockbox_class k))
    (fresh text).
Proof.
  destruct (well_formed_inv k) as (_ & Hcls & Hraw & _). split; [|exact Hraw].
  intros nm Hin. split; [exact (Hcls nm Hin)|].
  unfold fresh, setattr. rewrite lookup_insert_ne; [apply lookup_empty|].
  intros <-. specialize (Hcls _ Hin). discriminate.
Qed.

Lemma incl_app_l {A : Type} (f : string * field_def -> A)
    (pre rest : dict) :
  incl (map f pre) (map f (pre ++ rest)%list).
Proof. intros x Hx. rewrite map_app. apply in_or_app. left; exact Hx. Qed.

(** X5.  In each kind, [_parse] tests the fields in the order of the schema,
    [record_type] last: a line of admissible length whose first field to
    fail its test is [nm] ends in the [LockboxParseError] that names [nm]
    and its type and quotes its untrimmed column, whatever the later
    fields hold. *)
Theorem X5_parse_error_names_the_first_failing_field (k : kind)
    (text : string) (pre post : dict) (nm : string) (fd : field_def) :
  len text <= 160 ->
  schema (lockbox_class k) = (pre ++ (nm, fd) :: post)%list ->
  Forall (fun item => accepts text (snd item) = true) pre ->
  accepts text fd = false ->
  construct k text = Raise (mismatch nm fd (column text fd)).
Proof.
  intros Hlen Hsch HF Hrej.
  assert (Hf : fields (lockbox_class k) <> None).
  { destruct (schema_or_none k) as [Hf|Hnil]; [exact Hf|].
    rewrite Hnil in Hsch. destruct pre; discriminate. }
  pose proof (kind_free_names k text) as Hfree.
  pose proof (kinds_known_types k) as Hk.
  unfold construct. rewrite init_eq; [|destruct k; exact Hlen|exact Hf].
  rewrite Hsch in Hfree, Hk |- *.
  rewrite (parse_accepted_prefix _ _ pre _ _ Hfree (incl_app_l fst pre _) HF).
  change (raw_record_text (fresh text)) with text.
  cbn [for_each]. rewrite parse_field_rejected.
  - rewrite raw_record_text_fold. reflexivity.
  - apply (free_names_hasattr _ _ _ nm
             (free_names_fold _ _ pre _ text Hfree (incl_app_l fst pre _))).
    rewrite map_app. apply in_or_app. right; left; reflexivity.
  - apply Forall_app in Hk as [_ Hk]. apply Forall_cons in Hk as [Hk _].
    exact Hk.
  - rewrite raw_record_text_fold. exact Hrej.
Qed.

(** A service record with no digit in front: every field passes but
    [record_type]. *)
Lemma X5_witness :
  construct ServiceRecord "X"
  = Raise (mismatch "record_type" record_type_field "X").
Proof.
  apply (X5_parse_error_names_the_first_failing_field ServiceRecord "X"
           (dict_display LockboxServiceRecord.fields_display) []
           "record_type" record_type_field).
  - vm_compute. discriminate.
  - reflexivity.
  - repeat constructor.
  - reflexivity.
Defined.

(** X4.  A field whose type is none of the four ends the construction of
    any line of admissible length in the [LockboxDefinitionError] that
    quotes the type, once the fields before it in the schema have been
    parsed, whatever its own column holds. *)
Theorem X4_unknown_field_type_is_a_definition_error (c : record_class)
    (text : string) (pre post : dict) (nm : string) (fd : field_def) :
  len text <= MAX_RECORD_LENGTH c ->
  schema c = (pre ++ (nm, fd) :: post)%list ->
  known_type (type fd) = false ->
  class_hasattr c nm = false ->
  ~ In nm (map (fun item => raw_name (fst item)) pre) ->
  snd (__init__ c text)
  = match for_each (parse_field (prepared c)) pre (fresh text) with
    | OK _ => Raise (invalid_field_type (type fd))
    | Raise e => Raise e
    end.
Proof.
  intros Hlen Hsch Hk Hcls Hraw.
  assert (Hf : fields c <> None).
  { intros Hf. unfold schema, prepared, items in Hsch. rewrite Hf in Hsch.
    rewrite Hf in Hsch. destruct pre; discriminate. }
  rewrite (init_eq c text Hlen Hf), Hsch, for_each_app.
  destruct (for_each _ pre (fresh text)) as [o1|e] eqn:Hpre; [|reflexivity].
  rewrite bind_OK_l. cbn [for_each].
  rewrite parse_field_unknown; [reflexivity| |exact Hk].
  unfold hasattr. rewrite class_hasattr_prepared, Hcls.
  apply for_each_parse_OK in Hpre as [-> _].
  rewrite store_raw_other.
  - unfold fresh, setattr. rewrite lookup_insert_ne; [reflexivity|].
    intros <-. discriminate.
  - intros item Hin Heq. apply Hraw. rewrite <- Heq.
    exact (in_map (fun item => raw_name (fst item)) _ _ Hin).
Qed.

(** A field of type [decimal]. *)
Lemma X4_witness :
  snd (__init__ mistyped_class "012") = Raise (invalid_field_type "decimal").
Proof.
  apply (X4_unknown_field_type_is_a_definition_error mistyped_class "012" []
           [("record_type", record_type_field)] "amount"
           {| location := (1, 3); type := "decimal" |}).
  - vm_compute. discriminate.
  - reflexivity.
  - reflexivity.
  - reflexivity.
  - intros [].
Defined.

(** ** What [validate] assigns *)

Section Convert.
Variable c : namespace.

(** A statement assigns what [convert] makes of the raw value of its
    field. *)
Lemma exec_convert (self : obj) (st : statement) (raw : string) :
  self !! raw_name (subject st) = Some (VStr raw) ->
  exec c self st = (v <- convert st raw ;; OK (setattr self (written st) v)).
Proof.
  intros H. destruct st as [nm|nm|nm|nm|nm|nm]; simpl in H |- *.
  - unfold set_int, getattr_str. rewrite H. simpl.
    destruct (py_int raw); reflexivity.
  - unfold set_hundredths, getattr_str. rewrite H. simpl.
    destruct (py_int raw); reflexivity.
  - unfold set_date. rewrite (parse_as_date_decode c self nm raw false H).
    reflexivity.
  - unfold set_time. rewrite (parse_as_time_decode c self nm raw H).
    reflexivity.
  - apply zero_unless_numeric_run, H.
  - apply zero_if_empty_run, H.
Qed.

Lemma convert_Raise (st : statement) (raw : string) (e : exn) :
  convert st raw = Raise e ->
  e = ValueError \/ e = not_a_date raw \/ e = not_a_time raw.
Proof.
  destruct st; simpl; try discriminate; intros H.
  - apply bind_Raise in H as [H|(? & _ & H)]; [|discriminate].
    left. exact (py_int_Raise _ _ H).
  - apply bind_Raise in H as [H|(? & _ & H)]; [|discriminate].
    left. exact (py_int_Raise _ _ H).
  - right; left. exact (decode_date_Raise _ _ _ H).
  - right; right. exact (decode_time_Raise _ _ H).
Qed.

Lemma convert_raw_is_string (st : statement) (raw : string) (v : value) :
  converts st = false -> convert st raw = OK v -> exists s, v = VStr s.
Proof. destruct st; simpl; try discriminate; intros _ [= <-]; eauto. Qed.

Lemma converts_written (st : statement) :
  converts st = true -> written st = subject st.
Proof. destruct st; simpl; try discriminate; reflexivity. Qed.

(** An error of the statements of a [validate] is the error of a
    conversion: raw values stay strings all along. *)
Lemma run_Raise_convert (all sts : list statement) (self : obj) (e : exn) :
  (forall st st', In st all -> In st' all -> converts st = true ->
                  subject st <> raw_name (subject st')) ->
  incl sts all ->
  (forall st, In st all ->
              exists raw, self !! raw_name (subject st) = Some (VStr raw)) ->
  for_each (exec c) sts self = Raise e ->
  exists st raw, In st sts /\ convert st raw = Raise e.
Proof.
  intros Hne. revert self. induction sts as [|st sts IH];
    intros self Hincl Hraw; [discriminate|].
  assert (Hst : In st all) by (apply Hincl; left; reflexivity).
  destruct (Hraw st Hst) as [raw Hr].
  cbn [for_each]. rewrite (exec_convert self st raw Hr).
  destruct (convert st raw) as [v|e'] eqn:Hc.
  - rewrite !bind_OK_l. intros H. apply IH in H as (st' & raw' & Hin & H).
    + exists st', raw'. split; [right; exact Hin|exact H].
    + intros x Hx. apply Hincl. right; exact Hx.
    + intros st' Hst'. unfold setattr.
      destruct (String.eqb_spec (written st) (raw_name (subject st')))
        as [Heq|Hneq].
      * rewrite Heq, lookup_insert_eq.
        destruct (converts st) eqn:Hcv.
        -- exfalso. rewrite (converts_written st Hcv) in Heq.
           exact (Hne st st' Hst Hst' Hcv Heq).
        -- destruct (convert_raw_is_string st raw v Hcv Hc) as [s ->]. eauto.
      * rewrite lookup_insert_ne by exact Hneq. apply Hraw, Hst'.
  - cbn [bind]. intros [= <-]. exists st, raw.
    split; [left; reflexivity|exact Hc].
Qed.

(** Statements that only convert, each on a field of its own, succeed when
    every conversion does, and then every field holds its converted
    value; otherwise they end in the error of a conversion. *)
Lemma run_converts (R : string -> string) (sts : list statement) (self : obj) :
  forallb converts sts = true ->
  NoDup (map subject sts) ->
  (forall st st', In st sts -> In st' sts ->
                  subject st <> raw_name (subject st')) ->
  (forall st, In st sts ->
              self !! raw_name (subject st) = Some (VStr (R (subject st)))) ->
  match for_each (exec c) sts self with
  | OK o2 =>
      forall st, In st sts ->
                 exists v, convert st (R (subject st)) = OK v
                           /\ o2 !! subject st = Some v
  | Raise e => exists st, In st sts /\ convert st (R (subject st)) = Raise e
  end.
Proof.
  revert self. induction sts as [|st sts IH]; intros self Hcv Hnd Hne Hraw.
  - simpl. intros st [].
  - simpl in Hcv. apply andb_prop in Hcv as [Hst Hcv].
    simpl in Hnd. apply NoDup_cons in Hnd as [Hfresh Hnd].
    rewrite list_elem_of_In in Hfresh.
    cbn [for_each].
    rewrite (exec_convert self st _ (Hraw st (or_introl eq_refl))).
    rewrite (converts_written st Hst).
    destruct (convert st (R (subject st))) as [v|e] eqn:Hc.
    + rewrite !bind_OK_l.
      assert (Hraw' : forall st', In st' sts ->
                setattr self (subject st) v !! raw_name (subject st')
                = Some (VStr (R (subject st')))).
      { intros st' H'. unfold setattr. rewrite lookup_insert_ne.
        - apply Hraw. right; exact H'.
        - apply Hne; [left; reflexivity|right; exact H']. }
      specialize (IH (setattr self (subject st) v) Hcv Hnd
                    (fun a b Ha Hb => Hne a b (or_intror Ha) (or_intror Hb))
                    Hraw').
      destruct (for_each (exec c) sts (setattr self (subject st) v))
        as [o2|e] eqn:Hrun.
      * intros st' [<-|H']; [|exact (IH st' H')].
        exists v. split; [exact Hc|].
        rewrite (run_frame c sts _ o2 (subject st) Hrun).
        -- unfold setattr. apply lookup_insert_eq.
        -- intros Hin. apply Hfresh. apply in_map_iff in Hin as (x & Hx & Hin).
           apply in_map_iff. exists x. split; [|exact Hin].
           rewrite <- Hx. symmetry. apply converts_written.
           rewrite forallb_forall in Hcv. exact (Hcv x Hin).
      * destruct IH as (st' & H' & IH). exists st'. split; [right; exact H'|].
        exact IH.
    + cbn [bind]. exists st. split; [left; reflexivity|exact Hc].
Qed.
End Convert.

Lemma converts_only_subjects (k : kind) :
  converts_only k = true -> NoDup (map subject (body k)).
Proof.
  destruct k; intros H; try discriminate H;
    apply (bool_decide_eq_true_1 (NoDup _)); vm_compute; reflexivity.
Qed.

Lemma body_subjects_apart (k : kind) (st st' : statement) :
  In st (body k) -> In st' (body k) -> subject st <> raw_name (subject st').
Proof.
  destruct (well_formed_inv k) as (_ & _ & Hclash & Hsub & _).
  intros H H'. apply Hclash; apply Hsub; assumption.
Qed.

(** The statements of a kind with no fallback, run on the raw values that
    [_parse] stored. *)
Lemma typed_run (k : kind) (text : string) :
  converts_only k = true ->
  match for_each (exec (prepared (lockbox_class k))) (body k)
          (fold_left (store_raw text) (schema (lockbox_class k)) (fresh text))
  with
  | OK o2 =>
      forall st fd, In st (body k) ->
                    In (subject st, fd) (schema (lockbox_class k)) ->
                    exists v, convert st (column text fd) = OK v
                              /\ o2 !! subject st = Some v
  | Raise e =>
      exists st fd, In st (body k)
                    /\ In (subject st, fd) (schema (lockbox_class k))
                    /\ convert st (column text fd) = Raise e
  end.
Proof.
  intros Hcv.
  destruct (well_formed_inv k) as (_ & _ & _ & Hsub & _).
  set (o1 := fold_left (store_raw text) (schema (lockbox_class k)) (fresh text)).
  set (R := fun nm => match o1 !! raw_name nm with
                      | Some (VStr s) => s
                      | _ => EmptyString
                      end).
  assert (HR : forall nm fd, In (nm, fd) (schema (lockbox_class k)) ->
                 o1 !! raw_name nm = Some (VStr (R nm))
                 /\ R nm = column text fd).
  { intros nm fd H. unfold R, o1. rewrite (parsed_raw k text nm fd H).
    split; reflexivity. }
  pose proof (run_converts (prepared (lockbox_class k)) R (body k) o1 Hcv
                (converts_only_subjects k Hcv) (body_subjects_apart k)) as Hrun.
  assert (Hraw : forall st, In st (body k) ->
                   o1 !! raw_name (subject st) = Some (VStr (R (subject st)))).
  { intros st H. destruct (schema_field k _ (Hsub st H)) as [fd Hfd].
    exact (proj1 (HR _ _ Hfd)). }
  specialize (Hrun Hraw).
  destruct (for_each (exec (prepared (lockbox_class k))) (body k) o1)
    as [o2|e].
  - intros st fd Hst Hfd. destruct (Hrun st Hst) as (v & Hv & Ho).
    exists v. rewrite <- (proj2 (HR _ _ Hfd)). split; assumption.
  - destruct Hrun as (st & Hst & He).
    destruct (schema_field k _ (Hsub st Hst)) as [fd Hfd].
    exists st, fd. rewrite <- (proj2 (HR _ _ Hfd)). auto.
Qed.

Lemma schema_nonempty (k : kind) (item : string * field_def) :
  In item (schema (lockbox_class k)) -> fields (lockbox_class k) <> None.
Proof.
  intros Hin. destruct (schema_or_none k) as [Hf|Hnil]; [exact Hf|].
  rewrite Hnil in Hin. destruct Hin.
Qed.

(** X6.  In an instance of a kind other than [DetailRecord], every field
    that [validate] works on holds the conversion of its untrimmed column:
    the integer that [int()] reads there, that integer over 100, the date
    or the time decoded from it. *)
Theorem X6_validated_fields_hold_the_converted_column (k : kind)
    (text : string) (o : obj) :
  construct k text = OK o -> converts_only k = true ->
  forall st fd, In st (body k) ->
                In (subject st, fd) (schema (lockbox_class k)) ->
                exists v, convert st (column text fd) = OK v
                          /\ o !! subject st = Some v.
Proof.
  intros H Hcv st fd Hst Hfd.
  apply construct_OK in H as (_ & _ & _ & o2 & Hrun & ->);
    [|exact (schema_nonempty k _ Hfd)].
  pose proof (typed_run k text Hcv) as Ht. rewrite Hrun in Ht.
  destruct (Ht st fd Hst Hfd) as (v & Hv & Ho). exists v. split; [exact Hv|].
  rewrite (constructed_field k o2 _ fd Hfd), Ho. reflexivity.
Qed.

(** The total of the checks of [service_total_line], in hundredths. *)
Lemma X6_witness :
  exists v,
    convert (SetHundredths "check_dollar_total")
      (slice service_total_line 24 34) = OK v
    /\ instance ServiceTotalRecord service_total_line !! "check_dollar_total"
       = Some v.
Proof.
  assert (E : construct ServiceTotalRecord service_total_line
              = OK (instance ServiceTotalRecord service_total_line))
    by (vm_cast_no_check (eq_refl (construct ServiceTotalRecord service_total_line))).
  apply (X6_validated_fields_hold_the_converted_column ServiceTotalRecord
           service_total_line _ E eq_refl
           (SetHundredths "check_dollar_total")
           {| location := (24, 34); type := Numeric |}).
  - vm_compute. tauto.
  - vm_compute. tauto.
Defined.

Lemma parse_all_accepted (k : kind) (text : string) :
  Forall (fun item => accepts text (snd item) = true)
    (schema (lockbox_class k)) ->
  for_each (parse_field (prepared (lockbox_class k)))
    (schema (lockbox_class k)) (fresh text)
  = OK (fold_left (store_raw text) (schema (lockbox_class k)) (fresh text)).
Proof.
  intros HF.
  pose proof (parse_accepted_prefix (prepared (lockbox_class k))
                (schema (lockbox_class k)) (schema (lockbox_class k)) []
                (fresh text) (kind_free_names k text) (incl_refl _) HF) as H.
  rewrite app_nil_r in H. exact H.
Qed.

(** X7.  When a line gives an instance, for the kinds with a schema other
    than [DetailRecord]: exactly when it has at most 160 characters, every
    field of the schema passes its test, and every conversion of
    [validate] succeeds on the untrimmed column of its field. *)
Theorem X7_when_construction_succeeds (k : kind) (text : string) :
  fields (lockbox_class k) <> None -> converts_only k = true ->
  (exists o, construct k text = OK o)
  <-> (len text <= 160
       /\ Forall (fun item => accepts text (snd item) = true)
            (schema (lockbox_class k))
       /\ forall st fd, In st (body k) ->
                        In (subject st, fd) (schema (lockbox_class k)) ->
                        exists v, convert st (column text fd) = OK v).
Proof.
  intros Hf Hcv. pose proof (typed_run k text Hcv) as Ht. split.
  - intros [o H]. apply construct_OK in H as (Hlen & _ & HF & o2 & Hrun & _);
      [|exact Hf].
    split; [exact Hlen|]. split; [exact HF|].
    rewrite Hrun in Ht. intros st fd Hst Hfd.
    destruct (Ht st fd Hst Hfd) as (v & Hv & _). eauto.
  - intros (Hlen & HF & Hconv). unfold construct.
    rewrite init_eq; [|destruct k; exact Hlen|exact Hf].
    rewrite (parse_all_accepted k text HF), bind_OK_l.
    assert (Hrun : exists o2,
               for_each (exec (prepared (lockbox_class k))) (body k)
                 (fold_left (store_raw text) (schema (lockbox_class k))
                    (fresh text)) = OK o2).
    { destruct (for_each _ (body k) _) as [o2|e]; [eauto|].
      destruct Ht as (st & fd & Hst & Hfd & He).
      destruct (Hconv st fd Hst Hfd) as [v Hv]. congruence. }
    destruct Hrun as [o2 Hrun].
    destruct (validate (lockbox_class k)) as [v|] eqn:Ev.
    + rewrite (validate_body k v _ _ Ev), Hrun. rewrite bind_OK_l. eauto.
    + rewrite bind_OK_l. eauto.
Qed.

(** [service_total_line] passes all the tests and conversions. *)
Lemma X7_witness : exists o, construct ServiceTotalRecord service_total_line = OK o.
Proof.
  apply (proj2 (X7_when_construction_succeeds ServiceTotalRecord
                  service_total_line ltac:(discriminate) eq_refl)).
  split; [vm_compute; discriminate|]. split.
  - repeat constructor.
  - intros st fd Hst Hfd.
    repeat (destruct Hst as [<-|Hst];
            [repeat (destruct Hfd as [Hfd|Hfd];
                     [try discriminate Hfd; injection Hfd as <-;
                      eexists; vm_compute; reflexivity|]);
             destruct Hfd|]).
    destruct Hst.
Defined.

(** X11.  An instance keeps the line it was made from: in every instance of
    every kind the attribute [raw_record_text] is the whole line, which
    neither [validate] nor the loop that creates the fields writes to. *)
Theorem X11_instance_keeps_the_line (k : kind) (text : string) (o : obj) :
  construct k text = OK o -> o !! "raw_record_text" = Some (VStr text).
Proof.
  intros H. destruct (schema_or_none k) as [Hf|Hnil].
  - apply construct_OK in H as (_ & _ & _ & o2 & Hrun & ->); [|exact Hf].
    destruct (well_formed_inv k) as (_ & Hcls & _ & Hsub & _).
    assert (Hnot : ~ In "raw_record_text" (names k)).
    { intros Hin. specialize (Hcls _ Hin). discriminate. }
    rewrite expose_other by exact Hnot.
    rewrite (run_frame _ _ _ _ "raw_record_text" Hrun).
    + rewrite store_raw_other.
      * unfold fresh, setattr. apply lookup_insert_eq.
      * intros item _. apply raw_name_not_text.
    + intros Hin. apply in_map_iff in Hin as (st & Hw & Hst).
      destruct (written_subject st) as [E|E]; rewrite E in Hw.
      * apply Hnot. rewrite <- Hw. exact (Hsub st Hst).
      * exact (raw_name_not_text _ Hw).
  - destruct k; try discriminate Hnil. unfold construct, __init__ in H.
    simpl in H. destruct (160 <? len text); [discriminate|].
    injection H as <-. unfold setattr. apply lookup_insert_eq.
Qed.

(** The trailer line is kept. *)
Lemma X11_witness :
  instance DestinationTrailerRecord trailer_line !! "raw_record_text"
  = Some (VStr trailer_line).
Proof.
  apply (X11_instance_keeps_the_line DestinationTrailerRecord trailer_line).
  vm_cast_no_check (eq_refl (construct DestinationTrailerRecord trailer_line)).
Defined.

(** X13.  The errors of the nine kinds.  A line that gives no instance ends
    in one of: the [LockboxParseError] of a line of more than 160
    characters; the [LockboxParseError] of a field of the schema whose
    column fails its test, naming it; the [ValueError] of [int()]; the
    [LockboxDefinitionError] of a date or of a time.  No kind ends in an
    [AttributeError] or a [TypeError]. *)
Theorem X13_errors_of_the_kinds (k : kind) (text : string) (e : exn) :
  construct k text = Raise e ->
  (160 < len text /\ e = too_long)
  \/ (exists nm fd, In (nm, fd) (schema (lockbox_class k))
                    /\ accepts text fd = false
                    /\ e = mismatch nm fd (column text fd))
  \/ e = ValueError
  \/ (exists s, e = not_a_date s)
  \/ (exists s, e = not_a_time s).
Proof.
  intros H. destruct (Z.ltb_spec 160 (len text)) as [Hlong|Hlen].
  - left. split; [exact Hlong|]. apply Z.ltb_lt in Hlong.
    unfold construct, __init__ in H.
    replace (MAX_RECORD_LENGTH (lockbox_class k)) with 160 in H
      by (destruct k; reflexivity).
    rewrite Hlong in H. simpl in H. injection H as <-. reflexivity.
  - right. unfold construct in H.
    apply init_Raise in H as [H|(o1 & v & Hp & Hv & H)];
      [| |destruct k; exact Hlen].
    + left.
      apply (parse_Raise_mismatch (prepared (lockbox_class k))
               (schema (lockbox_class k)) (schema (lockbox_class k))
               (fresh text) e (kind_free_names k text) (incl_refl _)
               (kinds_known_types k)) in H.
      exact H.
    + right. rewrite (validate_body k v _ _ Hv) in H.
      apply for_each_parse_OK in Hp as [-> _].
      destruct (well_formed_inv k) as (_ & _ & _ & Hsub & _).
      apply (run_Raise_convert _ (body k)) in H as (st & raw & _ & H).
      * destruct (convert_Raise st raw e H) as [He|[He|He]]; eauto.
      * intros st st' Hst Hst' _. exact (body_subjects_apart k st st' Hst Hst').
      * apply incl_refl.
      * intros st Hst. destruct (schema_field k _ (Hsub st Hst)) as [fd Hfd].
        exists (column text fd). exact (parsed_raw k text _ fd Hfd).
Qed.

(** The letters in the batch number of a detail header: a [ValueError]. *)
Lemma X13_witness :
  (160 < len detail_header_line_letters /\ ValueError = too_long)
  \/ (exists nm fd, In (nm, fd) (schema (lockbox_class DetailHeader))
                    /\ accepts detail_header_line_letters fd = false
                    /\ ValueError
                       = mismatch nm fd (column detail_header_line_letters fd))
  \/ ValueError = ValueError
  \/ (exists s, ValueError = not_a_date s)
  \/ (exists s, ValueError = not_a_time s).
Proof.
  apply (X13_errors_of_the_kinds DetailHeader detail_header_line_letters).
  vm_compute. reflexivity.
Defined.

(** ** Short lines and the size of the fields *)

Lemma substring_nothing (n : nat) (s : string) : substring n 0 s = EmptyString.
Proof.
  revert n. induction s as [|a s IH]; intros [|n]; simpl; try reflexivity.
  apply IH.
Qed.

Lemma substring_length_eq (n m : nat) (s : string) :
  String.length (substring n m s) = Nat.min m (String.length s - n).
Proof.
  revert n m. induction s as [|a s IH]; intros [|n] [|m]; simpl;
    try reflexivity.
  - rewrite (IH 0%nat m). rewrite Nat.sub_0_r. reflexivity.
  - rewrite substring_nothing. reflexivity.
  - apply IH.
Qed.

(** The length of [s\[a:b\]] for bounds that are not negative. *)
Lemma slice_len_eq (s : string) (a b : Z) :
  0 <= a -> 0 <= b ->
  len (slice s a b) = Z.max 0 (Z.min b (len s) - Z.min a (len s)).
Proof.
  intros Ha Hb. unfold slice, clamp_index.
  destruct (Z.ltb_spec a 0); [lia|]. destruct (Z.ltb_spec b 0); [lia|].
  unfold len at 1. rewrite substring_length_eq. unfold len. lia.
Qed.

Lemma len_zero (s : string) : len s = 0 -> s = EmptyString.
Proof. destruct s; [reflexivity|]. rewrite len_cons. pose proof (len_nonneg s). lia. Qed.

Lemma kinds_locations (k : kind) :
  Forall (fun item => 0 <= fst (location (snd item))
                      <= snd (location (snd item)))
    (schema (lockbox_class k)).
Proof. destruct k; repeat constructor; simpl; lia. Qed.

Lemma kinds_date_widths (k : kind) (nm : string) (fd : field_def) :
  In (nm, fd) (schema (lockbox_class k)) ->
  (In (SetDate nm) (body k) -> width fd = 6)
  /\ (In (SetTime nm) (body k) -> width fd = 4).
Proof.
  intros Hin.
  destruct k; simpl in Hin;
    repeat (destruct Hin as [Hin|Hin];
            [injection Hin as <- <-;
             split; intros H; simpl in H;
             repeat (destruct H as [H|H]; [try discriminate H|]);
             try destruct H; reflexivity|]);
    destruct Hin.
Qed.

Lemma kinds_dates_convert (k : kind) (nm : string) :
  In (SetDate nm) (body k) \/ In (SetTime nm) (body k) ->
  converts_only k = true.
Proof.
  destruct k; simpl; try reflexivity; intros [H|H];
    repeat (destruct H as [H|H]; [discriminate H|]); destruct H.
Qed.

Lemma accepted_not_empty (text : string) (fd : field_def) :
  type fd = Numeric \/ type fd = Alphanumeric ->
  accepts text fd = true -> column text fd <> EmptyString.
Proof.
  intros Hty Hacc Hcol. unfold accepts in Hacc. rewrite Hcol in Hacc.
  destruct Hty as [E|E]; rewrite E in Hacc; discriminate.
Qed.

(** X8.  Lines that are too short give no instance.  In an instance of any
    kind, every Numeric and every Alphanumeric field starts inside the
    line, and every field that [validate] decodes as a date or a time lies
    inside the line with all its columns. *)
Theorem X8_fields_lie_inside_the_line (k : kind) (text : string) (o : obj) :
  construct k text = OK o ->
  forall nm fd, In (nm, fd) (schema (lockbox_class k)) ->
    (type fd = Numeric \/ type fd = Alphanumeric ->
     fst (location fd) < len text)
    /\ (In (SetDate nm) (body k) \/ In (SetTime nm) (body k) ->
        snd (location fd) <= len text).
Proof.
  intros H nm fd Hin.
  pose proof (proj1 (List.Forall_forall _ _) (kinds_locations k) _ Hin) as Hloc.
  simpl in Hloc.
  pose proof H as H'.
  apply construct_OK in H' as (_ & _ & HF & o2 & Hrun & _);
    [|exact (schema_nonempty k _ Hin)].
  pose proof (proj1 (List.Forall_forall _ _) HF _ Hin) as Hacc. simpl in Hacc.
  split.
  - intros Hty. pose proof (accepted_not_empty text fd Hty Hacc) as Hne.
    destruct (Z.lt_ge_cases (fst (location fd)) (len text)) as [Hlt|Hge];
      [exact Hlt|].
    exfalso. apply Hne. apply len_zero. unfold column.
    rewrite slice_len_eq by lia. lia.
  - intros Hd. pose proof (kinds_dates_convert k nm Hd) as Hcv.
    pose proof (typed_run k text Hcv) as Ht. rewrite Hrun in Ht.
    destruct (kinds_date_widths k nm fd Hin) as [Wd Wt].
    assert (Hlen : len (column text fd) = width fd).
    { destruct Hd as [Hd|Hd].
      - destruct (Ht (SetDate nm) fd Hd Hin) as (v & Hv & _). simpl in Hv.
        rewrite (Wd Hd). exact (proj1 (decode_date_OK _ _ _ Hv)).
      - destruct (Ht (SetTime nm) fd Hd Hin) as (v & Hv & _). simpl in Hv.
        rewrite (Wt Hd). exact (proj1 (decode_time_OK _ _ Hv)). }
    assert (Hw : 0 < width fd) by (destruct Hd as [Hd|Hd]; [rewrite (Wd Hd)|rewrite (Wt Hd)]; lia).
    unfold column in Hlen. rewrite slice_len_eq in Hlen by lia.
    unfold width in *. lia.
Qed.

(** An immediate address header has at least 33 characters: its time is in
    the columns 29 to 33. *)
Lemma X8_witness : 33 <= len header_line.
Proof.
  assert (E : construct ImmediateAddressHeader header_line
              = OK (instance ImmediateAddressHeader header_line))
    by (vm_cast_no_check (eq_refl (construct ImmediateAddressHeader header_line))).
  refine (proj2 (X8_fields_lie_inside_the_line ImmediateAddressHeader
                   header_line _ E "processing_time"
                   {| location := (29, 33); type := Numeric |} _) _).
  - vm_compute. tauto.
  - right. right. left. reflexivity.
Defined.

(** X14.  In an instance of a kind other than [DetailRecord], a field that
    [validate] reads with [int()] holds an integer below [10 ^ w] and above
    [- 10 ^ (w - 1)], where [w] is the number of columns of the field: a
    field of three columns holds -99 to 999. *)
Theorem X14_integer_fields_fit_their_columns (k : kind) (text : string)
    (o : obj) (nm : string) (fd : field_def) :
  construct k text = OK o -> converts_only k = true ->
  In (SetInt nm) (body k) -> In (nm, fd) (schema (lockbox_class k)) ->
  exists n, o !! nm = Some (VInt n)
            /\ - 10 ^ (width fd - 1) < n < 10 ^ width fd.
Proof.
  intros H Hcv Hst Hin.
  pose proof (proj1 (List.Forall_forall _ _) (kinds_locations k) _ Hin) as Hloc.
  simpl in Hloc.
  apply construct_OK in H as (_ & _ & _ & o2 & Hrun & ->);
    [|exact (schema_nonempty k _ Hin)].
  pose proof (typed_run k text Hcv) as Ht. rewrite Hrun in Ht.
  destruct (Ht (SetInt nm) fd Hst Hin) as (v & Hv & Ho). simpl in Hv, Ho.
  apply bind_OK in Hv as (n & Hn & [= <-]).
  exists n. split.
  - rewrite (constructed_field k o2 nm fd Hin), Ho. reflexivity.
  - apply py_int_bound in Hn.
    pose proof (slice_len text _ _ Hloc) as Hle. fold (column text fd) in Hle.
    fold (width fd) in Hle.
    pose proof (len_nonneg (column text fd)) as Hge.
    assert (H1 : 10 ^ len (column text fd) <= 10 ^ width fd)
      by (apply Z.pow_le_mono_r; lia).
    destruct (Z.eq_dec (len (column text fd)) 0) as [E|E].
    + rewrite E in Hn. simpl in Hn. lia.
    + assert (H2 : 10 ^ (len (column text fd) - 1) <= 10 ^ (width fd - 1))
        by (apply Z.pow_le_mono_r; lia).
      lia.
Qed.

(** The batch number of [service_total_line]. *)
Lemma X14_witness :
  exists n,
    instance ServiceTotalRecord service_total_line !! "batch_number"
    = Some (VInt n)
    /\ - 10 ^ (width {| location := (1, 4); type := Numeric |} - 1) < n
       < 10 ^ width {| location := (1, 4); type := Numeric |}.
Proof.
  assert (E : construct ServiceTotalRecord service_total_line
              = OK (instance ServiceTotalRecord service_total_line))
    by (vm_cast_no_check (eq_refl (construct ServiceTotalRecord service_total_line))).
  apply (X14_integer_fields_fit_their_columns ServiceTotalRecord
           service_total_line _ "batch_number"
           {| location := (1, 4); type := Numeric |} E eq_refl).
  - left. reflexivity.
  - left. reflexivity.
Defined.

(** ** Numeric fields with white space around the digits *)




Lemma append_empty_r (s : string) : s +:+ EmptyString = s.
Proof.
  induction s as [|a s IH]; [reflexivity|]. rewrite append_cons, IH. reflexivity.
Qed.
















(** ** The columns that no field covers *)

Section Elsewhere.
Variables (c : namespace) (text text' : string).

Let swap (self : obj) : obj := setattr self "raw_record_text" (VStr text').

Lemma raw_name_not_the_line (nm : string) : raw_name nm <> "raw_record_text".
Proof. unfold raw_name. rewrite append_cons. discriminate. Qed.

Lemma hasattr_swap (self : obj) (nm : string) :
  hasattr c (swap self) nm = hasattr c self nm.
Proof.
  unfold hasattr, swap, setattr.
  destruct (String.eqb_spec nm "raw_record_text") as [->|Hne].
  - assert (E : class_hasattr c "raw_record_text" = true) by reflexivity.
    rewrite E, !orb_true_r. reflexivity.
  - rewrite lookup_insert_ne by congruence. reflexivity.
Qed.

Lemma hasattr_the_line (self : obj) : hasattr c self "raw_record_text" = true.
Proof.
  unfold hasattr.
  assert (E : class_hasattr c "raw_record_text" = true) by reflexivity.
  rewrite E. apply orb_true_r.
Qed.

Lemma swap_setattr (self : obj) (nm : string) (v : value) :
  nm <> "raw_record_text" ->
  setattr (swap self) nm v = swap (setattr self nm v).
Proof. intros Hne. unfold swap, setattr. apply insert_insert_ne. congruence. Qed.

Lemma swap_lookup (self : obj) (nm : string) :
  nm <> "raw_record_text" -> swap self !! nm = self !! nm.
Proof. intros Hne. unfold swap, setattr. apply lookup_insert_ne. congruence. Qed.

Lemma parse_field_swap (self : obj) (item : string * field_def) :
  self !! "raw_record_text" = Some (VStr text) ->
  column text (snd item) = column text' (snd item) ->
  parse_field c (swap self) item
  = match parse_field c self item with
    | OK o => OK (swap o)
    | Raise e => Raise e
    end
  /\ forall o, parse_field c self item = OK o ->
               o !! "raw_record_text" = Some (VStr text).
Proof.
  destruct item as [nm fd]. unfold column. simpl snd. intros Hself Hcol.
  unfold parse_field. rewrite hasattr_swap.
  destruct (hasattr c self nm); [split; [reflexivity|discriminate]|].
  destruct (location fd) as [a b]. simpl in Hcol.
  replace (raw_record_text (swap self)) with text'
    by (unfold raw_record_text, swap, setattr; rewrite lookup_insert_eq; reflexivity).
  replace (raw_record_text self) with text
    by (unfold raw_record_text; rewrite Hself; reflexivity).
  rewrite <- Hcol.
  destruct (compile_pattern (type fd)) as [patt|e]; simpl;
    [|split; [reflexivity|discriminate]].
  destruct (patt (strip (slice text a b))); simpl.
  - split.
    + rewrite swap_setattr by apply raw_name_not_the_line. reflexivity.
    + intros o [= <-]. unfold setattr. rewrite lookup_insert_ne; [exact Hself|].
      apply raw_name_not_the_line.
  - split; [reflexivity|discriminate].
Qed.

Lemma parse_swap (fs : dict) (self : obj) :
  self !! "raw_record_text" = Some (VStr text) ->
  same_columns fs text text' = true ->
  for_each (parse_field c) fs (swap self)
  = match for_each (parse_field c) fs self with
    | OK o => OK (swap o)
    | Raise e => Raise e
    end.
Proof.
  unfold same_columns. revert self.
  induction fs as [|item fs IH]; intros self Hself Hcols; [reflexivity|].
  simpl in Hcols. apply andb_prop in Hcols as [Hcol Hcols].
  apply String.eqb_eq in Hcol.
  destruct (parse_field_swap self item Hself Hcol) as [E Hinv].
  cbn [for_each]. rewrite E.
  destruct (parse_field c self item) as [o|e]; [|reflexivity].
  rewrite !bind_OK_l. exact (IH o (Hinv o eq_refl) Hcols).
Qed.

Lemma getattr_str_swap (self : obj) (nm : string) :
  getattr_str c (swap self) (raw_name nm) = getattr_str c self (raw_name nm).
Proof.
  unfold getattr_str. rewrite swap_lookup by apply raw_name_not_the_line.
  reflexivity.
Qed.

Lemma parse_as_date_swap (self : obj) (nm : string) (mmddyy : bool) :
  _parse_as_date c (swap self) nm mmddyy = _parse_as_date c self nm mmddyy.
Proof.
  unfold _parse_as_date. rewrite hasattr_swap, getattr_str_swap. reflexivity.
Qed.

Lemma parse_as_time_swap (self : obj) (nm : string) :
  _parse_as_time c (swap self) nm = _parse_as_time c self nm.
Proof.
  unfold _parse_as_time. rewrite hasattr_swap, getattr_str_swap. reflexivity.
Qed.

Lemma exec_swap (self : obj) (st : statement) :
  subject st <> "raw_record_text" ->
  exec c (swap self) st
  = match exec c self st with
    | OK o => OK (swap o)
    | Raise e => Raise e
    end.
Proof.
  pose proof raw_name_not_the_line as Hraw.
  destruct st as [nm|nm|nm|nm|nm|nm]; simpl; intros Hne;
    unfold set_int, set_hundredths, set_date, set_time,
      zero_unless_numeric, zero_if_empty;
    rewrite ?getattr_str_swap, ?parse_as_date_swap, ?parse_as_time_swap.
  - destruct (getattr_str c self (raw_name nm)) as [raw|e]; [|reflexivity].
    rewrite !bind_OK_l. destruct (py_int raw) as [n|e]; [|reflexivity].
    rewrite !bind_OK_l, swap_setattr by exact Hne. reflexivity.
  - destruct (getattr_str c self (raw_name nm)) as [raw|e]; [|reflexivity].
    rewrite !bind_OK_l. destruct (py_int raw) as [n|e]; [|reflexivity].
    rewrite !bind_OK_l, swap_setattr by exact Hne. reflexivity.
  - destruct (_parse_as_date c self nm false) as [d|e]; [|reflexivity].
    rewrite !bind_OK_l, swap_setattr by exact Hne. reflexivity.
  - destruct (_parse_as_time c self nm) as [d|e]; [|reflexivity].
    rewrite !bind_OK_l, swap_setattr by exact Hne. reflexivity.
  - destruct (getattr_str c self (raw_name nm)) as [raw|e]; [|reflexivity].
    rewrite !bind_OK_l. destruct (negb (isnumeric raw)); [|reflexivity].
    rewrite swap_setattr by apply Hraw. reflexivity.
  - destruct (getattr_str c self (raw_name nm)) as [raw|e]; [|reflexivity].
    rewrite !bind_OK_l. destruct (len raw =? 0); [|reflexivity].
    rewrite swap_setattr by apply Hraw. reflexivity.
Qed.

Lemma run_swap (sts : list statement) (self : obj) :
  Forall (fun st => subject st <> "raw_record_text") sts ->
  for_each (exec c) sts (swap self)
  = match for_each (exec c) sts self with
    | OK o => OK (swap o)
    | Raise e => Raise e
    end.
Proof.
  intros H. revert self. induction H as [|st sts Hst _ IH]; intros self;
    [reflexivity|].
  cbn [for_each]. rewrite (exec_swap self st Hst).
  destruct (exec c self st) as [o|e]; [|reflexivity].
  rewrite !bind_OK_l. apply IH.
Qed.

Lemma expose_field_swap (self : obj) (item : string * field_def) :
  expose_field c (swap self) item = swap (expose_field c self item).
Proof.
  destruct item as [nm fd]. unfold expose_field. rewrite hasattr_swap.
  destruct (hasattr c self nm) eqn:E; [reflexivity|].
  assert (Hne : nm <> "raw_record_text").
  { intros ->. rewrite hasattr_the_line in E. discriminate. }
  rewrite swap_lookup by apply raw_name_not_the_line.
  apply swap_setattr, Hne.
Qed.

Lemma expose_swap (fs : dict) (self : obj) :
  fold_left (expose_field c) fs (swap self)
  = swap (fold_left (expose_field c) fs self).
Proof.
  revert self. induction fs as [|item fs IH]; intros self; [reflexivity|].
  simpl. rewrite expose_field_swap. apply IH.
Qed.

End Elsewhere.

Lemma kinds_subjects (k : kind) :
  Forall (fun st => subject st <> "raw_record_text") (body k).
Proof. destruct k; repeat constructor; discriminate. Qed.

(** X15.  An instance depends on its line only through the columns of the
    fields of the schema, apart from the attribute [raw_record_text]
    itself: two lines of at most 160 characters that agree on these
    columns give the same error, or instances that differ in
    [raw_record_text] only.  No other column is read, so that no test is
    made of the columns 20 to 30 of a detail header, whose key
    [destination] is written twice in the display of [fields], nor of what
    follows the last field. *)
Theorem X15_only_the_columns_of_the_schema_are_read (k : kind)
    (text text' : string) :
  len text <= 160 -> len text' <= 160 ->
  same_columns (schema (lockbox_class k)) text text' = true ->
  construct k text'
  = match construct k text with
    | OK o => OK (setattr o "raw_record_text" (VStr text'))
    | Raise e => Raise e
    end.
Proof.
  intros Hlen Hlen' Hcols.
  assert (Hfresh : fresh text' = setattr (fresh text) "raw_record_text" (VStr text'))
    by (unfold fresh, setattr; rewrite insert_insert_eq; reflexivity).
  destruct (schema_or_none k) as [Hf|Hnil].
  - unfold construct.
    rewrite !init_eq by (first [exact Hf | destruct k; assumption]).
    rewrite Hfresh, (parse_swap _ text text' _ (fresh text)); [|reflexivity|exact Hcols].
    destruct (for_each (parse_field _) _ (fresh text)) as [o1|e]; [|reflexivity].
    rewrite !bind_OK_l.
    destruct (validate (lockbox_class k)) as [v|] eqn:Ev.
    + rewrite !(validate_body k v _ _ Ev).
      rewrite (run_swap _ text' _ _ (kinds_subjects k)).
      destruct (for_each (exec _) (body k) o1) as [o2|e]; [|reflexivity].
      rewrite !bind_OK_l, expose_swap. reflexivity.
    + rewrite !bind_OK_l, expose_swap. reflexivity.
  - destruct k; try discriminate Hnil. unfold construct, __init__. simpl fields.
    simpl MAX_RECORD_LENGTH.
    destruct (Z.ltb_spec 160 (len text)); [lia|].
    destruct (Z.ltb_spec 160 (len text')); [lia|].
    simpl. f_equal.
Qed.

(** Two detail headers that differ in the columns 20 to 30. *)
Lemma X15_witness :
  construct DetailHeader detail_header_line_other
  = match construct DetailHeader detail_header_line with
    | OK o => OK (setattr o "raw_record_text" (VStr detail_header_line_other))
    | Raise e => Raise e
    end.
Proof.
  apply (X15_only_the_columns_of_the_schema_are_read DetailHeader
           detail_header_line detail_header_line_other).
  - vm_compute. discriminate.
  - vm_compute. discriminate.
  - vm_compute. reflexivity.
Defined.

(** ** What [__init__] does to the class *)

Lemma dict_get_set (d : dict) (key : string) (v : field_def) :
  dict_get (dict_set d key v) key = Some v.
Proof.
  induction d as [|[k w] d IH]; simpl.
  - rewrite String.eqb_refl. reflexivity.
  - destruct (String.eqb k key) eqn:E; simpl; rewrite E; [reflexivity|exact IH].
Qed.

Lemma dict_get_set_other (d : dict) (key key' : string) (v : field_def) :
  key' <> key -> dict_get (dict_set d key v) key' = dict_get d key'.
Proof.
  intros Hne. induction d as [|[k w] d IH]; simpl.
  - apply String.eqb_neq in Hne. rewrite String.eqb_sym, Hne. reflexivity.
  - destruct (String.eqb k key) eqn:E; simpl.
    + apply String.eqb_eq in E. subst k.
      apply String.eqb_neq in Hne. rewrite String.eqb_sym, Hne. reflexivity.
    + rewrite IH. reflexivity.
Qed.

Lemma dict_set_new (d : dict) (key : string) (v : field_def) :
  dict_get d key = None -> dict_set d key v = (d ++ [(key, v)])%list.
Proof.
  induction d as [|[k w] d IH]; simpl; [reflexivity|].
  destruct (String.eqb k key); [discriminate|]. intros H. rewrite (IH H).
  reflexivity.
Qed.

Lemma dict_set_keys (d : dict) (key : string) (v : field_def) :
  dict_get d key <> None -> map fst (dict_set d key v) = map fst d.
Proof.
  induction d as [|[k w] d IH]; simpl; [congruence|].
  destruct (String.eqb k key); [reflexivity|]. intros H. simpl.
  rewrite (IH H). reflexivity.
Qed.

(** X10.  Making an instance of a class that has a [fields] dictionary
    from a line that is not too long writes the class: whether the
    instance is made or an error is raised, the class's [fields] has the
    key [record_type] afterwards, with the columns 0 to 1 and the type
    Numeric, also when the class gave that key another value.  The other
    keys keep their values; a new key comes last, a key that was there
    keeps its place.  Nothing else of the class changes. *)
Theorem X10_init_sets_record_type_in_the_class (c : record_class)
    (d : dict) (text : string) :
  fields c = Some d -> len text <= MAX_RECORD_LENGTH c ->
  exists d',
    fields (fst (__init__ c text)) = Some d'
    /\ dict_get d' "record_type" = Some record_type_field
    /\ (forall key, key <> "record_type" -> dict_get d' key = dict_get d key)
    /\ (dict_get d "record_type" = None ->
        d' = (d ++ [("record_type", record_type_field)])%list)
    /\ (dict_get d "record_type" <> None -> map fst d' = map fst d)
    /\ class_name (fst (__init__ c text)) = class_name c
    /\ MAX_RECORD_LENGTH (fst (__init__ c text)) = MAX_RECORD_LENGTH c
    /\ RECORD_TYPE_NUM (fst (__init__ c text)) = RECORD_TYPE_NUM c
    /\ defines (fst (__init__ c text)) = defines c
    /\ validate (fst (__init__ c text)) = validate c.
Proof.
  intros Hf Hlen. unfold __init__.
  destruct (Z.ltb_spec (MAX_RECORD_LENGTH c) (len text)); [lia|].
  rewrite Hf. simpl.
  exists (dict_set d "record_type" record_type_field).
  split; [reflexivity|]. split; [apply dict_get_set|].
  split; [intros key Hk; apply dict_get_set_other, Hk|].
  split; [apply dict_set_new|]. split; [apply dict_set_keys|].
  repeat split; reflexivity.
Qed.

(** The class of the destination trailers after its first instance. *)
Lemma X10_witness :
  exists d',
    fields (fst (__init__ (lockbox_class DestinationTrailerRecord) trailer_line))
    = Some d'
    /\ dict_get d' "record_type" = Some record_type_field
    /\ (forall key, key <> "record_type" ->
          dict_get d' key
          = dict_get (dict_display LockboxDestinationTrailerRecord.fields_display)
              key)
    /\ (dict_get (dict_display LockboxDestinationTrailerRecord.fields_display)
          "record_type" = None ->
        d' = (dict_display LockboxDestinationTrailerRecord.fields_display
                ++ [("record_type", record_type_field)])%list)
    /\ (dict_get (dict_display LockboxDestinationTrailerRecord.fields_display)
          "record_type" <> None ->
        map fst d'
        = map fst (dict_display LockboxDestinationTrailerRecord.fields_display))
    /\ class_name (fst (__init__ (lockbox_class DestinationTrailerRecord)
                          trailer_line))
       = class_name (lockbox_class DestinationTrailerRecord)
    /\ MAX_RECORD_LENGTH (fst (__init__ (lockbox_class DestinationTrailerRecord)
                                 trailer_line))
       = MAX_RECORD_LENGTH (lockbox_class DestinationTrailerRecord)
    /\ RECORD_TYPE_NUM (fst (__init__ (lockbox_class DestinationTrailerRecord)
                               trailer_line))
       = RECORD_TYPE_NUM (lockbox_class DestinationTrailerRecord)
    /\ defines (fst (__init__ (lockbox_class DestinationTrailerRecord)
                       trailer_line))
       = defines (lockbox_class DestinationTrailerRecord)
    /\ validate (fst (__init__ (lockbox_class DestinationTrailerRecord)
                        trailer_line))
       = validate (lockbox_class DestinationTrailerRecord).
Proof.
  apply (X10_init_sets_record_type_in_the_class
           (lockbox_class DestinationTrailerRecord)
           (dict_display LockboxDestinationTrailerRecord.fields_display)
           trailer_line).
  - reflexivity.
  - vm_compute. discriminate.
Defined.

(** ** Integer fields with no fallback: which error comes first *)

Lemma dict_get_In (d : dict) (nm : string) (fd : field_def) :
  NoDup (map fst d) -> In (nm, fd) d -> dict_get d nm = Some fd.
Proof.
  induction d as [|[k v] d IH]; simpl; [intros _ []|].
  intros Hnd Hin. apply NoDup_cons in Hnd as [Hfresh Hnd].
  rewrite list_elem_of_In in Hfresh.
  destruct Hin as [[= -> ->]|Hin].
  - rewrite String.eqb_refl. reflexivity.
  - destruct (String.eqb_spec k nm) as [->|_]; [|exact (IH Hnd Hin)].
    exfalso. apply Hfresh. exact (in_map fst _ _ Hin).
Qed.

Lemma field_column_eq (k : kind) (text nm : string) (fd : field_def) :
  In (nm, fd) (schema (lockbox_class k)) ->
  field_column k text nm = column text fd.
Proof.
  intros Hin. unfold field_column.
  rewrite (dict_get_In _ nm fd (proj1 (well_formed_inv k)) Hin). reflexivity.
Qed.

Section FirstError.
Variables (c : namespace) (R : string -> string).

(** Statements that convert, run on raw values [R] that they do not
    assign, end in the error of the first of them whose conversion
    fails. *)
Lemma run_first_error (sts : list statement) (self : obj) :
  forallb converts sts = true ->
  (forall st st', In st sts -> In st' sts ->
                  subject st <> raw_name (subject st')) ->
  (forall st, In st sts ->
              self !! raw_name (subject st) = Some (VStr (R (subject st)))) ->
  match for_each (exec c) sts self with
  | OK _ => first_error R sts = None
  | Raise e => first_error R sts = Some e
  end.
Proof.
  revert self. induction sts as [|st sts IH]; intros self Hcv Hne Hraw;
    [reflexivity|].
  simpl in Hcv. apply andb_prop in Hcv as [Hst Hcv].
  cbn [for_each first_error].
  rewrite (exec_convert c self st _ (Hraw st (or_introl eq_refl))).
  rewrite (converts_written st Hst).
  destruct (convert st (R (subject st))) as [v|e]; [|reflexivity].
  rewrite bind_OK_l. apply IH.
  - exact Hcv.
  - intros a b Ha Hb. apply Hne; right; assumption.
  - intros st' H'. unfold setattr. rewrite lookup_insert_ne.
    + apply Hraw. right; exact H'.
    + apply Hne; [left; reflexivity|right; exact H'].
Qed.

End FirstError.

(** The statements of a kind with no fallback, run on the raw values that
    [_parse] stored, end in the error of the first conversion that fails on
    the column of its field. *)
Lemma validate_first_error (k : kind) (text : string) :
  converts_only k = true ->
  match for_each (exec (prepared (lockbox_class k))) (body k)
          (fold_left (store_raw text) (schema (lockbox_class k)) (fresh text))
  with
  | OK _ => first_error (field_column k text) (body k) = None
  | Raise e => first_error (field_column k text) (body k) = Some e
  end.
Proof.
  intros Hcv. destruct (well_formed_inv k) as (_ & _ & _ & Hsub & _).
  apply run_first_error.
  - exact Hcv.
  - apply body_subjects_apart.
  - intros st Hst. destruct (schema_field k _ (Hsub st Hst)) as [fd Hfd].
    rewrite (parsed_raw k text _ fd Hfd), (field_column_eq k text _ fd Hfd).
    reflexivity.
Qed.

Lemma integer_fields_convert (k : kind) (nm : string) :
  In nm (integer_fields k) ->
  converts_only k = true /\ fields (lockbox_class k) <> None.
Proof.
  destruct k; simpl; try tauto; intros _; split; try reflexivity; discriminate.
Qed.

Ltac int_cases R :=
  repeat match goal with
         | H : py_int (R ?x) = _ |- context [py_int (R ?x)] => rewrite H
         | |- context [py_int (R ?x)] =>
             let E := fresh "E" in
             destruct (py_int (R x)) as [?|?] eqn:E;
             [|apply py_int_Raise in E; subst]
         | |- context [decode_date (R ?x) false] =>
             let E := fresh "E" in
             destruct (decode_date (R x) false) as [?|?] eqn:E;
             [|apply decode_date_Raise in E; subst]
         end;
  cbn [bind negb andb]; try reflexivity.

(** With an integer field that [int()] rejects, the first error of the
    statements of [validate] is the [ValueError] of [int()], but for the
    fields converted after the date, when the integer fields before the
    date pass and the date is invalid. *)
Lemma first_error_integer_field (k : kind) (R : string -> string)
    (nm : string) :
  In nm (integer_fields k) -> py_int (R nm) = Raise ValueError ->
  first_error R (body k)
  = Some (if mem nm (converted_after_date k)
             && forallb (fun nm' => accepted_by_int (R nm'))
                  (converted_before_date k)
             && negb (valid_date (R "deposit_date"))
          then not_a_date (R "deposit_date")
          else ValueError).
Proof.
  intros Hin Hraise.
  destruct k; simpl in Hin; try contradiction;
    repeat (destruct Hin as [<-|Hin]; [|]); try contradiction;
    cbn [body first_error convert subject converted_after_date
         converted_before_date forallb];
    unfold accepted_by_int, valid_date;
    match goal with
    | |- context [mem ?a ?l] =>
        let b := eval vm_compute in (mem a l) in
        change (mem a l) with b
    end;
    cbn [andb]; int_cases R.
Qed.

(** C4, as the code has it.  In the kinds whose [validate] hands fields to
    [int()] with no fallback, a line that passes [_parse] and has such a
    field whose column [int()] rejects gives no instance, and the
    construction ends in the [ValueError] of [int()], which is not a
    [LockboxDefinitionError].  The one exception is in the two kinds of
    totals, for the fields that [validate] converts after it has decoded
    [deposit_date] (the number of remittances or of checks and the
    dollar total): when [int()] accepts [batch_number] and [item_number]
    and the date is invalid, the construction ends in the
    [LockboxDefinitionError] of the date.  The detail header, whose date is
    not decoded, the overflow record, the destination trailer and the
    fields [batch_number] and [item_number] of the totals always end in
    the [ValueError]. *)
Theorem C4_integer_field_raises_ValueError (k : kind) (text : string)
    (o1 : obj) (nm : string) (fd : field_def) :
  len text <= 160 ->
  _parse (prepared (lockbox_class k)) (fresh text) = OK o1 ->
  In nm (integer_fields k) ->
  In (nm, fd) (schema (lockbox_class k)) ->
  py_int (column text fd) = Raise ValueError ->
  construct k text
  = (if date_fails_first k text nm
     then Raise (not_a_date (field_column k text "deposit_date"))
     else Raise ValueError)
  /\ (date_fails_first k text nm = true ->
      (k = BatchTotalRecord \/ k = ServiceTotalRecord)
      /\ nm <> "batch_number" /\ nm <> "item_number"
      /\ field_column k text "deposit_date" = slice text 14 20
      /\ decode_date (slice text 14 20) false
         = Raise (not_a_date (slice text 14 20))
      /\ exists n m, py_int (slice text 1 4) = OK n
                     /\ py_int (slice text 4 7) = OK m).
Proof.
  intros Hlen Hparse Hint Hin Hraise.
  destruct (integer_fields_convert k nm Hint) as [Hcv Hf].
  split.
  - assert (Hp : for_each (parse_field (prepared (lockbox_class k)))
                   (schema (lockbox_class k)) (fresh text) = OK o1)
      by exact Hparse.
    unfold construct. rewrite init_eq; [|destruct k; exact Hlen|exact Hf].
    rewrite Hp, bind_OK_l.
    apply for_each_parse_OK in Hp as [-> _].
    change (raw_record_text (fresh text)) with text.
    pose proof (validate_first_error k text Hcv) as Hrun.
    rewrite <- (field_column_eq k text nm fd Hin) in Hraise.
    rewrite (first_error_integer_field k (field_column k text) nm Hint Hraise)
      in Hrun.
    fold (date_fails_first k text nm) in Hrun.
    destruct (validate (lockbox_class k)) as [v|] eqn:Ev.
    + rewrite (validate_body k v _ _ Ev).
      destruct (for_each (exec _) (body k) _) as [o2|e]; [discriminate|].
      injection Hrun as <-. cbn [bind].
      destruct (date_fails_first k text nm); reflexivity.
    + rewrite (no_validate_no_body k Ev) in Hrun. discriminate.
  - unfold date_fails_first. intros H.
    apply andb_prop in H as [H Hdate]. apply andb_prop in H as [Hmem Hbefore].
    apply negb_true_iff in Hdate. unfold valid_date in Hdate.
    assert (Hk : k = BatchTotalRecord \/ k = ServiceTotalRecord)
      by (destruct k; try discriminate Hmem; auto).
    split; [exact Hk|].
    assert (Hcols : field_column k text "deposit_date" = slice text 14 20
                    /\ field_column k text "batch_number" = slice text 1 4
                    /\ field_column k text "item_number" = slice text 4 7)
      by (destruct Hk as [->| ->]; repeat split; reflexivity).
    destruct Hcols as (Ed & Eb & Ei).
    split; [intros ->; destruct Hk as [->| ->]; discriminate Hmem|].
    split; [intros ->; destruct Hk as [->| ->]; discriminate Hmem|].
    split; [exact Ed|]. rewrite Ed in Hdate. split.
    + destruct (decode_date (slice text 14 20) false) as [v|e] eqn:E;
        [discriminate|].
      rewrite (decode_date_Raise _ _ _ E). reflexivity.
    + assert (Hb : accepted_by_int (slice text 1 4) = true
                   /\ accepted_by_int (slice text 4 7) = true).
      { rewrite <- Eb, <- Ei.
        destruct Hk as [->| ->]; simpl in Hbefore;
          apply andb_prop in Hbefore as [H1 H2];
          apply andb_prop in H2 as [H2 _]; auto. }
      unfold accepted_by_int in Hb. destruct Hb as [H1 H2].
      destruct (py_int (slice text 1 4)) as [n|]; [|discriminate].
      destruct (py_int (slice text 4 7)) as [m|]; [|discriminate].
      eauto.
Qed.

(** The batch number [ABC] ends a detail header in the [ValueError], also
    with the date [999999], and so it does a batch total; the number of
    remittances [ABC] of a batch total with that date ends it in the error
    of the date. *)
Lemma C4_witness :
  construct DetailHeader detail_header_line_bad_date = Raise ValueError
  /\ construct BatchTotalRecord batch_total_line_bad_batch = Raise ValueError
  /\ construct BatchTotalRecord batch_total_line_bad_count
     = Raise (not_a_date "999999").
Proof.
  split; [|split].
  - refine (proj1 (C4_integer_field_raises_ValueError DetailHeader
                     detail_header_line_bad_date
                     (fold_left (store_raw detail_header_line_bad_date)
                        (schema (lockbox_class DetailHeader))
                        (fresh detail_header_line_bad_date))
                     "batch_number"
                     {| location := (1, 4); type := AlphanumericOrBlank |}
                     _ _ _ _ _)).
    + vm_compute. discriminate.
    + vm_cast_no_check
        (eq_refl (_parse (prepared (lockbox_class DetailHeader))
                    (fresh detail_header_line_bad_date))).
    + left. reflexivity.
    + left. reflexivity.
    + vm_compute. reflexivity.
  - refine (proj1 (C4_integer_field_raises_ValueError BatchTotalRecord
                     batch_total_line_bad_batch
                     (fold_left (store_raw batch_total_line_bad_batch)
                        (schema (lockbox_class BatchTotalRecord))
                        (fresh batch_total_line_bad_batch))
                     "batch_number"
                     {| location := (1, 4); type := AlphanumericOrBlank |}
                     _ _ _ _ _)).
    + vm_compute. discriminate.
    + vm_cast_no_check
        (eq_refl (_parse (prepared (lockbox_class BatchTotalRecord))
                    (fresh batch_total_line_bad_batch))).
    + left. reflexivity.
    + left. reflexivity.
    + vm_compute. reflexivity.
  - refine (eq_trans
              (proj1 (C4_integer_field_raises_ValueError BatchTotalRecord
                        batch_total_line_bad_count
                        (fold_left (store_raw batch_total_line_bad_count)
                           (schema (lockbox_class BatchTotalRecord))
                           (fresh batch_total_line_bad_count))
                        "total_number_remittances"
                        {| location := (20, 23); type := AlphanumericOrBlank |}
                        _ _ _ _ _)) _).
    + vm_compute. discriminate.
    + vm_cast_no_check
        (eq_refl (_parse (prepared (lockbox_class BatchTotalRecord))
                    (fresh batch_total_line_bad_count))).
    + right. right. left. reflexivity.
    + vm_compute. tauto.
    + vm_compute. reflexivity.
    + vm_compute. reflexivity.
Defined.
